(** * Looking Glass host service (host/Service.cpp)

    A shallow embedding of [Service::Initialize], [Service::InitPointers],
    [Service::DeInitialize], [Service::Process] and [Service::CursorThread],
    the producer side of the KVMFR shared-memory protocol.

    - The shared region is a record of the header fields plus the cursor
      staging bytes; every access the service makes to it is recorded, in
      program order, together with the contents of the region just before the
      access.
    - The capture backend, the IVSHMEM device, the Windows session API and the
      consumer on the other side of the region form the [Platform] interface;
      the service is written once against that interface.
    - Loops that wait on the platform (capture retries, the frame and cursor
      hand-shakes) take fuel: [None] means that the loop was still running
      when the fuel ran out. *)

From Stdlib Require Import ZArith List Bool Lia String.
Import ListNotations.
Local Open Scope Z_scope.

(** ** Machine integers *)

(** [uint8_t]: the flag bytes. *)
Definition to_uint8 (x : Z) : Z := x mod 2 ^ 8.

(** [uintptr_t], [size_t], [UINT64] and [uint64_t] of the 64-bit host build. *)
Definition to_uintptr (x : Z) : Z := x mod 2 ^ 64.

(** [#define ALIGN_DN(x) ((uintptr_t)(x) & ~0x7F)]: [~0x7F] is the [int] -128,
    converted to [uintptr_t] for the conjunction. *)
Definition ALIGN_DN (x : Z) : Z :=
  Z.land (to_uintptr x) (to_uintptr (Z.lnot 0x7F)).

(** [#define ALIGN_UP(x) ALIGN_DN(x + 0x7F)] *)
Definition ALIGN_UP (x : Z) : Z := ALIGN_DN (x + 0x7F).

(** ** What the headers declare *)

(** [enum GrabStatus] of ICapture.h, by the enumerators the service uses. *)
Inductive GrabStatus : Type :=
| GRAB_STATUS_OK
| GRAB_STATUS_TIMEOUT
| GRAB_STATUS_CURSOR
| GRAB_STATUS_ERROR
| GRAB_STATUS_REINIT.

Definition GrabStatus_eqb (a b : GrabStatus) : bool :=
  match a, b with
  | GRAB_STATUS_OK, GRAB_STATUS_OK
  | GRAB_STATUS_TIMEOUT, GRAB_STATUS_TIMEOUT
  | GRAB_STATUS_CURSOR, GRAB_STATUS_CURSOR
  | GRAB_STATUS_ERROR, GRAB_STATUS_ERROR
  | GRAB_STATUS_REINIT, GRAB_STATUS_REINIT => true
  | _, _ => false
  end.

(** Modelled from the spec: common/KVMFR.h is not among the sources; the wire
    layout of the spec puts RESTART on bit 0 and PAUSED on bit 1 of the global
    flags byte, and UPDATE on bit 0 of the frame descriptor's flags byte. *)
Definition KVMFR_HEADER_FLAG_RESTART : Z := 1.
Definition KVMFR_HEADER_FLAG_PAUSED : Z := 2.
Definition KVMFR_FRAME_FLAG_UPDATE : Z := 1.

(** The constants and type widths that Service.h, ICapture.h and
    common/KVMFR.h declare and that neither the source file nor the spec
    fixes.  The service is parametric in them. *)
Record Headers : Type := {
  MAX_FRAMES : Z;                 (* Service.h: cardinality of the frame ring *)
  sizeof_KVMFRHeader : Z;         (* sizeof(KVMFRHeader) *)
  KVMFR_HEADER_MAGIC : Z;         (* the magic bytes, read as a number *)
  KVMFR_HEADER_VERSION : Z;
  cursor_update_bit : Z;          (* KVMFR_CURSOR_FLAG_UPDATE  = 1 << bit *)
  cursor_pos_bit : Z;             (* KVMFR_CURSOR_FLAG_POS     = 1 << bit *)
  cursor_shape_bit : Z;           (* KVMFR_CURSOR_FLAG_SHAPE   = 1 << bit *)
  cursor_visible_bit : Z;         (* KVMFR_CURSOR_FLAG_VISIBLE = 1 << bit *)
  cursor_version_bits : Z;        (* width of KVMFRCursor::version *)
  GrabStatus_value : GrabStatus -> Z   (* the enumerators' integer values *)
}.

Definition KVMFR_CURSOR_FLAG_UPDATE (H : Headers) : Z := Z.shiftl 1 (cursor_update_bit H).
Definition KVMFR_CURSOR_FLAG_POS (H : Headers) : Z := Z.shiftl 1 (cursor_pos_bit H).
Definition KVMFR_CURSOR_FLAG_SHAPE (H : Headers) : Z := Z.shiftl 1 (cursor_shape_bit H).
Definition KVMFR_CURSOR_FLAG_VISIBLE (H : Headers) : Z := Z.shiftl 1 (cursor_visible_bit H).

Definition all_statuses : list GrabStatus :=
  [GRAB_STATUS_OK; GRAB_STATUS_TIMEOUT; GRAB_STATUS_CURSOR; GRAB_STATUS_ERROR;
   GRAB_STATUS_REINIT].

Definition is_flag_bit (b : Z) : bool := (0 <=? b) && (b <? 8).

(** The enumerators have pairwise different values (they label the cases of
    one [switch]). *)
Definition distinct_values (H : Headers) : bool :=
  forallb (fun a => forallb (fun b =>
     GrabStatus_eqb a b || negb (GrabStatus_value H a =? GrabStatus_value H b))
     all_statuses) all_statuses.

(** What any sensible set of headers satisfies: a non-empty ring, a header of
    non-negative size, four different cursor flag bits within the flags byte,
    a version counter of positive width, distinct enumerators. *)
Definition Headers_ok (H : Headers) : bool :=
  (0 <? MAX_FRAMES H) && (0 <=? sizeof_KVMFRHeader H)
  && is_flag_bit (cursor_update_bit H) && is_flag_bit (cursor_pos_bit H)
  && is_flag_bit (cursor_shape_bit H) && is_flag_bit (cursor_visible_bit H)
  && negb (cursor_update_bit H =? cursor_pos_bit H)
  && negb (cursor_update_bit H =? cursor_shape_bit H)
  && negb (cursor_update_bit H =? cursor_visible_bit H)
  && negb (cursor_pos_bit H =? cursor_shape_bit H)
  && negb (cursor_pos_bit H =? cursor_visible_bit H)
  && negb (cursor_shape_bit H =? cursor_visible_bit H)
  && (0 <? cursor_version_bits H)
  && distinct_values H.

(** A [bool] function returning a [GrabStatus]: the implicit conversion of
    [return result;] in [Process]. *)
Definition GrabStatus_to_bool (H : Headers) (st : GrabStatus) : bool :=
  negb (GrabStatus_value H st =? 0).

(** ** The shared-memory region *)

Record KVMFRFrame : Type := {
  frame_type : Z;
  frame_width : Z;
  frame_height : Z;
  frame_stride : Z;
  frame_pitch : Z;
  frame_dataPos : Z;
  frame_flags : Z
}.

Record KVMFRCursor : Type := {
  cursor_flags : Z;
  cursor_x : Z;
  cursor_y : Z;
  cursor_version : Z;
  cursor_type : Z;
  cursor_width : Z;
  cursor_height : Z;
  cursor_pitch : Z;
  cursor_dataPos : Z
}.

Record KVMFRHeader : Type := {
  magic : Z;
  version : Z;
  flags : Z;
  frame : KVMFRFrame;
  cursor : KVMFRCursor
}.

(** The mapped region: the header at offset 0 and the bytes of the cursor
    staging area.  What the backend writes into a frame slot is the
    backend's; the model records that it was handed the slot. *)
Record Shm : Type := {
  header : KVMFRHeader;
  cursorData : list Z
}.

(** The scalar fields of the region the service loads and stores. *)
Inductive Loc : Type :=
| HeaderMagic | HeaderVersion | HeaderFlags
| FrameType | FrameWidth | FrameHeight | FrameStride | FramePitch
| FrameDataPos | FrameFlags
| CursorFlags | CursorX | CursorY | CursorVersion | CursorType
| CursorWidth | CursorHeight | CursorPitch | CursorDataPos.

Definition read_loc (l : Loc) (m : Shm) : Z :=
  let h := header m in
  match l with
  | HeaderMagic => magic h
  | HeaderVersion => version h
  | HeaderFlags => flags h
  | FrameType => frame_type (frame h)
  | FrameWidth => frame_width (frame h)
  | FrameHeight => frame_height (frame h)
  | FrameStride => frame_stride (frame h)
  | FramePitch => frame_pitch (frame h)
  | FrameDataPos => frame_dataPos (frame h)
  | FrameFlags => frame_flags (frame h)
  | CursorFlags => cursor_flags (cursor h)
  | CursorX => cursor_x (cursor h)
  | CursorY => cursor_y (cursor h)
  | CursorVersion => cursor_version (cursor h)
  | CursorType => cursor_type (cursor h)
  | CursorWidth => cursor_width (cursor h)
  | CursorHeight => cursor_height (cursor h)
  | CursorPitch => cursor_pitch (cursor h)
  | CursorDataPos => cursor_dataPos (cursor h)
  end.

Definition set_frame (l : Loc) (v : Z) (f : KVMFRFrame) : KVMFRFrame :=
  {| frame_type := match l with FrameType => v | _ => frame_type f end;
     frame_width := match l with FrameWidth => v | _ => frame_width f end;
     frame_height := match l with FrameHeight => v | _ => frame_height f end;
     frame_stride := match l with FrameStride => v | _ => frame_stride f end;
     frame_pitch := match l with FramePitch => v | _ => frame_pitch f end;
     frame_dataPos := match l with FrameDataPos => v | _ => frame_dataPos f end;
     frame_flags := match l with FrameFlags => v | _ => frame_flags f end |}.

Definition set_cursor (l : Loc) (v : Z) (c : KVMFRCursor) : KVMFRCursor :=
  {| cursor_flags := match l with CursorFlags => v | _ => cursor_flags c end;
     cursor_x := match l with CursorX => v | _ => cursor_x c end;
     cursor_y := match l with CursorY => v | _ => cursor_y c end;
     cursor_version := match l with CursorVersion => v | _ => cursor_version c end;
     cursor_type := match l with CursorType => v | _ => cursor_type c end;
     cursor_width := match l with CursorWidth => v | _ => cursor_width c end;
     cursor_height := match l with CursorHeight => v | _ => cursor_height c end;
     cursor_pitch := match l with CursorPitch => v | _ => cursor_pitch c end;
     cursor_dataPos := match l with CursorDataPos => v | _ => cursor_dataPos c end |}.

Definition write_loc (l : Loc) (v : Z) (m : Shm) : Shm :=
  let h := header m in
  {| header :=
       {| magic := match l with HeaderMagic => v | _ => magic h end;
          version := match l with HeaderVersion => v | _ => version h end;
          flags := match l with HeaderFlags => v | _ => flags h end;
          frame := set_frame l v (frame h);
          cursor := set_cursor l v (cursor h) |};
     cursorData := cursorData m |}.

Definition Loc_eqb (a b : Loc) : bool :=
  match a, b with
  | HeaderMagic, HeaderMagic | HeaderVersion, HeaderVersion
  | HeaderFlags, HeaderFlags | FrameType, FrameType | FrameWidth, FrameWidth
  | FrameHeight, FrameHeight | FrameStride, FrameStride
  | FramePitch, FramePitch | FrameDataPos, FrameDataPos
  | FrameFlags, FrameFlags | CursorFlags, CursorFlags | CursorX, CursorX
  | CursorY, CursorY | CursorVersion, CursorVersion | CursorType, CursorType
  | CursorWidth, CursorWidth | CursorHeight, CursorHeight
  | CursorPitch, CursorPitch | CursorDataPos, CursorDataPos => true
  | _, _ => false
  end.

(** [ZeroMemory(&(m_shmHeader->frame), sizeof(KVMFRFrame))] and the same for
    the cursor descriptor. *)
Definition zero_frame : KVMFRFrame := Build_KVMFRFrame 0 0 0 0 0 0 0.
Definition zero_cursor : KVMFRCursor := Build_KVMFRCursor 0 0 0 0 0 0 0 0 0.

Definition with_frame (f : KVMFRFrame) (m : Shm) : Shm :=
  let h := header m in
  {| header := {| magic := magic h; version := version h; flags := flags h;
                  frame := f; cursor := cursor h |};
     cursorData := cursorData m |}.

Definition with_cursor (c : KVMFRCursor) (m : Shm) : Shm :=
  let h := header m in
  {| header := {| magic := magic h; version := version h; flags := flags h;
                  frame := frame h; cursor := c |};
     cursorData := cursorData m |}.

(** [memcpy(dst, src, n)] on the cursor staging bytes. *)
Definition memcpy (dst src : list Z) (n : Z) : list Z :=
  firstn (Z.to_nat n) src ++ skipn (Z.to_nat n) dst.

Definition with_cursorData (d : list Z) (m : Shm) : Shm :=
  {| header := header m; cursorData := d |}.

(** ** The service object *)

(** [struct CursorInfo] of ICapture.h: what the backend reports, and what the
    service keeps staged in [m_cursorInfo]. *)
Record CursorInfo : Type := {
  updated : bool;
  visible : bool;
  hasShape : bool;
  hasPos : bool;
  x : Z;
  y : Z;
  type : Z;
  w : Z;
  h : Z;
  pitch : Z;
  shape : list Z;
  dataSize : Z
}.

(** [struct FrameInfo]: the fields [GetFrame] fills in for the service. *)
Record FrameInfo : Type := {
  width : Z;
  height : Z;
  stride : Z;
  fpitch : Z
}.

(** The members of [class Service] that the source file uses.  Pointers are
    addresses, 0 for [NULL]; [m_capture] records whether the pointer to the
    capture device is set; [m_cursorThread] whether the cursor thread has been
    created and has not ended; [m_cursorEvent] whether the auto-reset event
    is signalled. *)
Record Service : Type := {
  m_initialized : bool;
  m_memory : Z;
  m_capture : bool;
  m_shmHeader : Z;
  m_frameIndex : Z;
  m_cursorDataSize : Z;
  m_cursorData : Z;
  m_cursorOffset : Z;
  m_frameSize : Z;
  m_frame : list Z;
  m_dataOffset : list Z;
  m_haveFrame : bool;
  m_tryTarget : Z;
  m_consoleSessionID : Z;
  m_cursorInfo : CursorInfo;
  m_cursorThread : bool;
  m_cursorEvent : bool
}.

Definition set_frameIndex (v : Z) (s : Service) : Service :=
  {| m_initialized := m_initialized s; m_memory := m_memory s;
     m_capture := m_capture s; m_shmHeader := m_shmHeader s;
     m_frameIndex := v;
     m_cursorDataSize := m_cursorDataSize s; m_cursorData := m_cursorData s;
     m_cursorOffset := m_cursorOffset s; m_frameSize := m_frameSize s;
     m_frame := m_frame s; m_dataOffset := m_dataOffset s;
     m_haveFrame := m_haveFrame s; m_tryTarget := m_tryTarget s;
     m_consoleSessionID := m_consoleSessionID s;
     m_cursorInfo := m_cursorInfo s; m_cursorThread := m_cursorThread s;
     m_cursorEvent := m_cursorEvent s |}.

Definition set_haveFrame (v : bool) (s : Service) : Service :=
  {| m_initialized := m_initialized s; m_memory := m_memory s;
     m_capture := m_capture s; m_shmHeader := m_shmHeader s;
     m_frameIndex := m_frameIndex s;
     m_cursorDataSize := m_cursorDataSize s; m_cursorData := m_cursorData s;
     m_cursorOffset := m_cursorOffset s; m_frameSize := m_frameSize s;
     m_frame := m_frame s; m_dataOffset := m_dataOffset s;
     m_haveFrame := v; m_tryTarget := m_tryTarget s;
     m_consoleSessionID := m_consoleSessionID s;
     m_cursorInfo := m_cursorInfo s; m_cursorThread := m_cursorThread s;
     m_cursorEvent := m_cursorEvent s |}.

Definition set_cursorInfo (v : CursorInfo) (s : Service) : Service :=
  {| m_initialized := m_initialized s; m_memory := m_memory s;
     m_capture := m_capture s; m_shmHeader := m_shmHeader s;
     m_frameIndex := m_frameIndex s;
     m_cursorDataSize := m_cursorDataSize s; m_cursorData := m_cursorData s;
     m_cursorOffset := m_cursorOffset s; m_frameSize := m_frameSize s;
     m_frame := m_frame s; m_dataOffset := m_dataOffset s;
     m_haveFrame := m_haveFrame s; m_tryTarget := m_tryTarget s;
     m_consoleSessionID := m_consoleSessionID s;
     m_cursorInfo := v; m_cursorThread := m_cursorThread s;
     m_cursorEvent := m_cursorEvent s |}.

Definition set_cursorEvent (v : bool) (s : Service) : Service :=
  {| m_initialized := m_initialized s; m_memory := m_memory s;
     m_capture := m_capture s; m_shmHeader := m_shmHeader s;
     m_frameIndex := m_frameIndex s;
     m_cursorDataSize := m_cursorDataSize s; m_cursorData := m_cursorData s;
     m_cursorOffset := m_cursorOffset s; m_frameSize := m_frameSize s;
     m_frame := m_frame s; m_dataOffset := m_dataOffset s;
     m_haveFrame := m_haveFrame s; m_tryTarget := m_tryTarget s;
     m_consoleSessionID := m_consoleSessionID s;
     m_cursorInfo := m_cursorInfo s; m_cursorThread := m_cursorThread s;
     m_cursorEvent := v |}.

(** ** The platform *)

(** What the consumer may do to the region while the producer polls it. *)
Inductive ConsumerAct : Type :=
| CIdle          (* nothing *)
| CAckFrame      (* clears the frame descriptor's UPDATE bit *)
| CRestart       (* raises the global RESTART bit *)
| CAckCursor.    (* zeroes the cursor descriptor's flags byte *)

Definition consumer_apply (a : ConsumerAct) (m : Shm) : Shm :=
  match a with
  | CIdle => m
  | CAckFrame =>
      write_loc FrameFlags
        (to_uint8 (Z.land (read_loc FrameFlags m) (Z.lnot KVMFR_FRAME_FLAG_UPDATE))) m
  | CRestart =>
      write_loc HeaderFlags
        (to_uint8 (Z.lor (read_loc HeaderFlags m) KVMFR_HEADER_FLAG_RESTART)) m
  | CAckCursor => write_loc CursorFlags 0 m
  end.

(** The collaborators of the service, over a state [W] of their own: the
    IVSHMEM device, the capture backend ([ICapture]), the session API, and the
    consumer's next action on the region. *)
Class Platform (W : Type) : Type := {
  ivshmem_Initialize : W -> bool * W;
  ivshmem_DeInitialize : W -> W;
  ivshmem_GetSize : W -> Z;
  ivshmem_GetMemory : W -> Z;
  capture_Capture : W -> GrabStatus * W;
  capture_GetFrame : Z -> Z -> W -> (GrabStatus * FrameInfo) * W;
  capture_GetFrameType : W -> Z;
  capture_GetMaxFrameSize : W -> Z;
  capture_GetCursor : W -> CursorInfo;
  capture_ReInitialize : W -> bool * W;
  capture_CanInitialize : W -> bool * W;
  capture_DeInitialize : W -> W;
  WTSGetActiveConsoleSessionId : W -> Z * W;
  consumer : W -> ConsumerAct * W
}.

(** ** Recorded actions *)

Inductive Action : Type :=
| ALoad (l : Loc)                         (* a read of a shared field *)
| AStore (l : Loc) (v : Z)                (* a write of a shared field *)
| AAtomicAnd (l : Loc) (mask : Z)         (* INTERLOCKED_AND8 *)
| AZeroFrame                              (* ZeroMemory of the frame descriptor *)
| AZeroCursor                             (* ZeroMemory of the cursor descriptor *)
| ACursorData (bytes : list Z) (n : Z)    (* memcpy into the cursor staging area *)
| AFrameData (buffer bufferSize : Z)      (* GetFrame fills the slot at buffer *)
| ACapture (st : GrabStatus)              (* Capture() returned st *)
| AReInitialize (ok : bool)               (* ReInitialize() returned ok *)
| AMaxFrameSize (n : Z)                   (* GetMaxFrameSize() returned n *)
| AConsumer (a : ConsumerAct)             (* the consumer acted on the region *)
| ADebugError (msg : string).             (* DEBUG_ERROR *)

(** An action with the contents of the region just before it. *)
Record Event : Type := { before : Shm; action : Action }.

(** An access through a pointer into the mapped region. *)
Definition dereferences (a : Action) : bool :=
  match a with
  | ALoad _ | AStore _ _ | AAtomicAnd _ _ | AZeroFrame | AZeroCursor
  | ACursorData _ _ | AFrameData _ _ => true
  | _ => false
  end.

(** ** The monad of the service's code *)

(** The service object, the shared region and the platform. *)
Record Sys (W : Type) : Type := { svc : Service; shm : Shm; world : W }.
Arguments Build_Sys {W} _ _ _.
Arguments svc {W} _.
Arguments shm {W} _.
Arguments world {W} _.

(** A computation either is still running when its fuel ends ([None]) or
    returns a value, the new state and the actions it performed. *)
Definition M (W A : Type) : Type := Sys W -> option (A * Sys W * list Event).

Definition ret {W A} (a : A) : M W A := fun s => Some (a, s, []).

Definition bind {W A B} (m : M W A) (f : A -> M W B) : M W B :=
  fun s =>
    match m s with
    | None => None
    | Some (a, s1, l1) =>
        match f a s1 with
        | None => None
        | Some (b, s2, l2) => Some (b, s2, l1 ++ l2)
        end
    end.

Declare Scope service_scope.
Delimit Scope service_scope with service.
Notation "x <- c1 ;; c2" := (bind c1 (fun x => c2))
  (at level 61, c1 at next level, right associativity) : service_scope.
Notation "c1 ;; c2" := (bind c1 (fun _ => c2))
  (at level 61, right associativity) : service_scope.
Local Open Scope service_scope.

Definition stuck {W A} : M W A := fun _ => None.

Definition gets {W A} (f : Service -> A) : M W A :=
  fun s => Some (f (svc s), s, []).

Definition modify {W} (f : Service -> Service) : M W unit :=
  fun s => Some (tt, Build_Sys (f (svc s)) (shm s) (world s), []).

Definition ask {W A} (f : W -> A) : M W A :=
  fun s => Some (f (world s), s, []).

Definition call {W A} (f : W -> A * W) : M W A :=
  fun s => Some (fst (f (world s)),
                 Build_Sys (svc s) (shm s) (snd (f (world s))), []).

Definition act {W} (f : W -> W) : M W unit :=
  fun s => Some (tt, Build_Sys (svc s) (shm s) (f (world s)), []).

Definition emit {W} (a : Action) : M W unit :=
  fun s => Some (tt, s, [Build_Event (shm s) a]).

Definition update_shm {W} (a : Action) (f : Shm -> Shm) : M W unit :=
  fun s => Some (tt, Build_Sys (svc s) (f (shm s)) (world s),
                 [Build_Event (shm s) a]).

Definition load {W} (l : Loc) : M W Z :=
  fun s => Some (read_loc l (shm s), s, [Build_Event (shm s) (ALoad l)]).

Definition store {W} (l : Loc) (v : Z) : M W unit :=
  update_shm (AStore l v) (write_loc l v).

(** [INTERLOCKED_AND8(p, mask)]: one atomic read-modify-write of a byte. *)
Definition INTERLOCKED_AND8 {W} (l : Loc) (mask : Z) : M W unit :=
  update_shm (AAtomicAnd l mask)
    (fun m => write_loc l (to_uint8 (Z.land (read_loc l m) mask)) m).

Definition DEBUG_ERROR {W} (msg : string) : M W unit := emit (ADebugError msg).

(** The consumer's turn while the producer sleeps or spins. *)
Definition consumer_turn {W} {P : Platform W} : M W unit :=
  a <- call consumer ;;
  update_shm (AConsumer a) (consumer_apply a).

(** ** Staging of cursor updates (Process, lines 277-301) *)

Definition stage_pos (c info : CursorInfo) : CursorInfo :=
  {| updated := updated info; visible := visible info;
     hasShape := hasShape info;
     hasPos := true; x := x c; y := y c;
     type := type info; w := w info; h := h info; pitch := pitch info;
     shape := shape info; dataSize := dataSize info |}.

Definition stage_shape (c info : CursorInfo) : CursorInfo :=
  {| updated := updated info; visible := visible info;
     hasShape := true;
     hasPos := hasPos info; x := x info; y := y info;
     type := type c; w := w c; h := h c; pitch := pitch c;
     shape := shape c; dataSize := dataSize c |}.

Definition stage_visible (v : bool) (info : CursorInfo) : CursorInfo :=
  {| updated := updated info; visible := v;
     hasShape := hasShape info;
     hasPos := hasPos info; x := x info; y := y info;
     type := type info; w := w info; h := h info; pitch := pitch info;
     shape := shape info; dataSize := dataSize info |}.

Definition clear_hasPos (info : CursorInfo) : CursorInfo :=
  {| updated := updated info; visible := visible info;
     hasShape := hasShape info;
     hasPos := false; x := x info; y := y info;
     type := type info; w := w info; h := h info; pitch := pitch info;
     shape := shape info; dataSize := dataSize info |}.

Definition clear_hasShape (info : CursorInfo) : CursorInfo :=
  {| updated := updated info; visible := visible info;
     hasShape := false;
     hasPos := hasPos info; x := x info; y := y info;
     type := type info; w := w info; h := h info; pitch := pitch info;
     shape := shape info; dataSize := dataSize info |}.

(** The body of [if (cursor.updated)], under the critical section. *)
Definition stage (c info : CursorInfo) : CursorInfo :=
  let info1 := if hasPos c then stage_pos c info else info in
  let info2 := if hasShape c then stage_shape c info1 else info1 in
  stage_visible (visible c) info2.

Definition stage_cursor {W} (c : CursorInfo) : M W unit :=
  if updated c then
    modify (fun s => set_cursorInfo (stage c (m_cursorInfo s)) s) ;;
    modify (set_cursorEvent true)            (* SetEvent(m_cursorEvent) *)
  else ret tt.

(** Locals of [Process]. *)
Record Locals : Type := { ok : bool; cursorOnly : bool; repeat : bool }.

(** How the [switch] on the capture status is left. *)
Inductive SwitchExit : Type :=
| SwBreak (v : Locals)      (* break: on to [if (ok) break;] *)
| SwContinue (i : Z)        (* continue, with the counter as the case left it *)
| SwReturn (b : bool).      (* return b *)

(** How the [for] loop is left. *)
Inductive LoopExit : Type :=
| LoopDone (v : Locals)     (* the loop ended, by [break] or by [i < 2] failing *)
| LoopReturn (b : bool).    (* return b from inside the loop *)

(** ** The service *)

Section Code.

Context {W : Type} {P : Platform W}.
Variable K : Headers.

(** *** InitPointers (lines 113-136) *)

(** [m_cursorData = ALIGN_UP(m_memory + sizeof(KVMFRHeader))], cast to a byte pointer *)
Definition init_cursorData (mem : Z) : Z :=
  ALIGN_UP (mem + sizeof_KVMFRHeader K).

(** [m_cursorDataSize = 1048576] *)
Definition init_cursorDataSize : Z := 1048576.

(** [m_cursorOffset = m_cursorData - m_memory] *)
Definition init_cursorOffset (mem : Z) : Z :=
  to_uintptr (init_cursorData mem - mem).

(** [m_frames = ALIGN_UP(m_cursorData + m_cursorDataSize)], cast to a byte pointer *)
Definition init_frames (mem : Z) : Z :=
  ALIGN_UP (init_cursorData mem + init_cursorDataSize).

(** [m_frameSize = ALIGN_DN((GetSize() - (m_frames - m_memory)) / MAX_FRAMES)],
    in unsigned 64-bit arithmetic. *)
Definition init_frameSize (mem size : Z) : Z :=
  ALIGN_DN (to_uintptr (size - to_uintptr (init_frames mem - mem)) / MAX_FRAMES K).

(** [m_frame[i] = m_frames + i * m_frameSize] *)
Definition init_frame (mem size i : Z) : Z :=
  to_uintptr (init_frames mem + to_uintptr (i * init_frameSize mem size)).

(** [m_dataOffset[i] = m_frame[i] - m_memory] *)
Definition init_dataOffset (mem size i : Z) : Z :=
  to_uintptr (init_frame mem size i - mem).

(** The indices [0 .. MAX_FRAMES-1] of the [for] loop. *)
Definition frame_indices : list Z :=
  map Z.of_nat (seq 0 (Z.to_nat (MAX_FRAMES K))).

Definition InitPointers : M W bool :=
  size <- ask ivshmem_GetSize ;;
  modify (fun s =>
    let mem := m_memory s in
    {| m_initialized := m_initialized s; m_memory := mem;
       m_capture := m_capture s;
       m_shmHeader := mem;
       m_frameIndex := m_frameIndex s;
       m_cursorDataSize := init_cursorDataSize;
       m_cursorData := init_cursorData mem;
       m_cursorOffset := init_cursorOffset mem;
       m_frameSize := init_frameSize mem size;
       m_frame := map (init_frame mem size) frame_indices;
       m_dataOffset := map (init_dataOffset mem size) frame_indices;
       m_haveFrame := m_haveFrame s; m_tryTarget := m_tryTarget s;
       m_consoleSessionID := m_consoleSessionID s;
       m_cursorInfo := m_cursorInfo s; m_cursorThread := m_cursorThread s;
       m_cursorEvent := m_cursorEvent s |}) ;;
  ret true.

(** *** DeInitialize (lines 138-167) *)

(** The fields as [DeInitialize] leaves them. *)
Definition deinitialized (s : Service) : Service :=
  {| m_initialized := false; m_memory := 0;
     m_capture := false;
     m_shmHeader := 0;
     m_frameIndex := m_frameIndex s;
     m_cursorDataSize := 0;
     m_cursorData := 0;
     m_cursorOffset := 0;
     m_frameSize := 0;
     m_frame := map (fun _ => 0) frame_indices;
     m_dataOffset := map (fun _ => 0) frame_indices;
     m_haveFrame := false; m_tryTarget := m_tryTarget s;
     m_consoleSessionID := m_consoleSessionID s;
     m_cursorInfo := m_cursorInfo s; m_cursorThread := false;
     m_cursorEvent := false |}.

(** [WaitForSingleObject(m_cursorThread, INFINITE)] returns once the cursor
    thread has ended, and that thread ends only after it has seen [m_capture]
    equal to [NULL] (see [CursorThread]); [m_capture] is cleared further
    down. *)
Definition DeInitialize : M W unit :=
  running <- gets m_cursorThread ;;
  cap <- gets m_capture ;;
  if running && cap then stuck else
  act ivshmem_DeInitialize ;;
  (if cap then act capture_DeInitialize else ret tt) ;;
  modify deinitialized.

(** *** Initialize (lines 49-108) *)

Definition begin_initialize (s : Service) : Service :=
  {| m_initialized := m_initialized s; m_memory := m_memory s;
     m_capture := true;                       (* m_capture = captureDevice *)
     m_shmHeader := m_shmHeader s;
     m_frameIndex := m_frameIndex s;
     m_cursorDataSize := m_cursorDataSize s; m_cursorData := m_cursorData s;
     m_cursorOffset := m_cursorOffset s; m_frameSize := m_frameSize s;
     m_frame := m_frame s; m_dataOffset := m_dataOffset s;
     m_haveFrame := m_haveFrame s;
     m_tryTarget := 0;                        (* m_tryTarget = 0 *)
     m_consoleSessionID := m_consoleSessionID s;
     m_cursorInfo := m_cursorInfo s; m_cursorThread := m_cursorThread s;
     m_cursorEvent := m_cursorEvent s |}.

Definition set_memory (mem : Z) (s : Service) : Service :=
  {| m_initialized := m_initialized s; m_memory := mem;
     m_capture := m_capture s; m_shmHeader := m_shmHeader s;
     m_frameIndex := m_frameIndex s;
     m_cursorDataSize := m_cursorDataSize s; m_cursorData := m_cursorData s;
     m_cursorOffset := m_cursorOffset s; m_frameSize := m_frameSize s;
     m_frame := m_frame s; m_dataOffset := m_dataOffset s;
     m_haveFrame := m_haveFrame s; m_tryTarget := m_tryTarget s;
     m_consoleSessionID := m_consoleSessionID s;
     m_cursorInfo := m_cursorInfo s; m_cursorThread := m_cursorThread s;
     m_cursorEvent := m_cursorEvent s |}.

(** [CreateThread], [CreateEvent] (auto-reset, not signalled). *)
Definition start_cursor_thread (s : Service) : Service :=
  {| m_initialized := m_initialized s; m_memory := m_memory s;
     m_capture := m_capture s; m_shmHeader := m_shmHeader s;
     m_frameIndex := m_frameIndex s;
     m_cursorDataSize := m_cursorDataSize s; m_cursorData := m_cursorData s;
     m_cursorOffset := m_cursorOffset s; m_frameSize := m_frameSize s;
     m_frame := m_frame s; m_dataOffset := m_dataOffset s;
     m_haveFrame := m_haveFrame s; m_tryTarget := m_tryTarget s;
     m_consoleSessionID := m_consoleSessionID s;
     m_cursorInfo := m_cursorInfo s; m_cursorThread := true;
     m_cursorEvent := false |}.

Definition end_initialize (s : Service) : Service :=
  {| m_initialized := true; m_memory := m_memory s;
     m_capture := m_capture s; m_shmHeader := m_shmHeader s;
     m_frameIndex := m_frameIndex s;
     m_cursorDataSize := m_cursorDataSize s; m_cursorData := m_cursorData s;
     m_cursorOffset := m_cursorOffset s; m_frameSize := m_frameSize s;
     m_frame := m_frame s; m_dataOffset := m_dataOffset s;
     m_haveFrame := false; m_tryTarget := m_tryTarget s;
     m_consoleSessionID := m_consoleSessionID s;
     m_cursorInfo := m_cursorInfo s; m_cursorThread := m_cursorThread s;
     m_cursorEvent := m_cursorEvent s |}.

Definition Initialize : M W bool :=
  initialized <- gets m_initialized ;;
  (if initialized then DeInitialize else ret tt) ;;
  modify begin_initialize ;;
  opened <- call ivshmem_Initialize ;;
  if negb opened then
    DEBUG_ERROR "IVSHMEM failed to initalize" ;; DeInitialize ;; ret false
  else
  size <- ask ivshmem_GetSize ;;
  if size <? sizeof_KVMFRHeader K then
    DEBUG_ERROR "Shared memory is not large enough for the KVMFRHeader" ;;
    DeInitialize ;; ret false
  else
  mem <- ask ivshmem_GetMemory ;;
  modify (set_memory mem) ;;
  if mem =? 0 then
    DEBUG_ERROR "Failed to get IVSHMEM memory" ;; DeInitialize ;; ret false
  else
  pointers <- InitPointers ;;
  if negb pointers then DeInitialize ;; ret false else
  maxFrameSize <- ask capture_GetMaxFrameSize ;;
  emit (AMaxFrameSize maxFrameSize) ;;
  frameSize <- gets m_frameSize ;;
  if maxFrameSize >? frameSize then
    DEBUG_ERROR "Maximum frame size excceds maximum space available" ;;
    DeInitialize ;; ret false
  else
  modify start_cursor_thread ;;
  store HeaderMagic (KVMFR_HEADER_MAGIC K) ;;
  store HeaderVersion (KVMFR_HEADER_VERSION K) ;;
  update_shm AZeroFrame (with_frame zero_frame) ;;
  update_shm AZeroCursor (with_cursor zero_cursor) ;;
  f <- load HeaderFlags ;;
  store HeaderFlags (to_uint8 (Z.land f (Z.lnot KVMFR_HEADER_FLAG_RESTART))) ;;
  modify end_initialize ;;
  ret true.

(** *** Process (lines 169-355) *)

(** Lines 180-190, and again lines 246-256: reinitialize the backend and
    check its maximum frame size against the slot size.  [false]: the cycle
    returns [false]. *)
Definition reinitialize_capture : M W bool :=
  reinitialized <- call capture_ReInitialize ;;
  emit (AReInitialize reinitialized) ;;
  if negb reinitialized then DEBUG_ERROR "ReInitialize Failed" ;; ret false else
  maxFrameSize <- ask capture_GetMaxFrameSize ;;
  emit (AMaxFrameSize maxFrameSize) ;;
  frameSize <- gets m_frameSize ;;
  if maxFrameSize >? frameSize then
    DEBUG_ERROR "Maximum frame size exceeds maximum space available" ;;
    ret false
  else ret true.

(** Lines 177-193: the consumer's restart request. *)
Definition service_restart : M W bool :=
  f <- load HeaderFlags ;;
  if Z.land f KVMFR_HEADER_FLAG_RESTART =? 0 then ret true else
  valid <- reinitialize_capture ;;
  if negb valid then ret false else
  INTERLOCKED_AND8 HeaderFlags (Z.lnot KVMFR_HEADER_FLAG_RESTART) ;;
  ret true.

(** [while (WTSGetActiveConsoleSessionId() != m_consoleSessionID) Sleep(100);] *)
Fixpoint wait_session (fuel : nat) : M W unit :=
  id <- call WTSGetActiveConsoleSessionId ;;
  mine <- gets m_consoleSessionID ;;
  if id =? mine then ret tt else
  match fuel with
  | O => stuck
  | S fuel' => wait_session fuel'
  end.

(** [while (!m_capture->CanInitialize()) Sleep(100);] *)
Fixpoint wait_can_initialize (fuel : nat) : M W unit :=
  can <- call capture_CanInitialize ;;
  if can then ret tt else
  match fuel with
  | O => stuck
  | S fuel' => wait_can_initialize fuel'
  end.

(** [if (--m_frameIndex < 0) m_frameIndex = MAX_FRAMES - 1;] *)
Definition rewind_frameIndex (s : Service) : Service :=
  let index := m_frameIndex s - 1 in
  set_frameIndex (if index <? 0 then MAX_FRAMES K - 1 else index) s.

(** [if (++m_frameIndex == MAX_FRAMES) m_frameIndex = 0;] *)
Definition advance_frameIndex (s : Service) : Service :=
  let index := m_frameIndex s + 1 in
  set_frameIndex (if index =? MAX_FRAMES K then 0 else index) s.

(** The [switch] of lines 203-263, for the status [st] that [Capture]
    returned, at loop counter [i] and locals [v]. *)
Definition capture_switch (fuel : nat) (i : Z) (v : Locals) (st : GrabStatus)
  : M W SwitchExit :=
  match st with
  | GRAB_STATUS_OK =>
      ret (SwBreak {| ok := true; cursorOnly := cursorOnly v; repeat := repeat v |})
  | GRAB_STATUS_TIMEOUT =>
      haveFrame <- gets m_haveFrame ;;
      if haveFrame then
        modify rewind_frameIndex ;;
        ret (SwBreak {| ok := true; cursorOnly := cursorOnly v; repeat := true |})
      else
        (* capture timeouts are not errors *)
        ret (SwContinue (i - 1))
  | GRAB_STATUS_CURSOR =>
      ret (SwBreak {| ok := true; cursorOnly := true; repeat := repeat v |})
  | GRAB_STATUS_ERROR =>
      DEBUG_ERROR "Capture failed" ;; ret (SwReturn false)
  | GRAB_STATUS_REINIT =>
      f <- load HeaderFlags ;;
      store HeaderFlags (to_uint8 (Z.lor f KVMFR_HEADER_FLAG_PAUSED)) ;;
      id <- call WTSGetActiveConsoleSessionId ;;
      mine <- gets m_consoleSessionID ;;
      (if id =? mine then ret tt else wait_session fuel) ;;
      wait_can_initialize fuel ;;
      valid <- reinitialize_capture ;;
      if negb valid then ret (SwReturn false) else
      f <- load HeaderFlags ;;
      store HeaderFlags (to_uint8 (Z.land f (Z.lnot KVMFR_HEADER_FLAG_PAUSED))) ;;
      (* re-init request should not count towards a failure to capture *)
      ret (SwContinue (i - 1))
  end.

(** [for(int i = 0; i < 2; ++i)], entered at counter [i]; [n] is the fuel of
    the polling loops inside one attempt. *)
Fixpoint capture_loop (fuel n : nat) (i : Z) (v : Locals) : M W LoopExit :=
  if i <? 2 then
    match fuel with
    | O => stuck
    | S fuel' =>
        st <- call capture_Capture ;;
        emit (ACapture st) ;;
        exit <- capture_switch n i v st ;;
        match exit with
        | SwReturn b => ret (LoopReturn b)
        | SwContinue i' => capture_loop fuel' n (i' + 1) v
        | SwBreak v' =>
            if ok v' then ret (LoopDone v')
            else capture_loop fuel' n (i + 1) v'
        end
    end
  else ret (LoopDone v).

(** The two busy-waits of lines 319-323 and 341-345:
    [while (fi->flags & KVMFR_FRAME_FLAG_UPDATE)], whose body breaks out
    when the global flags byte has [KVMFR_HEADER_FLAG_RESTART] set.
    The consumer may act between two polls. *)
Fixpoint wait_frame (fuel : nat) : M W unit :=
  ff <- load FrameFlags ;;
  if Z.land ff KVMFR_FRAME_FLAG_UPDATE =? 0 then ret tt else
  f <- load HeaderFlags ;;
  if negb (Z.land f KVMFR_HEADER_FLAG_RESTART =? 0) then ret tt else
  match fuel with
  | O => stuck
  | S fuel' => consumer_turn ;; wait_frame fuel'
  end.

(** Lines 303-350, [if (!cursorOnly) { ... }]: [Some b] when the block
    returns [b] from [Process], [None] when it falls through. *)
Definition publish_frame (fuel : nat) (repeat : bool) : M W (option bool) :=
  early <-
    (if negb repeat then
       index <- gets m_frameIndex ;;
       buffer <- gets (fun s => nth (Z.to_nat index) (m_frame s) 0) ;;
       bufferSize <- gets m_frameSize ;;
       got <- call (capture_GetFrame buffer bufferSize) ;;
       emit (AFrameData buffer bufferSize) ;;
       let (result, frame) := (got : GrabStatus * FrameInfo) in
       if negb (GrabStatus_eqb result GRAB_STATUS_OK) then
         ret (Some (GrabStatus_to_bool K result))       (* return result; *)
       else
       (* don't touch the frame inforamtion until the client is done with it *)
       wait_frame fuel ;;
       frameType <- ask capture_GetFrameType ;;
       store FrameType frameType ;;
       store FrameWidth (width frame) ;;
       store FrameHeight (height frame) ;;
       store FrameStride (stride frame) ;;
       store FramePitch (fpitch frame) ;;
       dataPos <- gets (fun s => nth (Z.to_nat index) (m_dataOffset s) 0) ;;
       store FrameDataPos dataPos ;;
       modify advance_frameIndex ;;
       (* remember that we have a valid frame *)
       modify (set_haveFrame true) ;;
       ret None
     else
       (* don't touch the frame inforamtion until the client is done with it *)
       wait_frame fuel ;; ret None) ;;
  match early with
  | Some b => ret (Some b)
  | None =>
      (* signal a frame update *)
      ff <- load FrameFlags ;;
      store FrameFlags (to_uint8 (Z.lor ff KVMFR_FRAME_FLAG_UPDATE)) ;;
      ret None
  end.

(** Lines 269-355: what follows the capture loop. *)
Definition after_capture (fuel : nat) (exit : LoopExit) : M W bool :=
  match exit with
  | LoopReturn b => ret b
  | LoopDone v =>
      if negb (ok v) then
        DEBUG_ERROR "Capture retry count exceeded" ;; ret false
      else
      c <- ask capture_GetCursor ;;
      stage_cursor c ;;
      early <- (if negb (cursorOnly v) then publish_frame fuel (repeat v)
                else ret None) ;;
      match early with
      | Some b => ret b
      | None =>
          (* update the flags *)
          INTERLOCKED_AND8 HeaderFlags KVMFR_HEADER_FLAG_RESTART ;;
          ret true
      end
  end.

Definition no_locals : Locals :=
  {| ok := false; cursorOnly := false; repeat := false |}.

Definition Process (fuel : nat) : M W bool :=
  initialized <- gets m_initialized ;;
  if negb initialized then ret false else
  (* check if the client has flagged a restart *)
  go <- service_restart ;;
  if negb go then ret false else
  exit <- capture_loop fuel fuel 0 no_locals ;;
  after_capture fuel exit.

(** *** CursorThread (lines 357-415) *)

(** [while (cursor->flags != 0) { Sleep(2); if (!m_capture) return 0; }]
    [true]: the consumer has taken the previous update; [false]: the thread
    returns. *)
Fixpoint wait_cursor (fuel : nat) : M W bool :=
  cf <- load CursorFlags ;;
  if cf =? 0 then ret true else
  match fuel with
  | O => stuck
  | S fuel' =>
      consumer_turn ;;                                   (* Sleep(2) *)
      cap <- gets m_capture ;;
      if negb cap then ret false else wait_cursor fuel'
  end.

(** Lines 373-411: the critical section that drains the staged updates, and
    the final UPDATE. *)
Definition publish_cursor : M W unit :=
  info <- gets m_cursorInfo ;;
  (if hasPos info then
     modify (fun s => set_cursorInfo (clear_hasPos (m_cursorInfo s)) s) ;;
     (* tell the client where the cursor is *)
     cf <- load CursorFlags ;;
     store CursorFlags (to_uint8 (Z.lor cf (KVMFR_CURSOR_FLAG_POS K))) ;;
     store CursorX (x info) ;;
     store CursorY (y info) ;;
     cf <- load CursorFlags ;;
     if visible info then
       store CursorFlags (to_uint8 (Z.lor cf (KVMFR_CURSOR_FLAG_VISIBLE K)))
     else
       store CursorFlags
         (to_uint8 (Z.land cf (Z.lnot (KVMFR_CURSOR_FLAG_VISIBLE K))))
   else ret tt) ;;
  info <- gets m_cursorInfo ;;
  (if hasShape info then
     modify (fun s => set_cursorInfo (clear_hasShape (m_cursorInfo s)) s) ;;
     capacity <- gets m_cursorDataSize ;;
     if dataSize info >? capacity then
       DEBUG_ERROR "Cursor size exceeds allocated space"
     else
       (* give the client the new cursor shape *)
       cf <- load CursorFlags ;;
       store CursorFlags (to_uint8 (Z.lor cf (KVMFR_CURSOR_FLAG_SHAPE K))) ;;
       ver <- load CursorVersion ;;
       store CursorVersion ((ver + 1) mod 2 ^ cursor_version_bits K) ;;
       store CursorType (type info) ;;
       store CursorWidth (w info) ;;
       store CursorHeight (h info) ;;
       store CursorPitch (pitch info) ;;
       offset <- gets m_cursorOffset ;;
       store CursorDataPos offset ;;
       update_shm (ACursorData (shape info) (dataSize info))
         (fun m => with_cursorData
                     (memcpy (cursorData m) (shape info) (dataSize info)) m)
   else ret tt) ;;
  cf <- load CursorFlags ;;
  store CursorFlags (to_uint8 (Z.lor cf (KVMFR_CURSOR_FLAG_UPDATE K))).

(** One turn of [while(m_capture)]: [WaitForSingleObject(m_cursorEvent, 1000)]
    on the auto-reset event, the hand-shake, the publication.  [false]: the
    thread returns. *)
Definition CursorThread_turn (fuel : nat) : M W bool :=
  signalled <- gets m_cursorEvent ;;
  if negb signalled then ret true (* WAIT_TIMEOUT: continue *) else
  modify (set_cursorEvent false) ;;
  free <- wait_cursor fuel ;;
  if negb free then ret false else
  publish_cursor ;;
  ret true.

Fixpoint CursorThread (fuel : nat) : M W Z :=
  cap <- gets m_capture ;;
  if negb cap then ret 0 else
  match fuel with
  | O => stuck
  | S fuel' =>
      go <- CursorThread_turn fuel ;;
      if go then CursorThread fuel' else ret 0
  end.

End Code.

(** *** DeInitialize, the wait on the cursor thread run out *)

(** [WaitForSingleObject(m_cursorThread, INFINITE)] of line 140, run as what
    it waits for: the cursor thread, up to its [return 0].  Without a thread
    the wait returns at once. *)
Definition join_cursorThread {W} {P : Platform W} (K : Headers) (fuel : nat) : M W unit :=
  running <- gets m_cursorThread ;;
  if running then CursorThread K fuel ;; ret tt else ret tt.

(** [DeInitialize] (lines 138-167) with that wait in place of the condition
    under which it ends. *)
Definition DeInitialize_joining {W} {P : Platform W} (K : Headers) (fuel : nat) : M W unit :=
  join_cursorThread K fuel ;;
  act ivshmem_DeInitialize ;;
  cap <- gets m_capture ;;
  (if cap then act capture_DeInitialize else ret tt) ;;
  modify (deinitialized K).

(** *** The constructor (lines 31-43) *)

(** The members of the initializer list; the others keep what the storage
    held.  No cursor thread has been created. *)
Definition member_initializers (raw : Service) : Service :=
  {| m_initialized := false; m_memory := 0; m_capture := false;
     m_shmHeader := 0; m_frameIndex := 0; m_cursorDataSize := 0;
     m_cursorData := 0;
     m_cursorOffset := m_cursorOffset raw; m_frameSize := m_frameSize raw;
     m_frame := m_frame raw; m_dataOffset := m_dataOffset raw;
     m_haveFrame := m_haveFrame raw; m_tryTarget := m_tryTarget raw;
     m_consoleSessionID := m_consoleSessionID raw;
     m_cursorInfo := m_cursorInfo raw; m_cursorThread := false;
     m_cursorEvent := m_cursorEvent raw |}.

Definition set_consoleSessionID (id : Z) (s : Service) : Service :=
  {| m_initialized := m_initialized s; m_memory := m_memory s;
     m_capture := m_capture s; m_shmHeader := m_shmHeader s;
     m_frameIndex := m_frameIndex s;
     m_cursorDataSize := m_cursorDataSize s; m_cursorData := m_cursorData s;
     m_cursorOffset := m_cursorOffset s; m_frameSize := m_frameSize s;
     m_frame := m_frame s; m_dataOffset := m_dataOffset s;
     m_haveFrame := m_haveFrame s; m_tryTarget := m_tryTarget s;
     m_consoleSessionID := id;
     m_cursorInfo := m_cursorInfo s; m_cursorThread := m_cursorThread s;
     m_cursorEvent := m_cursorEvent s |}.

(** [Service::Service()], run on the storage of the object. *)
Definition Service_Service {W} {P : Platform W} : M W unit :=
  modify member_initializers ;;
  id <- call WTSGetActiveConsoleSessionId ;;
  modify (set_consoleSessionID id).

(** ** A scripted platform

    A platform that plays given answers back in order: the states on which
    the service is run in the examples. *)

Definition no_cursor : CursorInfo :=
  {| updated := false; visible := false; hasShape := false; hasPos := false;
     x := 0; y := 0; type := 0; w := 0; h := 0; pitch := 0;
     shape := []; dataSize := 0 |}.

Record Script : Type := {
  sc_opens : bool;                              (* IVSHMEM::Initialize *)
  sc_size : Z;                                  (* IVSHMEM::GetSize *)
  sc_memory : Z;                                (* IVSHMEM::GetMemory *)
  sc_captures : list (GrabStatus * CursorInfo); (* Capture, with the cursor it saw *)
  sc_cursor : CursorInfo;                       (* GetCursor *)
  sc_frames : list (GrabStatus * FrameInfo);    (* GetFrame *)
  sc_frameType : Z;                             (* GetFrameType *)
  sc_maxFrameSize : Z;                          (* GetMaxFrameSize *)
  sc_reinits : list (bool * Z);                 (* ReInitialize, and the new maximum *)
  sc_canInitialize : list bool;                 (* CanInitialize *)
  sc_sessions : list Z;                         (* WTSGetActiveConsoleSessionId *)
  sc_consumer : list ConsumerAct                (* the consumer's actions *)
}.

Definition script_Capture (p : Script) : GrabStatus * Script :=
  match sc_captures p with
  | [] => (GRAB_STATUS_TIMEOUT, p)
  | (st, c) :: rest =>
      (st, {| sc_opens := sc_opens p; sc_size := sc_size p;
              sc_memory := sc_memory p; sc_captures := rest; sc_cursor := c;
              sc_frames := sc_frames p; sc_frameType := sc_frameType p;
              sc_maxFrameSize := sc_maxFrameSize p;
              sc_reinits := sc_reinits p;
              sc_canInitialize := sc_canInitialize p;
              sc_sessions := sc_sessions p; sc_consumer := sc_consumer p |})
  end.

Definition script_GetFrame (buffer bufferSize : Z) (p : Script)
  : (GrabStatus * FrameInfo) * Script :=
  match sc_frames p with
  | [] => ((GRAB_STATUS_ERROR, Build_FrameInfo 0 0 0 0), p)
  | f :: rest =>
      (f, {| sc_opens := sc_opens p; sc_size := sc_size p;
             sc_memory := sc_memory p; sc_captures := sc_captures p;
             sc_cursor := sc_cursor p;
             sc_frames := rest; sc_frameType := sc_frameType p;
             sc_maxFrameSize := sc_maxFrameSize p;
             sc_reinits := sc_reinits p;
             sc_canInitialize := sc_canInitialize p;
             sc_sessions := sc_sessions p; sc_consumer := sc_consumer p |})
  end.

Definition script_ReInitialize (p : Script) : bool * Script :=
  match sc_reinits p with
  | [] => (false, p)
  | (r, size) :: rest =>
      (r, {| sc_opens := sc_opens p; sc_size := sc_size p;
             sc_memory := sc_memory p; sc_captures := sc_captures p;
             sc_cursor := sc_cursor p;
             sc_frames := sc_frames p; sc_frameType := sc_frameType p;
             sc_maxFrameSize := size;
             sc_reinits := rest;
             sc_canInitialize := sc_canInitialize p;
             sc_sessions := sc_sessions p; sc_consumer := sc_consumer p |})
  end.

Definition script_CanInitialize (p : Script) : bool * Script :=
  match sc_canInitialize p with
  | [] => (true, p)
  | c :: rest =>
      (c, {| sc_opens := sc_opens p; sc_size := sc_size p;
             sc_memory := sc_memory p; sc_captures := sc_captures p;
             sc_cursor := sc_cursor p;
             sc_frames := sc_frames p; sc_frameType := sc_frameType p;
             sc_maxFrameSize := sc_maxFrameSize p;
             sc_reinits := sc_reinits p;
             sc_canInitialize := rest;
             sc_sessions := sc_sessions p; sc_consumer := sc_consumer p |})
  end.

Definition script_Session (p : Script) : Z * Script :=
  match sc_sessions p with
  | [] => (0, p)
  | id :: rest =>
      (id, {| sc_opens := sc_opens p; sc_size := sc_size p;
              sc_memory := sc_memory p; sc_captures := sc_captures p;
              sc_cursor := sc_cursor p;
              sc_frames := sc_frames p; sc_frameType := sc_frameType p;
              sc_maxFrameSize := sc_maxFrameSize p;
              sc_reinits := sc_reinits p;
              sc_canInitialize := sc_canInitialize p;
              sc_sessions := rest; sc_consumer := sc_consumer p |})
  end.

Definition script_consumer (p : Script) : ConsumerAct * Script :=
  match sc_consumer p with
  | [] => (CIdle, p)
  | a :: rest =>
      (a, {| sc_opens := sc_opens p; sc_size := sc_size p;
             sc_memory := sc_memory p; sc_captures := sc_captures p;
             sc_cursor := sc_cursor p;
             sc_frames := sc_frames p; sc_frameType := sc_frameType p;
             sc_maxFrameSize := sc_maxFrameSize p;
             sc_reinits := sc_reinits p;
             sc_canInitialize := sc_canInitialize p;
             sc_sessions := sc_sessions p; sc_consumer := rest |})
  end.

#[export] Instance Script_Platform : Platform Script := {|
  ivshmem_Initialize := fun p => (sc_opens p, p);
  ivshmem_DeInitialize := fun p => p;
  ivshmem_GetSize := sc_size;
  ivshmem_GetMemory := sc_memory;
  capture_Capture := script_Capture;
  capture_GetFrame := script_GetFrame;
  capture_GetFrameType := sc_frameType;
  capture_GetMaxFrameSize := sc_maxFrameSize;
  capture_GetCursor := sc_cursor;
  capture_ReInitialize := script_ReInitialize;
  capture_CanInitialize := script_CanInitialize;
  capture_DeInitialize := fun p => p;
  WTSGetActiveConsoleSessionId := script_Session;
  consumer := script_consumer
|}.

(** One set of header values for the examples: a ring of two slots, a
    96-byte header, the cursor bits UPDATE, VISIBLE, SHAPE, POS on bits 0 to
    3, a 32-bit version counter and the enumerators numbered from
    [GRAB_STATUS_OK = 0]. *)
Definition example_headers : Headers :=
  {| MAX_FRAMES := 2;
     sizeof_KVMFRHeader := 96;
     KVMFR_HEADER_MAGIC := 0x5B5B4B564D46525D5D;
     KVMFR_HEADER_VERSION := 1;
     cursor_update_bit := 0;
     cursor_visible_bit := 1;
     cursor_shape_bit := 2;
     cursor_pos_bit := 3;
     cursor_version_bits := 32;
     GrabStatus_value := fun st =>
       match st with
       | GRAB_STATUS_OK => 0
       | GRAB_STATUS_TIMEOUT => 1
       | GRAB_STATUS_REINIT => 2
       | GRAB_STATUS_CURSOR => 3
       | GRAB_STATUS_ERROR => 4
       end |}.

(** A service object as the constructor leaves it. *)
Definition new_Service : Service :=
  {| m_initialized := false; m_memory := 0; m_capture := false;
     m_shmHeader := 0; m_frameIndex := 0; m_cursorDataSize := 0;
     m_cursorData := 0; m_cursorOffset := 0; m_frameSize := 0;
     m_frame := []; m_dataOffset := []; m_haveFrame := false;
     m_tryTarget := 0; m_consoleSessionID := 0; m_cursorInfo := no_cursor;
     m_cursorThread := false; m_cursorEvent := false |}.

Definition zero_Shm : Shm :=
  {| header := {| magic := 0; version := 0; flags := 0;
                  frame := zero_frame; cursor := zero_cursor |};
     cursorData := [] |}.

(** A device of 64 MiB mapped at 0x10000 and a backend whose frames need at
    most 8 MiB. *)
Definition example_script : Script :=
  {| sc_opens := true; sc_size := 67108864; sc_memory := 65536;
     sc_captures := []; sc_cursor := no_cursor; sc_frames := [];
     sc_frameType := 1; sc_maxFrameSize := 8388608; sc_reinits := [];
     sc_canInitialize := []; sc_sessions := []; sc_consumer := [] |}.

Definition with_script (captures : list (GrabStatus * CursorInfo))
  (frames : list (GrabStatus * FrameInfo)) (acts : list ConsumerAct)
  (p : Script) : Script :=
  {| sc_opens := sc_opens p; sc_size := sc_size p; sc_memory := sc_memory p;
     sc_captures := captures; sc_cursor := sc_cursor p; sc_frames := frames;
     sc_frameType := sc_frameType p; sc_maxFrameSize := sc_maxFrameSize p;
     sc_reinits := sc_reinits p; sc_canInitialize := sc_canInitialize p;
     sc_sessions := sc_sessions p; sc_consumer := acts |}.

(** The final state and the record of a run. *)
Definition state_of {W A} (r : option (A * Sys W * list Event)) : option (Sys W) :=
  match r with Some (_, s, _) => Some s | None => None end.

Definition log_of {W A} (r : option (A * Sys W * list Event)) : list Event :=
  match r with Some (_, _, l) => l | None => [] end.

(** ** The properties *)

(** *** Layout (InitPointers) *)

(** Modelled on the spec's words: [align_down(x, a)]. *)
Definition align_down (x a : Z) : Z := x - x mod a.

(** The byte ranges [a, a + la) and [b, b + lb) do not overlap. *)
Definition disjoint (a la b lb : Z) : Prop := a + la <= b \/ b + lb <= a.

(** The byte range [a, a + la) lies within a region of [size] bytes. *)
Definition inside (size a la : Z) : Prop := 0 <= a /\ a + la <= size.

(** Offset of frame slot [i] as the service holds it. *)
Definition slot_offset (s : Service) (i : Z) : Z :=
  nth (Z.to_nat i) (m_dataOffset s) 0.

(** The layout property of the spec, over the members that [InitPointers]
    sets: offsets that are multiples of 128, the slot size of the spec, and
    the header, the cursor area and the slots pairwise disjoint and within
    the [size] bytes of the region. *)
Definition layout_ok (K : Headers) (size : Z) (s : Service) : Prop :=
  let n := MAX_FRAMES K in
  let hdr := sizeof_KVMFRHeader K in
  let coff := m_cursorOffset s in
  let cap := m_cursorDataSize s in
  let fs := m_frameSize s in
  coff mod 128 = 0 /\
  (forall i, 0 <= i < n -> slot_offset s i mod 128 = 0) /\
  fs = align_down ((size - slot_offset s 0) / n) 128 /\
  disjoint 0 hdr coff cap /\
  (forall i, 0 <= i < n ->
     disjoint 0 hdr (slot_offset s i) fs /\
     disjoint coff cap (slot_offset s i) fs) /\
  (forall i j, 0 <= i < n -> 0 <= j < n -> i <> j ->
     disjoint (slot_offset s i) fs (slot_offset s j) fs) /\
  inside size 0 hdr /\
  inside size coff cap /\
  (forall i, 0 <= i < n -> inside size (slot_offset s i) fs).

(** The header size rounded up to the alignment; the offset of the frame
    ring, 1 MiB of cursor area further; the share of one slot of what
    follows, and that share rounded down to the alignment. *)
Definition rounded_header (K : Headers) : Z :=
  128 * ((sizeof_KVMFRHeader K + 127) / 128).

Definition ring_offset (K : Headers) : Z := rounded_header K + 1048576.

Definition slot_share (K : Headers) (size : Z) : Z :=
  (size - ring_offset K) / MAX_FRAMES K.

Definition slot_size (K : Headers) (size : Z) : Z :=
  128 * (slot_share K size / 128).

(** The service object after [InitPointers] on a region of [size] bytes
    mapped at [base]. *)
Definition pointers_of (K : Headers) (base size : Z) : option Service :=
  option_map svc
    (state_of (InitPointers K
       (Build_Sys (set_memory base new_Service) zero_Shm
          {| sc_opens := true; sc_size := size; sc_memory := base;
             sc_captures := []; sc_cursor := no_cursor; sc_frames := [];
             sc_frameType := 0; sc_maxFrameSize := 0; sc_reinits := [];
             sc_canInitialize := []; sc_sessions := []; sc_consumer := [] |}))).

(** *** Records of a run *)

Definition actions (log : list Event) : list Action := map action log.

(** A store to the shared field [l] is among the actions. *)
Definition stores_to (l : Loc) (log : list Event) : bool :=
  existsb (fun e => match action e with
                    | AStore l' _ => Loc_eqb l l'
                    | _ => false
                    end) log.

Definition is_set (mask v : Z) : bool := negb (Z.land v mask =? 0).

(** The backend is handed the slot at [mem + dataPos], the one the frame
    descriptor advertises, while the descriptor's UPDATE bit is set and the
    consumer has not raised RESTART. *)
Definition overwrites_advertised (mem : Z) (e : Event) : bool :=
  match action e with
  | AFrameData buffer _ =>
      (buffer =? mem + read_loc FrameDataPos (before e))
      && is_set KVMFR_FRAME_FLAG_UPDATE (read_loc FrameFlags (before e))
      && negb (is_set KVMFR_HEADER_FLAG_RESTART (read_loc HeaderFlags (before e)))
  | _ => false
  end.

(** Modelled on the spec's words: the capture results that use up the retry
    budget of a cycle. *)
Definition consumes_budget (a : Action) : bool :=
  match a with
  | ACapture GRAB_STATUS_OK
  | ACapture GRAB_STATUS_CURSOR
  | ACapture GRAB_STATUS_ERROR => true
  | _ => false
  end.

Definition budget_consumed (log : list Event) : nat :=
  List.length (filter consumes_budget (actions log)).

(** Every successful [ReInitialize] is directly followed by the reading of
    the backend's maximum frame size. *)
Fixpoint revalidated (l : list Action) : bool :=
  match l with
  | [] => true
  | AReInitialize true :: rest =>
      match rest with
      | AMaxFrameSize _ :: _ => revalidated rest
      | _ => false
      end
  | _ :: rest => revalidated rest
  end.

(** The state of the examples: the service initialized on the example
    device, the region zeroed. *)
Definition example_state : Sys Script :=
  match Initialize example_headers (Build_Sys new_Service zero_Shm example_script) with
  | Some (_, s, _) => s
  | None => Build_Sys new_Service zero_Shm example_script
  end.

Definition with_world {W} (f : W -> W) (s : Sys W) : Sys W :=
  Build_Sys (svc s) (shm s) (f (world s)).

Definition with_shm {W} (f : Shm -> Shm) (s : Sys W) : Sys W :=
  Build_Sys (svc s) (f (shm s)) (world s).

Definition with_svc {W} (f : Service -> Service) (s : Sys W) : Sys W :=
  Build_Sys (f (svc s)) (shm s) (world s).

Definition example_frame : FrameInfo :=
  {| width := 1920; height := 1080; stride := 1920; fpitch := 7680 |}.

(** The fields of the region that the consumer writes. *)
Definition consumer_field (l : Loc) : bool :=
  match l with
  | FrameFlags | HeaderFlags | CursorFlags => true
  | _ => false
  end.

(** The two regions agree on everything but the flag bytes. *)
Definition same_payload (m m' : Shm) : Prop :=
  (forall l, consumer_field l = false -> read_loc l m' = read_loc l m) /\
  cursorData m' = cursorData m.

(** A poll of the region, or a turn of the consumer. *)
Definition is_poll (e : Event) : bool :=
  match action e with
  | ALoad _ | AConsumer _ => true
  | _ => false
  end.

(** The frame hand-shake is over: UPDATE is clear, or RESTART is raised. *)
Definition frame_released (m : Shm) : bool :=
  negb (is_set KVMFR_FRAME_FLAG_UPDATE (read_loc FrameFlags m))
  || is_set KVMFR_HEADER_FLAG_RESTART (read_loc HeaderFlags m).

(** A capture result after which the loop counter is given back. *)
Definition refunded (haveFrame : bool) (st : GrabStatus) : bool :=
  match st with
  | GRAB_STATUS_REINIT => true
  | GRAB_STATUS_TIMEOUT => negb haveFrame
  | _ => false
  end.

(** *** The ring index *)

(** How one cycle moves the ring index, read off the record of the cycle: a
    cycle that stored a new [dataPos] published a new frame; one that did
    not, but stored the frame flags, signalled the previous frame again. *)
Definition index_step {W} (K : Headers) (s s' : Sys W) (log : list Event) : Prop :=
  let i := m_frameIndex (svc s) in
  let i' := m_frameIndex (svc s') in
  if stores_to FrameDataPos log then
    i' = (i + 1) mod MAX_FRAMES K /\
    read_loc FrameDataPos (shm s') = slot_offset (svc s) i /\
    m_haveFrame (svc s') = true
  else if stores_to FrameFlags log then
    i' = (i - 1) mod MAX_FRAMES K /\ (i = 0 -> i' = MAX_FRAMES K - 1) /\
    read_loc FrameDataPos (shm s') = read_loc FrameDataPos (shm s) /\
    m_haveFrame (svc s) = true
  else i' = i.

(** What the capture loop does to the ring index and to the region. *)
Definition loop_frame {W} (K : Headers) (v : Locals) (s : Sys W)
  (e : LoopExit) (s1 : Sys W) (l : list Event) : Prop :=
  stores_to FrameDataPos l = false /\ stores_to FrameFlags l = false /\
  same_payload (shm s) (shm s1) /\
  match e with
  | LoopDone v' =>
      (repeat v' = true /\ svc s1 = rewind_frameIndex K (svc s) /\
       m_haveFrame (svc s) = true /\ cursorOnly v' = cursorOnly v /\
       ok v' = true)
      \/ (repeat v' = repeat v /\ svc s1 = svc s)
  | LoopReturn _ => svc s1 = svc s
  end.

(** *** Revalidation after a reinitialization *)

(** A list of actions in which every successful [ReInitialize] has its
    check, whatever follows the list. *)
Definition closed (l : list Action) : Prop :=
  forall rest, revalidated (l ++ rest) = revalidated rest.

Definition is_reinitialized (a : Action) : bool :=
  match a with AReInitialize true => true | _ => false end.

Definition loop_checked {W} (s : Sys W) (e : LoopExit) (s1 : Sys W) (l : list Event) : Prop :=
  m_frameSize (svc s1) = m_frameSize (svc s) /\
  closed (actions l) /\
  (forall mx, In (AMaxFrameSize mx) (actions l) -> mx > m_frameSize (svc s) ->
              e = LoopReturn false).

Definition cycle_checked {W} (s : Sys W) (r : bool) (l : list Event) : Prop :=
  closed (actions l) /\
  (forall mx, In (AMaxFrameSize mx) (actions l) -> mx > m_frameSize (svc s) ->
              r = false).

(** *** The cursor channel *)

(** A bit of the cursor descriptor's flags byte. *)
Definition flag_bit (b : Z) (m : Shm) : bool := Z.testbit (read_loc CursorFlags m) b.

Definition shape_fields : list Loc :=
  [CursorVersion; CursorType; CursorWidth; CursorHeight; CursorPitch; CursorDataPos].

(** What a drain of a staged shape leaves behind. *)
Definition shape_drained {W} (K : Headers) (s s' : Sys W) (log : list Event) : Prop :=
  let info := m_cursorInfo (svc s) in
  let ver := read_loc CursorVersion (shm s) in
  hasShape (m_cursorInfo (svc s')) = false /\
  if dataSize info >? m_cursorDataSize (svc s) then
    (forall l, In l shape_fields ->
       read_loc l (shm s') = read_loc l (shm s) /\ stores_to l log = false) /\
    cursorData (shm s') = cursorData (shm s) /\
    flag_bit (cursor_shape_bit K) (shm s') = flag_bit (cursor_shape_bit K) (shm s) /\
    In (ADebugError "Cursor size exceeds allocated space") (actions log) /\
    (hasPos info = true ->
       flag_bit (cursor_pos_bit K) (shm s') = true /\
       read_loc CursorX (shm s') = x info /\
       read_loc CursorY (shm s') = y info /\
       flag_bit (cursor_update_bit K) (shm s') = true)
  else
    read_loc CursorVersion (shm s') = (ver + 1) mod 2 ^ cursor_version_bits K /\
    (0 <= ver -> ver + 1 < 2 ^ cursor_version_bits K ->
       read_loc CursorVersion (shm s') = ver + 1) /\
    flag_bit (cursor_shape_bit K) (shm s') = true /\
    read_loc CursorType (shm s') = type info /\
    read_loc CursorWidth (shm s') = w info /\
    read_loc CursorHeight (shm s') = h info /\
    read_loc CursorPitch (shm s') = pitch info /\
    read_loc CursorDataPos (shm s') = m_cursorOffset (svc s) /\
    cursorData (shm s') = memcpy (cursorData (shm s)) (shape info) (dataSize info).

(** The number of stores to the field [l] in a record. *)
Definition store_count (l : Loc) (log : list Event) : nat :=
  List.length (filter (fun e => match action e with
                                | AStore l' _ => Loc_eqb l l'
                                | _ => false
                                end) log).

(** The last action of the record is a store to the cursor flags that sets
    the UPDATE bit, and in no state before an action of the record was that
    bit set. *)
Definition update_is_last (K : Headers) (log : list Event) : Prop :=
  Forall (fun e => flag_bit (cursor_update_bit K) (before e) = false) log /\
  exists v,
    last (actions log) (ALoad CursorFlags) = AStore CursorFlags v /\
    Z.testbit v (cursor_update_bit K) = true.

(** One turn of the cursor thread that publishes a position and a shape. *)
Definition both_published {W} (K : Headers) (s s' : Sys W) (r : bool) (log : list Event) : Prop :=
  r = true /\
  flag_bit (cursor_pos_bit K) (shm s') = true /\
  flag_bit (cursor_shape_bit K) (shm s') = true /\
  flag_bit (cursor_update_bit K) (shm s') = true /\
  read_loc CursorVersion (shm s')
  = (read_loc CursorVersion (shm s) + 1) mod 2 ^ cursor_version_bits K /\
  store_count CursorVersion log = 1%nat /\
  update_is_last K log /\
  hasPos (m_cursorInfo (svc s')) = false /\
  hasShape (m_cursorInfo (svc s')) = false /\
  m_cursorEvent (svc s') = false.

(** The service after the cycle staged [c1] and a later cycle staged [c2]
    (lines 277-301 of [Process], twice). *)
Definition stage_both {W} (c1 c2 : CursorInfo) (s : Sys W) : Sys W :=
  match bind (stage_cursor c1) (fun _ => stage_cursor c2) s with
  | Some (_, s', _) => s'
  | None => s
  end.

(** *** The frame hand-shake *)

(** The producer spins in the frame hand-shake: UPDATE is set and RESTART
    is not. *)
Definition blocked (m : Shm) : Prop :=
  is_set KVMFR_FRAME_FLAG_UPDATE (read_loc FrameFlags m) = true /\
  is_set KVMFR_HEADER_FLAG_RESTART (read_loc HeaderFlags m) = false.

(** The slot the next new frame is written to, and its capacity. *)
Definition next_buffer (s : Service) : Z := nth (Z.to_nat (m_frameIndex s)) (m_frame s) 0.

(** The platform as the hand-shake of a publication finds it: for a new
    frame, after [GetFrame]. *)
Definition world_at_wait {W} {P : Platform W} (rep : bool) (s : Sys W) : W :=
  if rep then world s
  else snd (capture_GetFrame (next_buffer (svc s)) (m_frameSize (svc s)) (world s)).

Definition frame_got {W} {P : Platform W} (s : Sys W) : GrabStatus * FrameInfo :=
  fst (capture_GetFrame (next_buffer (svc s)) (m_frameSize (svc s)) (world s)).

(** The descriptor fields that describe the frame. *)
Definition payload_fields : list Loc :=
  [FrameType; FrameWidth; FrameHeight; FrameStride; FramePitch; FrameDataPos].

(** The publication went through: UPDATE is set, and a new frame's
    descriptor is written. *)
Definition published_despite_restart {W} {P : Platform W} (rep : bool) (s s' : Sys W) (log : list Event) : Prop :=
  is_set KVMFR_FRAME_FLAG_UPDATE (read_loc FrameFlags (shm s')) = true /\
  is_set KVMFR_HEADER_FLAG_RESTART (read_loc HeaderFlags (shm s')) = true /\
  stores_to FrameFlags log = true /\
  (rep = false ->
     (forall l, In l payload_fields -> stores_to l log = true) /\
     read_loc FrameType (shm s') = capture_GetFrameType (world s') /\
     read_loc FrameWidth (shm s') = width (snd (frame_got s)) /\
     read_loc FrameHeight (shm s') = height (snd (frame_got s)) /\
     read_loc FrameStride (shm s') = stride (snd (frame_got s)) /\
     read_loc FramePitch (shm s') = fpitch (snd (frame_got s)) /\
     read_loc FrameDataPos (shm s') = slot_offset (svc s) (m_frameIndex (svc s))).

(** The publication as the claim has it: no store to the descriptor. *)
Definition publication_aborted (log : list Event) : Prop :=
  stores_to FrameFlags log = false /\
  forall l, In l payload_fields -> stores_to l log = false.

(** *** The end of a cycle, and the stores to the frame descriptor *)

(** The fields of the frame descriptor. *)
Definition frame_field (l : Loc) : bool :=
  match l with
  | FrameType | FrameWidth | FrameHeight | FrameStride | FramePitch
  | FrameDataPos | FrameFlags => true
  | _ => false
  end.

(** A store to the frame descriptor is made with the hand-shake over. *)
Definition store_released (e : Event) : bool :=
  match action e with
  | AStore l _ => negb (frame_field l) || frame_released (before e)
  | _ => true
  end.

Definition released_at_stores (log : list Event) : bool := forallb store_released log.

(** The last event of a record. *)
Fixpoint last_event (log : list Event) : option Event :=
  match log with
  | [] => None
  | e :: rest =>
      match last_event rest with
      | Some e' => Some e'
      | None => Some e
      end
  end.

(** The record ends with [INTERLOCKED_AND8(flags, KVMFR_HEADER_FLAG_RESTART)],
    which leaves of the global flags the RESTART bit only. *)
Definition ends_with_flag_update {W} (s' : Sys W) (log : list Event) : Prop :=
  exists m,
    last_event log
    = Some (Build_Event m (AAtomicAnd HeaderFlags KVMFR_HEADER_FLAG_RESTART)) /\
    read_loc HeaderFlags (shm s')
    = Z.land (read_loc HeaderFlags m) KVMFR_HEADER_FLAG_RESTART.

(** The record ends with the call of [GetFrame]. *)
Definition ends_with_GetFrame (log : list Event) : Prop :=
  exists m buffer size, last_event log = Some (Build_Event m (AFrameData buffer size)).

Definition success_end {W} (r : bool) (s' : Sys W) (log : list Event) : Prop :=
  r = true -> ends_with_flag_update s' log \/ ends_with_GetFrame log.

(** *** Initialize and DeInitialize *)

(** The conditions under which [Initialize] goes through, on the platform as
    it is found: the device opens, its region holds the header, it is
    mapped, and the largest frame of the backend fits a slot. *)
Definition Initialize_accepts {W} {P : Platform W} (K : Headers) (w : W) : bool :=
  let w1 := snd (ivshmem_Initialize w) in
  fst (ivshmem_Initialize w)
  && negb (ivshmem_GetSize w1 <? sizeof_KVMFRHeader K)
  && negb (ivshmem_GetMemory w1 =? 0)
  && negb (capture_GetMaxFrameSize w1
           >? init_frameSize K (ivshmem_GetMemory w1) (ivshmem_GetSize w1)).

(** The service holds no pointer and no backend. *)
Definition holds_nothing (K : Headers) (s : Service) : Prop :=
  m_initialized s = false /\ m_memory s = 0 /\ m_shmHeader s = 0 /\
  m_cursorData s = 0 /\ m_cursorDataSize s = 0 /\ m_cursorOffset s = 0 /\
  m_frameSize s = 0 /\ m_haveFrame s = false /\ m_capture s = false /\
  m_frame s = map (fun _ => 0) (frame_indices K) /\
  m_dataOffset s = map (fun _ => 0) (frame_indices K).

(** A failed [Initialize]: the region is as it was and was not accessed,
    and the service holds nothing. *)
Definition Initialize_failed {W} (K : Headers) (s s' : Sys W) (log : list Event) : Prop :=
  shm s' = shm s /\
  forallb (fun e => negb (dereferences (action e))) log = true /\
  holds_nothing K (svc s') /\
  m_frameIndex (svc s') = m_frameIndex (svc s) /\
  m_cursorThread (svc s') = false.

(** A successful [Initialize]: the header is stamped, the two descriptors
    are zeroed, of the global flags RESTART is cleared, and the service
    holds the pointers that [InitPointers] computes. *)
Definition Initialize_done {W} {P : Platform W} (K : Headers) (s s' : Sys W) : Prop :=
  let w1 := snd (ivshmem_Initialize (world s)) in
  let mem := ivshmem_GetMemory w1 in
  let size := ivshmem_GetSize w1 in
  world s' = w1 /\
  read_loc HeaderMagic (shm s') = KVMFR_HEADER_MAGIC K /\
  read_loc HeaderVersion (shm s') = KVMFR_HEADER_VERSION K /\
  read_loc HeaderFlags (shm s')
  = to_uint8 (Z.land (read_loc HeaderFlags (shm s)) (Z.lnot KVMFR_HEADER_FLAG_RESTART)) /\
  frame (header (shm s')) = zero_frame /\
  cursor (header (shm s')) = zero_cursor /\
  cursorData (shm s') = cursorData (shm s) /\
  m_initialized (svc s') = true /\ m_capture (svc s') = true /\
  m_cursorThread (svc s') = true /\ m_cursorEvent (svc s') = false /\
  m_haveFrame (svc s') = false /\
  m_frameIndex (svc s') = m_frameIndex (svc s) /\
  m_memory (svc s') = mem /\ m_shmHeader (svc s') = mem /\
  m_cursorData (svc s') = init_cursorData K mem /\
  m_cursorDataSize (svc s') = 1048576 /\
  m_cursorOffset (svc s') = init_cursorOffset K mem /\
  m_frameSize (svc s') = init_frameSize K mem size /\
  m_frame (svc s') = map (init_frame K mem size) (frame_indices K) /\
  m_dataOffset (svc s') = map (init_dataOffset K mem size) (frame_indices K).

(** *** Sequences of calls *)

(** The calls that reach the service: the three member functions, and a
    turn of the cursor thread, which exists once [Initialize] has created it
    and loops while [m_capture] is set. *)
Inductive Call : Type :=
| CallInitialize | CallDeInitialize | CallProcess | CallCursorThread.

Definition perform {W} {P : Platform W} (K : Headers) (fuel : nat) (c : Call)
  : M W unit :=
  match c with
  | CallInitialize => Initialize K ;; ret tt
  | CallDeInitialize => DeInitialize K
  | CallProcess => Process K fuel ;; ret tt
  | CallCursorThread =>
      running <- gets m_cursorThread ;;
      cap <- gets m_capture ;;
      if running && cap then CursorThread_turn K fuel ;; ret tt
      else ret tt
  end.

Fixpoint perform_all {W} {P : Platform W} (K : Headers) (fuel : nat)
  (cs : list Call) : M W unit :=
  match cs with
  | [] => ret tt
  | c :: rest => perform K fuel c ;; perform_all K fuel rest
  end.

(** The invariant of the service object: the ring index is within the ring;
    an initialized service holds the backend, a cursor thread and the
    pointers that [InitPointers] computes from a mapping; one that is not
    holds neither pointer nor backend nor thread. *)
Definition Service_inv (K : Headers) (s : Service) : Prop :=
  0 <= m_frameIndex s < MAX_FRAMES K /\
  if m_initialized s then
    m_capture s = true /\ m_cursorThread s = true /\
    m_memory s <> 0 /\ m_shmHeader s = m_memory s /\
    m_cursorDataSize s = 1048576 /\
    m_cursorData s = init_cursorData K (m_memory s) /\
    m_cursorOffset s = init_cursorOffset K (m_memory s) /\
    exists size,
      m_frameSize s = init_frameSize K (m_memory s) size /\
      m_frame s = map (init_frame K (m_memory s) size) (frame_indices K) /\
      m_dataOffset s = map (init_dataOffset K (m_memory s) size) (frame_indices K)
  else
    m_capture s = false /\ m_cursorThread s = false /\
    m_memory s = 0 /\ m_shmHeader s = 0 /\ m_cursorData s = 0 /\
    m_cursorDataSize s = 0.

(** The members that only [Initialize] and [DeInitialize] assign. *)
Definition fixed_members (s : Service) :=
  (m_initialized s, m_memory s, m_capture s, m_shmHeader s,
   m_cursorDataSize s, m_cursorData s, m_cursorOffset s, m_frameSize s,
   m_frame s, m_dataOffset s, m_tryTarget s, m_consoleSessionID s,
   m_cursorThread s).

(** *** Where the bulk data goes *)

Definition no_data (e : Event) : bool :=
  match action e with
  | AFrameData _ _ | ACursorData _ _ => false
  | _ => true
  end.

(** The bulk data of a cycle: a frame into the slot that the ring index of
    [sv] selects, with the slot size as its capacity. *)
Definition slot_handed (sv : Service) (e : Event) : bool :=
  match action e with
  | AFrameData buffer n => (buffer =? next_buffer sv) && (n =? m_frameSize sv)
  | ACursorData _ _ => false
  | _ => true
  end.

(** The bulk data of the cursor thread: no more than the capacity of the
    cursor area. *)
Definition cursor_bounded (sv : Service) (e : Event) : bool :=
  match action e with
  | ACursorData _ n => n <=? m_cursorDataSize sv
  | AFrameData _ _ => false
  | _ => true
  end.

(** Bulk data written into a region of [size] bytes mapped at [base]: a
    frame goes into one of the slots of the ring, with the slot size as its
    capacity, and ends within the region; a cursor shape is of no more than
    the 1 MiB of the cursor area. *)
Definition data_within (K : Headers) (base size : Z) (a : Action) : Prop :=
  match a with
  | AFrameData buffer n =>
      n = slot_size K size /\
      exists i, 0 <= i < MAX_FRAMES K /\
        buffer = base + ring_offset K + i * slot_size K size /\
        buffer + n <= base + size
  | ACursorData _ n => n <= 1048576
  | _ => True
  end.

(** The service is initialized on the region of [size] bytes at [base]. *)
Definition mapped (K : Headers) (base size : Z) (s : Service) : Prop :=
  m_initialized s = true /\ m_capture s = true /\ m_cursorThread s = true /\
  m_cursorDataSize s = 1048576 /\
  m_cursorData s = base + rounded_header K /\
  m_frameSize s = slot_size K size /\
  (forall i, 0 <= i < MAX_FRAMES K ->
     nth (Z.to_nat i) (m_frame s) 0 = base + ring_offset K + i * slot_size K size) /\
  0 <= m_frameIndex s < MAX_FRAMES K.

(** What the capture loop does to the service object, and that it moves no
    bulk data. *)
Definition loop_quiet {W} (K : Headers) (v : Locals) (s : Sys W) (e : LoopExit)
  (s1 : Sys W) (l : list Event) : Prop :=
  forallb no_data l = true /\
  (svc s1 = svc s /\ (forall v', e = LoopDone v' -> repeat v' = repeat v)
   \/ svc s1 = rewind_frameIndex K (svc s) /\
      exists v', e = LoopDone v' /\ repeat v' = true).

(** *** The cycles of Process *)

(** The platform after [Capture]. *)
Definition after_Capture {W} {P : Platform W} (s : Sys W) : Sys W :=
  with_world (fun w => snd (capture_Capture w)) s.

(** *** The kinds of cycle, by what the backend reports *)

(** [Process], entered in [s], gets past its guard and past the restart
    check, and reaches the capture loop in [s1]. *)
Definition cycle_starts {W} {P : Platform W} (s s1 : Sys W) : Prop :=
  m_initialized (svc s) = true /\
  exists l, service_restart s = Some (true, s1, l).

(** A repeated cycle: [Capture()] reports a timeout while [m_haveFrame] is
    set. *)
Definition repeated_cycle {W} {P : Platform W} (s s1 : Sys W) : Prop :=
  cycle_starts s s1 /\
  fst (capture_Capture (world s1)) = GRAB_STATUS_TIMEOUT /\
  m_haveFrame (svc s1) = true.

(** The platform after [GetFrame] on the slot of the ring index. *)
Definition after_GetFrame {W} {P : Platform W} (s : Sys W) : Sys W :=
  with_world (fun _ => world_at_wait false s) s.

(** A cycle with a new frame: [Capture()] and [GetFrame()] both succeed. *)
Definition new_frame_cycle {W} {P : Platform W} (s s1 : Sys W) : Prop :=
  cycle_starts s s1 /\
  fst (capture_Capture (world s1)) = GRAB_STATUS_OK /\
  fst (frame_got (after_Capture s1)) = GRAB_STATUS_OK.

(** The frame hand-shake, entered in [s], ends within the fuel. *)
Definition handshake_ends {W} {P : Platform W} (fuel : nat) (s : Sys W) : Prop :=
  (0 < fuel)%nat /\ wait_frame fuel s <> None.

(** The ring index is rewound by one, onto the slot published last; no new
    frame is fetched or described. *)
Definition index_rewound {W} (K : Headers) (s s' : Sys W) (log : list Event) : Prop :=
  let i := m_frameIndex (svc s) in
  let i' := m_frameIndex (svc s') in
  i' = (i - 1) mod MAX_FRAMES K /\
  (i = 0 -> i' = MAX_FRAMES K - 1) /\
  (forall j, 0 <= j < MAX_FRAMES K -> i = (j + 1) mod MAX_FRAMES K -> i' = j) /\
  read_loc FrameDataPos (shm s') = read_loc FrameDataPos (shm s) /\
  stores_to FrameDataPos log = false /\
  forallb no_data log = true /\
  m_haveFrame (svc s') = true.

(** The ring index is advanced by one, past the slot just published. *)
Definition index_advanced {W} (K : Headers) (s s' : Sys W) (log : list Event) : Prop :=
  let i := m_frameIndex (svc s) in
  let i' := m_frameIndex (svc s') in
  i' = (i + 1) mod MAX_FRAMES K /\
  (i = MAX_FRAMES K - 1 -> i' = 0) /\
  read_loc FrameDataPos (shm s') = slot_offset (svc s) i /\
  stores_to FrameDataPos log = true /\
  m_haveFrame (svc s') = true.

(** What a cycle does to the staged cursor when the backend reports the
    cursor [c]. *)
Definition cursor_staged {W} (c : CursorInfo) (s s' : Sys W) : Prop :=
  m_cursorInfo (svc s')
  = (if updated c then stage c (m_cursorInfo (svc s)) else m_cursorInfo (svc s)) /\
  m_cursorEvent (svc s') = (updated c || m_cursorEvent (svc s)).

(** A cycle that publishes the frame [f] of type [frameType] from the state
    [s]. *)
Definition frame_published {W} (K : Headers) (s s' : Sys W)
  (f : FrameInfo) (frameType : Z) : Prop :=
  read_loc FrameType (shm s') = frameType /\
  read_loc FrameWidth (shm s') = width f /\
  read_loc FrameHeight (shm s') = height f /\
  read_loc FrameStride (shm s') = stride f /\
  read_loc FramePitch (shm s') = fpitch f /\
  read_loc FrameDataPos (shm s') = slot_offset (svc s) (m_frameIndex (svc s)) /\
  read_loc FrameFlags (shm s')
  = to_uint8 (Z.lor (read_loc FrameFlags (shm s)) KVMFR_FRAME_FLAG_UPDATE) /\
  read_loc HeaderFlags (shm s') = 0 /\
  cursor (header (shm s')) = cursor (header (shm s)) /\
  cursorData (shm s') = cursorData (shm s) /\
  m_frameIndex (svc s') = (m_frameIndex (svc s) + 1) mod MAX_FRAMES K /\
  m_haveFrame (svc s') = true.

(** The fields of the cursor descriptor. *)
Definition cursor_field (l : Loc) : bool :=
  match l with
  | CursorFlags | CursorX | CursorY | CursorVersion | CursorType
  | CursorWidth | CursorHeight | CursorPitch | CursorDataPos => true
  | _ => false
  end.

(** The two regions differ in the global flags byte at most. *)
Definition only_flags_changed (m m' : Shm) : Prop :=
  (forall l, Loc_eqb l HeaderFlags = false -> read_loc l m' = read_loc l m) /\
  cursorData m' = cursorData m.

(** The accesses of the frame channel: the global flags byte, the frame
    descriptor, a frame slot. *)
Definition frame_channel (e : Event) : bool :=
  match action e with
  | ALoad l | AStore l _ | AAtomicAnd l _ => Loc_eqb l HeaderFlags || frame_field l
  | AZeroFrame | AZeroCursor | ACursorData _ _ => false
  | _ => true
  end.

(** The accesses of the cursor channel: the cursor descriptor and the
    cursor area. *)
Definition cursor_channel (e : Event) : bool :=
  match action e with
  | ALoad l | AStore l _ | AAtomicAnd l _ => cursor_field l
  | AZeroFrame | AZeroCursor | AFrameData _ _ => false
  | ACapture _ | AReInitialize _ | AMaxFrameSize _ => false
  | _ => true
  end.

(** The global PAUSED bit. *)
Definition paused (m : Shm) : bool :=
  is_set KVMFR_HEADER_FLAG_PAUSED (read_loc HeaderFlags m).

Definition reinit_paused (e : Event) : bool :=
  match action e with
  | AReInitialize _ => paused (before e)
  | _ => true
  end.

(** The status of the last [Capture] of a record. *)
Fixpoint last_capture (log : list Event) : option GrabStatus :=
  match log with
  | [] => None
  | e :: rest =>
      match last_capture rest with
      | Some st => Some st
      | None => match action e with ACapture st => Some st | _ => None end
      end
  end.

Definition no_capture (e : Event) : bool :=
  match action e with ACapture _ => false | _ => true end.

(** Every [ReInitialize] of the capture loop runs with PAUSED set, and a
    loop that is left by [return] after a REINIT leaves PAUSED set. *)
Definition loop_paused {W} (e : LoopExit) (s1 : Sys W) (l : list Event) : Prop :=
  forallb reinit_paused l = true /\
  forall b, e = LoopReturn b ->
    match last_capture l with
    | Some GRAB_STATUS_REINIT => paused (shm s1) = true
    | Some _ => True
    | None => False
    end.

(** What a cycle does to the staged cursor: nothing, or it stages the
    cursor [c] that the backend flagged as updated and signals the event. *)
Definition staged (s s' : Service) : Prop :=
  (m_cursorInfo s' = m_cursorInfo s /\ m_cursorEvent s' = m_cursorEvent s) \/
  exists c, updated c = true /\
            m_cursorInfo s' = stage c (m_cursorInfo s) /\ m_cursorEvent s' = true.

(** *** The turns of the cursor thread *)

(** The staged shape is one that the cursor thread publishes. *)
Definition shape_fits (s : Service) : bool :=
  hasShape (m_cursorInfo s) && negb (dataSize (m_cursorInfo s) >? m_cursorDataSize s).

(** What a turn of the cursor thread that finds the event signalled and the
    cursor descriptor free leaves behind. *)
Definition turn_published {W} (K : Headers) (s s' : Sys W) : Prop :=
  let info := m_cursorInfo (svc s) in
  flag_bit (cursor_update_bit K) (shm s') = true /\
  flag_bit (cursor_pos_bit K) (shm s') = hasPos info /\
  flag_bit (cursor_visible_bit K) (shm s') = hasPos info && visible info /\
  flag_bit (cursor_shape_bit K) (shm s') = shape_fits (svc s) /\
  (forall b, 0 <= b ->
     b <> cursor_update_bit K -> b <> cursor_pos_bit K ->
     b <> cursor_visible_bit K -> b <> cursor_shape_bit K ->
     flag_bit b (shm s') = false) /\
  read_loc CursorX (shm s') = (if hasPos info then x info else read_loc CursorX (shm s)) /\
  read_loc CursorY (shm s') = (if hasPos info then y info else read_loc CursorY (shm s)) /\
  (shape_fits (svc s) = false ->
   (forall l, In l shape_fields -> read_loc l (shm s') = read_loc l (shm s)) /\
   cursorData (shm s') = cursorData (shm s)) /\
  hasPos (m_cursorInfo (svc s')) = false /\
  hasShape (m_cursorInfo (svc s')) = false /\
  m_cursorEvent (svc s') = false.

(** *** Further edges *)

(** The backend's [Capture] times out now and at every later call. *)
Definition always_times_out {W} {P : Platform W} (w : W) : Prop :=
  forall k, fst (capture_Capture (Nat.iter k (fun w => snd (capture_Capture w)) w))
            = GRAB_STATUS_TIMEOUT.

(** The addresses that [InitPointers] computes are multiples of 128. *)
Definition addresses_aligned (K : Headers) (s : Service) : Prop :=
  m_cursorData s mod 128 = 0 /\
  m_frameSize s mod 128 = 0 /\
  forall i, 0 <= i < MAX_FRAMES K -> nth (Z.to_nat i) (m_frame s) 0 mod 128 = 0.

(** *** Scenarios *)

(** Three cycles in a row. *)
Definition three_cycles {W} {P : Platform W} (K : Headers) (fuel : nat)
  : M W (bool * bool * bool) :=
  a <- Process K fuel ;;
  b <- Process K fuel ;;
  c <- Process K fuel ;;
  ret (a, b, c).

(** A new frame, then a time-out that signals it again, then a new frame; the
    consumer acknowledges the first frame while the producer waits to signal
    it again, and takes its time over the repeated one. *)
Definition repeat_then_new : Sys Script :=
  with_world
    (with_script
       [(GRAB_STATUS_OK, no_cursor); (GRAB_STATUS_TIMEOUT, no_cursor);
        (GRAB_STATUS_OK, no_cursor)]
       [(GRAB_STATUS_OK, example_frame); (GRAB_STATUS_OK, example_frame)]
       [CAckFrame; CAckFrame])
    example_state.

(** A capture that succeeds and a [GetFrame] that fails, with PAUSED left set
    in the global flags byte. *)
Definition failed_frame : Sys Script :=
  with_shm (write_loc HeaderFlags KVMFR_HEADER_FLAG_PAUSED)
    (with_world
       (with_script [(GRAB_STATUS_OK, no_cursor)]
          [(GRAB_STATUS_ERROR, example_frame)] [])
       example_state).

(** The previous frame not yet acknowledged, and a consumer that raises
    RESTART instead. *)
Definition restart_while_blocked : Sys Script :=
  with_shm (write_loc FrameFlags KVMFR_FRAME_FLAG_UPDATE)
    (with_world
       (with_script [] [(GRAB_STATUS_OK, example_frame)] [CRestart])
       example_state).

(** A position update, a shape update that fits the cursor area, and one
    that does not. *)
Definition moved_cursor : CursorInfo :=
  {| updated := true; visible := true; hasShape := false; hasPos := true;
     x := 10; y := 20; type := 0; w := 0; h := 0; pitch := 0;
     shape := []; dataSize := 0 |}.

Definition small_shape : CursorInfo :=
  {| updated := true; visible := true; hasShape := true; hasPos := false;
     x := 0; y := 0; type := 1; w := 2; h := 2; pitch := 8;
     shape := [1; 2; 3; 4; 5; 6; 7; 8; 9; 10; 11; 12; 13; 14; 15; 16];
     dataSize := 16 |}.

Definition huge_shape : CursorInfo :=
  {| updated := true; visible := true; hasShape := true; hasPos := false;
     x := 0; y := 0; type := 1; w := 1024; h := 1024; pitch := 4096;
     shape := []; dataSize := 4194304 |}.

(** A device whose region is smaller than the header. *)
Definition tiny_device : Sys Script :=
  Build_Sys new_Service zero_Shm
    {| sc_opens := true; sc_size := 64; sc_memory := 65536;
       sc_captures := []; sc_cursor := no_cursor; sc_frames := [];
       sc_frameType := 1; sc_maxFrameSize := 8388608; sc_reinits := [];
       sc_canInitialize := []; sc_sessions := []; sc_consumer := [] |}.

(** A backend whose frames may need 40 MiB, on the example device. *)
Definition large_frames : Sys Script :=
  Build_Sys new_Service zero_Shm
    {| sc_opens := true; sc_size := 67108864; sc_memory := 65536;
       sc_captures := []; sc_cursor := no_cursor; sc_frames := [];
       sc_frameType := 1; sc_maxFrameSize := 41943040; sc_reinits := [];
       sc_canInitialize := []; sc_sessions := []; sc_consumer := [] |}.

(** The backend asks for a reinitialization and comes back with a mode whose
    frames no longer fit. *)
Definition mode_change : Sys Script :=
  with_world
    (fun p =>
       {| sc_opens := sc_opens p; sc_size := sc_size p; sc_memory := sc_memory p;
          sc_captures := [(GRAB_STATUS_REINIT, no_cursor)];
          sc_cursor := sc_cursor p; sc_frames := [];
          sc_frameType := sc_frameType p; sc_maxFrameSize := sc_maxFrameSize p;
          sc_reinits := [(true, 41943040)];
          sc_canInitialize := [false; true]; sc_sessions := [];
          sc_consumer := [] |})
    example_state.

(** Two time-outs before any frame was published, then a frame. *)
Definition slow_start : Sys Script :=
  with_world
    (with_script
       [(GRAB_STATUS_TIMEOUT, no_cursor); (GRAB_STATUS_TIMEOUT, no_cursor);
        (GRAB_STATUS_OK, no_cursor)]
       [(GRAB_STATUS_OK, example_frame)] [])
    example_state.

(** The state after the first cycle of [repeat_then_new], and after the
    second. *)
Definition after_cycles (n : nat) (s : Sys Script) : Sys Script :=
  Nat.iter n (fun s => match Process example_headers 5 s with
                       | Some (_, s', _) => s'
                       | None => s
                       end) s.

(** A device that opens but gives no mapping. *)
Definition unmapped_device : Sys Script :=
  Build_Sys new_Service zero_Shm
    {| sc_opens := true; sc_size := 67108864; sc_memory := 0;
       sc_captures := []; sc_cursor := no_cursor; sc_frames := [];
       sc_frameType := 1; sc_maxFrameSize := 8388608; sc_reinits := [];
       sc_canInitialize := []; sc_sessions := []; sc_consumer := [] |}.

(** The example device, found with RESTART and PAUSED set in the region. *)
Definition stale_region : Sys Script :=
  Build_Sys new_Service (write_loc HeaderFlags 3 zero_Shm) example_script.

(** A region of 1000 bytes: room for the header, none for the cursor area
    or the ring. *)
Definition cramped_device : Sys Script :=
  Build_Sys new_Service zero_Shm
    {| sc_opens := true; sc_size := 1000; sc_memory := 65536;
       sc_captures := []; sc_cursor := no_cursor; sc_frames := [];
       sc_frameType := 1; sc_maxFrameSize := 8388608; sc_reinits := [];
       sc_canInitialize := []; sc_sessions := []; sc_consumer := [] |}.

(** A frame with a new cursor shape, then a cursor movement, with a
    consumer that acknowledges both channels. *)
Definition busy_device : Sys Script :=
  Build_Sys new_Service zero_Shm
    (with_script
       [(GRAB_STATUS_OK, small_shape); (GRAB_STATUS_CURSOR, moved_cursor)]
       [(GRAB_STATUS_OK, example_frame)] [CAckFrame; CAckCursor]
       example_script).

Definition busy_calls : list Call :=
  [CallProcess; CallCursorThread; CallProcess; CallCursorThread].

(** Storage that holds anything at all before the constructor runs. *)
Definition raw_storage : Service :=
  {| m_initialized := true; m_memory := 4096; m_capture := true;
     m_shmHeader := 4096; m_frameIndex := 77; m_cursorDataSize := 5;
     m_cursorData := 1; m_cursorOffset := 2; m_frameSize := 3;
     m_frame := [1; 2; 3]; m_dataOffset := []; m_haveFrame := true;
     m_tryTarget := 9; m_consoleSessionID := 8; m_cursorInfo := moved_cursor;
     m_cursorThread := false; m_cursorEvent := true |}.

Definition life_calls : list Call :=
  [CallProcess; CallDeInitialize; CallInitialize; CallProcess;
   CallCursorThread].

(** The first frame, with a cursor movement. *)
Definition first_frame : Sys Script :=
  with_world
    (with_script [(GRAB_STATUS_OK, moved_cursor)]
       [(GRAB_STATUS_OK, example_frame)] [])
    example_state.

(** The consumer asks for a restart, and the backend fails to reinitialize. *)
Definition restart_fails : Sys Script :=
  with_shm (write_loc HeaderFlags KVMFR_HEADER_FLAG_RESTART) example_state.

(** The consumer asks for a restart while PAUSED is set, and the backend
    reinitializes. *)
Definition restart_works : Sys Script :=
  with_shm (write_loc HeaderFlags 3)
    (with_world
       (fun p =>
          {| sc_opens := sc_opens p; sc_size := sc_size p; sc_memory := sc_memory p;
             sc_captures := []; sc_cursor := sc_cursor p; sc_frames := [];
             sc_frameType := sc_frameType p; sc_maxFrameSize := sc_maxFrameSize p;
             sc_reinits := [(true, 1048576)];
             sc_canInitialize := []; sc_sessions := []; sc_consumer := [] |})
       example_state).

(** The backend asks for a reinitialization, which fails. *)
Definition reinit_fails : Sys Script :=
  with_world (with_script [(GRAB_STATUS_REINIT, no_cursor)] [] []) example_state.

(** A cursor movement alone. *)
Definition cursor_moves : Sys Script :=
  with_world (with_script [(GRAB_STATUS_CURSOR, moved_cursor)] [] []) example_state.

(** The first frame published and acknowledged, and a capture that times
    out. *)
Definition frame_acknowledged : Sys Script :=
  with_shm (consumer_apply CAckFrame) (after_cycles 1 repeat_then_new).

(** *** Reasoning about computations *)

(** [wp m s Q]: if [m] returns from [s], then [Q] holds of the value, the
    final state and the record. *)
Definition wp {W A} (m : M W A) (s : Sys W)
  (Q : A -> Sys W -> list Event -> Prop) : Prop :=
  match m s with
  | None => True
  | Some (a, s', l) => Q a s' l
  end.

(** [twp m s Q]: [m] returns from [s], and [Q] holds of the value, the final
    state and the record. *)
Definition twp {W A} (m : M W A) (s : Sys W)
  (Q : A -> Sys W -> list Event -> Prop) : Prop :=
  match m s with
  | None => False
  | Some (a, s', l) => Q a s' l
  end.

(** * Proofs *)

(** ** Arithmetic of the alignment macros *)

Lemma align_mask_eq : to_uintptr (Z.lnot 0x7F) = Z.shiftl (Z.ones 57) 7.
Proof. reflexivity. Qed.

Lemma ALIGN_DN_spec (x : Z) :
  0 <= x < 2 ^ 64 -> ALIGN_DN x = 128 * (x / 128).
Proof.
  intros Hx. unfold ALIGN_DN. rewrite align_mask_eq. unfold to_uintptr.
  change 128 with (2 ^ 7).
  rewrite Z.mul_comm, <- Z.shiftr_div_pow2, <- Z.shiftl_mul_pow2 by lia.
  apply Z.bits_inj'. intros n Hn.
  rewrite Z.land_spec.
  destruct (Z.ltb_spec n 7) as [Hlt | Hge].
  - rewrite (Z.shiftl_spec_low (Z.ones 57)), (Z.shiftl_spec_low (Z.shiftr x 7)) by lia.
    apply andb_false_r.
  - rewrite !Z.shiftl_spec, Z.shiftr_spec by lia.
    replace (n - 7 + 7) with n by lia.
    rewrite Z.testbit_ones by lia.
    destruct (Z.ltb_spec n 64) as [H64 | H64].
    + rewrite Z.mod_pow2_bits_low by lia.
      replace (0 <=? n - 7) with true by (symmetry; apply Z.leb_le; lia).
      replace (n - 7 <? 57) with true by (symmetry; apply Z.ltb_lt; lia).
      apply andb_true_r.
    + rewrite Z.mod_pow2_bits_high by lia. simpl.
      rewrite <- (Z.mod_small x (2 ^ 64)) by lia.
      symmetry. apply Z.mod_pow2_bits_high. lia.
Qed.

Lemma ALIGN_DN_align_down (x : Z) :
  0 <= x < 2 ^ 64 -> ALIGN_DN x = align_down x 128.
Proof.
  intros Hx. rewrite ALIGN_DN_spec by exact Hx. unfold align_down.
  pose proof (Z.div_mod x 128). lia.
Qed.

Lemma ALIGN_UP_aligned (x : Z) :
  0 <= x -> x + 127 < 2 ^ 64 -> x mod 128 = 0 -> ALIGN_UP x = x.
Proof.
  intros H0 H1 Hm. unfold ALIGN_UP. rewrite ALIGN_DN_spec by lia.
  pose proof (Z.div_mod x 128 ltac:(lia)) as Hd. rewrite Hm in Hd.
  replace (x + 127) with (127 + (x / 128) * 128) by lia.
  rewrite Z.div_add by lia. change (127 / 128) with 0. lia.
Qed.

Lemma ALIGN_UP_base (base x : Z) :
  0 <= base -> 0 <= x -> base + x + 127 < 2 ^ 64 -> base mod 128 = 0 ->
  ALIGN_UP (base + x) = base + 128 * ((x + 127) / 128).
Proof.
  intros Hb Hx Hlt Hm. unfold ALIGN_UP. rewrite ALIGN_DN_spec by lia.
  pose proof (Z.div_mod base 128 ltac:(lia)) as Hd. rewrite Hm in Hd.
  replace (base + x + 127) with (x + 127 + (base / 128) * 128) by lia.
  rewrite Z.div_add by lia. lia.
Qed.

Lemma mul128_mod (q : Z) : (128 * q) mod 128 = 0.
Proof. rewrite Z.mul_comm. apply Z.mod_mul. lia. Qed.

Lemma add_mul128_mod (a q : Z) : a mod 128 = 0 -> (a + 128 * q) mod 128 = 0.
Proof.
  intros Ha. replace (a + 128 * q) with (a + q * 128) by lia.
  rewrite Z.mod_add by lia. exact Ha.
Qed.

(** ** The layout *)

Lemma nth_frame_indices (K : Headers) (f : Z -> Z) (i : Z) :
  0 <= i < MAX_FRAMES K ->
  nth (Z.to_nat i) (map f (frame_indices K)) 0 = f i.
Proof.
  intros Hi. unfold frame_indices. rewrite map_map.
  rewrite (nth_indep _ 0 (f (Z.of_nat 0)))
    by (rewrite length_map, length_seq; lia).
  rewrite (map_nth (fun n => f (Z.of_nat n))).
  rewrite seq_nth by lia. simpl. f_equal. lia.
Qed.

Lemma Headers_ok_frames (K : Headers) :
  Headers_ok K = true -> 0 < MAX_FRAMES K /\ 0 <= sizeof_KVMFRHeader K.
Proof.
  unfold Headers_ok. intros Hok.
  repeat (apply andb_prop in Hok; destruct Hok as [Hok ?]).
  split; [apply Z.ltb_lt | apply Z.leb_le]; assumption.
Qed.

Section Layout.

Variable K : Headers.
Variables base size : Z.
Hypothesis K_ok : Headers_ok K = true.
Hypothesis base_nonneg : 0 <= base.
Hypothesis base_aligned : base mod 128 = 0.
Hypothesis region_addressable : base + size < 2 ^ 64.

Hypothesis room_for_ring : ring_offset K <= size.

Local Abbreviation ch := (rounded_header K).
Local Abbreviation foff := (ring_offset K).
Local Abbreviation q := (slot_share K size).
Local Abbreviation fs := (slot_size K size).

Lemma rounded_header_bounds : sizeof_KVMFRHeader K <= ch /\ ch mod 128 = 0 /\ 0 <= ch.
Proof.
  destruct (Headers_ok_frames K K_ok) as [_ Hh]. unfold rounded_header.
  pose proof (Z.div_mod (sizeof_KVMFRHeader K + 127) 128 ltac:(lia)).
  pose proof (Z.mod_pos_bound (sizeof_KVMFRHeader K + 127) 128 ltac:(lia)).
  split; [lia | split; [apply mul128_mod | lia]].
Qed.

Lemma layout_cursorData : init_cursorData K base = base + ch.
Proof.
  destruct (Headers_ok_frames K K_ok) as [_ Hh].
  destruct rounded_header_bounds as (H1 & H2 & H3).
  unfold init_cursorData. apply ALIGN_UP_base; try assumption.
  unfold ring_offset in room_for_ring. lia.
Qed.

Lemma layout_cursorOffset : init_cursorOffset K base = ch.
Proof.
  destruct rounded_header_bounds as (H1 & H2 & H3).
  unfold init_cursorOffset. rewrite layout_cursorData.
  replace (base + ch - base) with ch by lia.
  unfold to_uintptr. apply Z.mod_small. unfold ring_offset in room_for_ring. lia.
Qed.

Lemma layout_frames : init_frames K base = base + foff.
Proof.
  destruct rounded_header_bounds as (H1 & H2 & H3).
  unfold init_frames, init_cursorDataSize. rewrite layout_cursorData.
  assert (Hm : (base + ch + 1048576) mod 128 = 0).
  { replace (base + ch + 1048576) with (base + 128 * ((sizeof_KVMFRHeader K + 127) / 128 + 8192))
      by (unfold rounded_header; lia).
    apply add_mul128_mod. exact base_aligned. }
  rewrite ALIGN_UP_aligned; [unfold ring_offset; lia | lia | | exact Hm].
  pose proof (Z.div_mod (base + ch + 1048576) 128 ltac:(lia)) as Hd.
  rewrite Hm in Hd. unfold ring_offset in room_for_ring.
  change (2 ^ 64) with (128 * 2 ^ 57) in *. lia.
Qed.

Lemma slot_size_bounds : 0 <= fs /\ fs <= q /\ MAX_FRAMES K * q <= size - foff /\ 0 <= q.
Proof.
  destruct (Headers_ok_frames K K_ok) as [Hn _]. unfold slot_size, slot_share.
  assert (0 <= (size - foff) / MAX_FRAMES K) by (apply Z.div_pos; lia).
  pose proof (Z.mul_div_le (size - foff) (MAX_FRAMES K) Hn).
  pose proof (Z.mul_div_le ((size - foff) / MAX_FRAMES K) 128 ltac:(lia)).
  assert (0 <= (size - foff) / MAX_FRAMES K / 128) by (apply Z.div_pos; lia).
  lia.
Qed.

Lemma layout_frameSize : init_frameSize K base size = fs.
Proof.
  destruct (Headers_ok_frames K K_ok) as [Hn _].
  destruct rounded_header_bounds as (H1 & H2 & H3). destruct slot_size_bounds as (F1 & F2 & F3 & F4).
  unfold init_frameSize. rewrite layout_frames.
  replace (base + foff - base) with foff by lia.
  unfold to_uintptr at 2. rewrite (Z.mod_small foff) by (unfold ring_offset in *; lia).
  assert (Hfoff : 0 <= foff) by (unfold ring_offset; lia).
  unfold to_uintptr. rewrite (Z.mod_small (size - foff)) by lia.
  fold (slot_share K size). apply ALIGN_DN_spec. split; [exact F4 |].
  assert (q <= size - foff) by nia. lia.
Qed.

Lemma layout_slot_room (i : Z) :
  0 <= i < MAX_FRAMES K -> 0 <= i * fs /\ i * fs + fs <= size - foff.
Proof.
  intros Hi. destruct slot_size_bounds as (F1 & F2 & F3 & F4). split; nia.
Qed.

Lemma layout_dataOffset (i : Z) :
  0 <= i < MAX_FRAMES K -> init_dataOffset K base size i = foff + i * fs.
Proof.
  intros Hi. destruct (layout_slot_room i Hi) as [R1 R2].
  destruct rounded_header_bounds as (H1 & H2 & H3). destruct slot_size_bounds as (F1 & F2 & F3 & F4).
  unfold init_dataOffset, init_frame. rewrite layout_frames, layout_frameSize.
  assert (0 <= foff) by (unfold ring_offset; lia).
  unfold to_uintptr. rewrite (Z.mod_small (i * fs)) by lia.
  rewrite (Z.mod_small (base + foff + i * fs)) by lia.
  replace (base + foff + i * fs - base) with (foff + i * fs) by lia.
  apply Z.mod_small. lia.
Qed.

Lemma layout_of_aligned_region {W : Type} {P : Platform W} (s : Sys W) :
  m_memory (svc s) = base -> ivshmem_GetSize (world s) = size ->
  exists s' log,
    InitPointers K s = Some (true, s', log) /\ layout_ok K size (svc s').
Proof.
  intros Hmem Hsize.
  destruct (Headers_ok_frames K K_ok) as [Hn Hh].
  destruct rounded_header_bounds as (H1 & H2 & H3). destruct slot_size_bounds as (F1 & F2 & F3 & F4).
  assert (Hfoff : 0 <= foff) by (unfold ring_offset; lia).
  eexists; eexists. split; [reflexivity |].
  unfold layout_ok, slot_offset. cbn -[Z.div Z.modulo Z.mul Z.add Z.sub Z.pow nth].
  rewrite Hmem, Hsize.
  assert (Hnth : forall i, 0 <= i < MAX_FRAMES K ->
            nth (Z.to_nat i) (map (init_dataOffset K base size) (frame_indices K)) 0
            = foff + i * fs).
  { intros i Hi. rewrite nth_frame_indices by exact Hi. apply layout_dataOffset, Hi. }
  rewrite layout_cursorOffset, layout_frameSize.
  change (nth 0 (map (init_dataOffset K base size) (frame_indices K)) 0)
    with (nth (Z.to_nat 0) (map (init_dataOffset K base size) (frame_indices K)) 0).
  rewrite (Hnth 0) by lia. rewrite Z.mul_0_l, Z.add_0_r.
  unfold init_cursorDataSize, disjoint, inside.
  repeat split.
  - exact H2.
  - intros i Hi. rewrite Hnth by exact Hi.
    replace (foff + i * fs) with (ch + 128 * (8192 + i * (q / 128)))
      by (unfold ring_offset, slot_size; lia).
    apply add_mul128_mod, H2.
  - unfold align_down, slot_size. fold (slot_share K size).
    pose proof (Z.div_mod q 128 ltac:(lia)). lia.
  - left. lia.
  - left. rewrite Hnth by assumption.
    destruct (layout_slot_room i ltac:(assumption)). unfold ring_offset. lia.
  - left. rewrite Hnth by assumption.
    destruct (layout_slot_room i ltac:(assumption)). unfold ring_offset. lia.
  - intros i j Hi Hj Hij. rewrite !Hnth by assumption.
    assert (i < j \/ j < i) as [Hlt | Hlt] by lia; [left | right]; nia.
  - lia.
  - unfold ring_offset in *. lia.
  - lia.
  - unfold ring_offset in *. lia.
  - rewrite Hnth by assumption.
    destruct (layout_slot_room i ltac:(assumption)). lia.
  - rewrite Hnth by assumption.
    destruct (layout_slot_room i ltac:(assumption)). lia.
Qed.

End Layout.

(** ** The region *)

Lemma read_write_other (l l' : Loc) (v : Z) (m : Shm) :
  Loc_eqb l l' = false -> read_loc l' (write_loc l v m) = read_loc l' m.
Proof. destruct l, l'; intros E; try discriminate E; reflexivity. Qed.

Lemma read_write_same (l : Loc) (v : Z) (m : Shm) :
  read_loc l (write_loc l v m) = v.
Proof. destruct l; reflexivity. Qed.

Lemma same_payload_refl (m : Shm) : same_payload m m.
Proof. split; auto. Qed.

Lemma same_payload_trans (a b c : Shm) :
  same_payload a b -> same_payload b c -> same_payload a c.
Proof.
  intros [H1 H2] [H3 H4]. split.
  - intros l Hl. rewrite H3, H1 by exact Hl. reflexivity.
  - congruence.
Qed.

Lemma same_payload_write (l : Loc) (v : Z) (m : Shm) :
  consumer_field l = true -> same_payload m (write_loc l v m).
Proof.
  intros Hl. split; [| reflexivity].
  intros l' Hl'. apply read_write_other.
  destruct l, l'; try discriminate Hl; try discriminate Hl'; reflexivity.
Qed.

Lemma same_payload_consumer (a : ConsumerAct) (m : Shm) :
  same_payload m (consumer_apply a m).
Proof.
  destruct a; cbn [consumer_apply];
    [apply same_payload_refl | apply same_payload_write ..]; reflexivity.
Qed.

Lemma read_with_cursorData (l : Loc) (d : list Z) (m : Shm) :
  read_loc l (with_cursorData d m) = read_loc l m.
Proof. destruct l; reflexivity. Qed.

Lemma cursorData_write (l : Loc) (v : Z) (m : Shm) :
  cursorData (write_loc l v m) = cursorData m.
Proof. reflexivity. Qed.

(** Reads of a region that is written as a chain of stores. *)
Ltac shm_simpl :=
  repeat first
    [ rewrite read_write_same
    | rewrite read_write_other by reflexivity
    | rewrite read_with_cursorData
    | rewrite cursorData_write ].

(** ** The monad *)

Lemma bind_Some {W A B} (m : M W A) (f : A -> M W B) (s : Sys W) b s2 l :
  bind m f s = Some (b, s2, l) ->
  exists a s1 l1 l2,
    m s = Some (a, s1, l1) /\ f a s1 = Some (b, s2, l2) /\ l = l1 ++ l2.
Proof.
  unfold bind. destruct (m s) as [[[a s1] l1] |] eqn:Em; [| discriminate].
  destruct (f a s1) as [[[b' s2'] l2] |] eqn:Ef; [| discriminate].
  intros E. inversion E; subst. exists a, s1, l1, l2. auto.
Qed.

Lemma wp_elim {W A} (m : M W A) (s : Sys W) Q a s' l :
  wp m s Q -> m s = Some (a, s', l) -> Q a s' l.
Proof. unfold wp. intros Hwp E. rewrite E in Hwp. exact Hwp. Qed.

Lemma wp_intro {W A} (m : M W A) (s : Sys W) (Q : A -> Sys W -> list Event -> Prop) :
  (forall a s' l, m s = Some (a, s', l) -> Q a s' l) -> wp m s Q.
Proof.
  unfold wp. intros HQ. destruct (m s) as [[[a s'] l] |]; [apply HQ; reflexivity | exact I].
Qed.

Lemma wp_mono {W A} (m : M W A) (s : Sys W) (Q Q' : A -> Sys W -> list Event -> Prop) :
  wp m s Q -> (forall a s' l, Q a s' l -> Q' a s' l) -> wp m s Q'.
Proof.
  unfold wp. destruct (m s) as [[[a s'] l] |]; [| trivial]. intros HQ Himp. apply Himp, HQ.
Qed.

Lemma wp_bind {W A B} (m : M W A) (f : A -> M W B) (s : Sys W) Q :
  wp m s (fun a s1 l1 => wp (f a) s1 (fun b s2 l2 => Q b s2 (l1 ++ l2))) ->
  wp (bind m f) s Q.
Proof.
  unfold wp, bind. destruct (m s) as [[[a s1] l1] |]; [| trivial].
  destruct (f a s1) as [[[b s2] l2] |]; trivial.
Qed.

Lemma wp_ret {W A} (a : A) (s : Sys W) (Q : A -> Sys W -> list Event -> Prop) :
  Q a s [] -> wp (ret a) s Q.
Proof. exact (fun q => q). Qed.

Lemma wp_stuck {W A} (s : Sys W) (Q : A -> Sys W -> list Event -> Prop) :
  wp stuck s Q.
Proof. exact I. Qed.

Lemma wp_gets {W A} (f : Service -> A) (s : Sys W) (Q : A -> Sys W -> list Event -> Prop) :
  Q (f (svc s)) s [] -> wp (gets f) s Q.
Proof. exact (fun q => q). Qed.

Lemma wp_modify {W} (f : Service -> Service) (s : Sys W) (Q : unit -> Sys W -> list Event -> Prop) :
  Q tt (with_svc f s) [] -> wp (modify f) s Q.
Proof. exact (fun q => q). Qed.

Lemma wp_ask {W A} (f : W -> A) (s : Sys W) (Q : A -> Sys W -> list Event -> Prop) :
  Q (f (world s)) s [] -> wp (ask f) s Q.
Proof. exact (fun q => q). Qed.

Lemma wp_call {W A} (f : W -> A * W) (s : Sys W) (Q : A -> Sys W -> list Event -> Prop) :
  Q (fst (f (world s))) (with_world (fun w => snd (f w)) s) [] -> wp (call f) s Q.
Proof. exact (fun q => q). Qed.

Lemma wp_act {W} (f : W -> W) (s : Sys W) (Q : unit -> Sys W -> list Event -> Prop) :
  Q tt (with_world f s) [] -> wp (act f) s Q.
Proof. exact (fun q => q). Qed.

Lemma wp_emit {W} (a : Action) (s : Sys W) (Q : unit -> Sys W -> list Event -> Prop) :
  Q tt s [Build_Event (shm s) a] -> wp (emit a) s Q.
Proof. exact (fun q => q). Qed.

Lemma wp_update_shm {W} (a : Action) (f : Shm -> Shm) (s : Sys W)
  (Q : unit -> Sys W -> list Event -> Prop) :
  Q tt (with_shm f s) [Build_Event (shm s) a] -> wp (update_shm a f) s Q.
Proof. exact (fun q => q). Qed.

Lemma wp_load {W} (l : Loc) (s : Sys W) (Q : Z -> Sys W -> list Event -> Prop) :
  Q (read_loc l (shm s)) s [Build_Event (shm s) (ALoad l)] -> wp (load l) s Q.
Proof. exact (fun q => q). Qed.

Lemma wp_consumer_turn {W} {P : Platform W} (s : Sys W)
  (Q : unit -> Sys W -> list Event -> Prop) :
  Q tt (Build_Sys (svc s) (consumer_apply (fst (consumer (world s))) (shm s))
          (snd (consumer (world s))))
    [Build_Event (shm s) (AConsumer (fst (consumer (world s))))] ->
  wp consumer_turn s Q.
Proof. exact (fun q => q). Qed.

(** One step of symbolic execution of straight-line code. *)
Ltac wp_step :=
  lazymatch goal with
  | |- wp (bind _ _) _ _ => apply wp_bind
  | |- wp (ret _) _ _ => apply wp_ret
  | |- wp stuck _ _ => apply wp_stuck
  | |- wp (gets _) _ _ => apply wp_gets
  | |- wp (modify _) _ _ => apply wp_modify
  | |- wp (ask _) _ _ => apply wp_ask
  | |- wp (call _) _ _ => apply wp_call
  | |- wp (act _) _ _ => apply wp_act
  | |- wp (emit _) _ _ => apply wp_emit
  | |- wp (DEBUG_ERROR _) _ _ => apply wp_emit
  | |- wp (update_shm _ _) _ _ => apply wp_update_shm
  | |- wp (store _ _) _ _ => apply wp_update_shm
  | |- wp (INTERLOCKED_AND8 _ _) _ _ => apply wp_update_shm
  | |- wp (load _) _ _ => apply wp_load
  | |- wp consumer_turn _ _ => apply wp_consumer_turn
  | |- wp (if negb ?b then _ else _) _ _ => destruct b eqn:?
  | |- wp (if ?b then _ else _) _ _ => destruct b eqn:?
  | |- wp (let (_, _) := ?p in _) _ _ => destruct p eqn:?
  end;
  cbn beta iota delta [app with_svc with_shm with_world svc shm world
                       ok cursorOnly repeat negb];
  shm_simpl.

Ltac wp_run := repeat wp_step.

(** *** Runs that return *)

Lemma twp_elim {W A} (m : M W A) (s : Sys W) (Q : A -> Sys W -> list Event -> Prop) :
  twp m s Q -> exists a s' l, m s = Some (a, s', l) /\ Q a s' l.
Proof.
  unfold twp. destruct (m s) as [[[a s'] l] |]; [| intros []].
  intros HQ. exists a, s', l. auto.
Qed.

Lemma twp_mono {W A} (m : M W A) (s : Sys W) (Q Q' : A -> Sys W -> list Event -> Prop) :
  twp m s Q -> (forall a s' l, Q a s' l -> Q' a s' l) -> twp m s Q'.
Proof.
  unfold twp. destruct (m s) as [[[a s'] l] |]; [| trivial]. intros HQ Himp. apply Himp, HQ.
Qed.

Lemma twp_bind {W A B} (m : M W A) (f : A -> M W B) (s : Sys W) Q :
  twp m s (fun a s1 l1 => twp (f a) s1 (fun b s2 l2 => Q b s2 (l1 ++ l2))) ->
  twp (bind m f) s Q.
Proof.
  unfold twp, bind. destruct (m s) as [[[a s1] l1] |]; [| trivial].
  destruct (f a s1) as [[[b s2] l2] |]; trivial.
Qed.

Lemma twp_ret {W A} (a : A) (s : Sys W) (Q : A -> Sys W -> list Event -> Prop) :
  Q a s [] -> twp (ret a) s Q.
Proof. exact (fun q => q). Qed.

Lemma twp_gets {W A} (f : Service -> A) (s : Sys W) (Q : A -> Sys W -> list Event -> Prop) :
  Q (f (svc s)) s [] -> twp (gets f) s Q.
Proof. exact (fun q => q). Qed.

Lemma twp_modify {W} (f : Service -> Service) (s : Sys W) (Q : unit -> Sys W -> list Event -> Prop) :
  Q tt (with_svc f s) [] -> twp (modify f) s Q.
Proof. exact (fun q => q). Qed.

Lemma twp_ask {W A} (f : W -> A) (s : Sys W) (Q : A -> Sys W -> list Event -> Prop) :
  Q (f (world s)) s [] -> twp (ask f) s Q.
Proof. exact (fun q => q). Qed.

Lemma twp_call {W A} (f : W -> A * W) (s : Sys W) (Q : A -> Sys W -> list Event -> Prop) :
  Q (fst (f (world s))) (with_world (fun w => snd (f w)) s) [] -> twp (call f) s Q.
Proof. exact (fun q => q). Qed.

Lemma twp_emit {W} (a : Action) (s : Sys W) (Q : unit -> Sys W -> list Event -> Prop) :
  Q tt s [Build_Event (shm s) a] -> twp (emit a) s Q.
Proof. exact (fun q => q). Qed.

Lemma twp_update_shm {W} (a : Action) (f : Shm -> Shm) (s : Sys W)
  (Q : unit -> Sys W -> list Event -> Prop) :
  Q tt (with_shm f s) [Build_Event (shm s) a] -> twp (update_shm a f) s Q.
Proof. exact (fun q => q). Qed.

Lemma twp_load {W} (l : Loc) (s : Sys W) (Q : Z -> Sys W -> list Event -> Prop) :
  Q (read_loc l (shm s)) s [Build_Event (shm s) (ALoad l)] -> twp (load l) s Q.
Proof. exact (fun q => q). Qed.

Lemma twp_consumer_turn {W} {P : Platform W} (s : Sys W)
  (Q : unit -> Sys W -> list Event -> Prop) :
  Q tt (Build_Sys (svc s) (consumer_apply (fst (consumer (world s))) (shm s))
          (snd (consumer (world s))))
    [Build_Event (shm s) (AConsumer (fst (consumer (world s))))] ->
  twp consumer_turn s Q.
Proof. exact (fun q => q). Qed.

(** One step of symbolic execution of code that returns. *)
Ltac twp_step :=
  lazymatch goal with
  | |- twp (bind _ _) _ _ => apply twp_bind
  | |- twp (ret _) _ _ => apply twp_ret
  | |- twp (gets _) _ _ => apply twp_gets
  | |- twp (modify _) _ _ => apply twp_modify
  | |- twp (ask _) _ _ => apply twp_ask
  | |- twp (call _) _ _ => apply twp_call
  | |- twp (emit _) _ _ => apply twp_emit
  | |- twp (DEBUG_ERROR _) _ _ => apply twp_emit
  | |- twp (update_shm _ _) _ _ => apply twp_update_shm
  | |- twp (store _ _) _ _ => apply twp_update_shm
  | |- twp (INTERLOCKED_AND8 _ _) _ _ => apply twp_update_shm
  | |- twp (load _) _ _ => apply twp_load
  | |- twp consumer_turn _ _ => apply twp_consumer_turn
  | |- twp (if negb ?b then _ else _) _ _ => destruct b eqn:?
  | |- twp (if ?b then _ else _) _ _ => destruct b eqn:?
  | |- twp (let (_, _) := ?p in _) _ _ => destruct p eqn:?
  end;
  cbn beta iota delta [app with_svc with_shm with_world svc shm world
                       ok cursorOnly repeat negb];
  shm_simpl.

Ltac twp_run := repeat twp_step.

(** ** Flag bits *)

Lemma testbit_to_uint8 (v b : Z) :
  b < 8 -> Z.testbit (to_uint8 v) b = Z.testbit v b.
Proof. intros Hb. unfold to_uint8. apply Z.mod_pow2_bits_low. exact Hb. Qed.

Lemma testbit_flag (k b : Z) :
  0 <= k -> Z.testbit (Z.shiftl 1 k) b = (k =? b).
Proof.
  intros Hk. rewrite Z.shiftl_1_l. apply Z.pow2_bits_eqb. exact Hk.
Qed.

Lemma testbit_raise (v k b : Z) :
  0 <= k < 8 -> 0 <= b < 8 ->
  Z.testbit (to_uint8 (Z.lor v (Z.shiftl 1 k))) b = Z.testbit v b || (k =? b).
Proof.
  intros Hk Hb. rewrite testbit_to_uint8 by lia.
  rewrite Z.lor_spec, testbit_flag by lia. reflexivity.
Qed.

Lemma testbit_lower (v k b : Z) :
  0 <= k < 8 -> 0 <= b < 8 ->
  Z.testbit (to_uint8 (Z.land v (Z.lnot (Z.shiftl 1 k)))) b
  = Z.testbit v b && negb (k =? b).
Proof.
  intros Hk Hb. rewrite testbit_to_uint8 by lia.
  rewrite Z.land_spec, Z.lnot_spec, testbit_flag by lia. reflexivity.
Qed.

Lemma Headers_ok_bits (K : Headers) :
  Headers_ok K = true ->
  (0 <= cursor_update_bit K < 8 /\ 0 <= cursor_pos_bit K < 8 /\
   0 <= cursor_shape_bit K < 8 /\ 0 <= cursor_visible_bit K < 8) /\
  (cursor_update_bit K <> cursor_pos_bit K /\
   cursor_update_bit K <> cursor_shape_bit K /\
   cursor_update_bit K <> cursor_visible_bit K /\
   cursor_pos_bit K <> cursor_shape_bit K /\
   cursor_pos_bit K <> cursor_visible_bit K /\
   cursor_shape_bit K <> cursor_visible_bit K) /\
  0 < cursor_version_bits K.
Proof.
  unfold Headers_ok, is_flag_bit. intros Hok.
  repeat (apply andb_prop in Hok; destruct Hok as [Hok ?]).
  repeat match goal with
         | H : (_ && _) = true |- _ => apply andb_prop in H; destruct H
         | H : negb _ = true |- _ => apply negb_true_iff, Z.eqb_neq in H
         | H : (_ <=? _) = true |- _ => apply Z.leb_le in H
         | H : (_ <? _) = true |- _ => apply Z.ltb_lt in H
         end.
  repeat split; assumption.
Qed.

(** ** The polling loops *)

Section Loops.

Context {W : Type} {P : Platform W}.
Variable K : Headers.

(** The session wait touches nothing but the platform. *)
Lemma wp_wait_session (fuel : nat) (s : Sys W) (Q : unit -> Sys W -> list Event -> Prop) :
  (forall w', Q tt (Build_Sys (svc s) (shm s) w') []) -> wp (wait_session fuel) s Q.
Proof.
  intros HQ. revert s HQ. induction fuel as [| fuel IH]; intros s HQ; cbn [wait_session].
  - wp_run. apply (HQ (snd (WTSGetActiveConsoleSessionId (world s)))).
  - wp_run. apply (HQ (snd (WTSGetActiveConsoleSessionId (world s)))).
    apply IH. intros w'. apply HQ.
Qed.

Lemma wp_wait_can_initialize (fuel : nat) (s : Sys W) (Q : unit -> Sys W -> list Event -> Prop) :
  (forall w', Q tt (Build_Sys (svc s) (shm s) w') []) -> wp (wait_can_initialize fuel) s Q.
Proof.
  intros HQ. revert s HQ. induction fuel as [| fuel IH]; intros s HQ; cbn [wait_can_initialize].
  - wp_run. apply (HQ (snd (capture_CanInitialize (world s)))).
  - wp_run. apply (HQ (snd (capture_CanInitialize (world s)))).
    apply IH. intros w'. apply HQ.
Qed.

(** The frame hand-shake leaves the service object and the payload alone,
    only polls, and ends with UPDATE clear or RESTART raised. *)
Lemma wp_wait_frame (fuel : nat) (s : Sys W) (Q : unit -> Sys W -> list Event -> Prop) :
  (forall s' l, svc s' = svc s -> same_payload (shm s) (shm s') ->
                forallb is_poll l = true -> frame_released (shm s') = true ->
                Q tt s' l) ->
  wp (wait_frame fuel) s Q.
Proof.
  assert (Hrel : forall m : Shm,
            (Z.land (read_loc FrameFlags m) KVMFR_FRAME_FLAG_UPDATE =? 0) = true \/
            (Z.land (read_loc HeaderFlags m) KVMFR_HEADER_FLAG_RESTART =? 0) = false ->
            frame_released m = true).
  { intros m [E | E]; unfold frame_released, is_set; rewrite E;
      [reflexivity | apply orb_true_r]. }
  revert s Q. induction fuel as [| fuel IH]; intros s Q HQ; cbn [wait_frame].
  - wp_run; apply HQ; auto using same_payload_refl.
  - wp_run.
    all: try (apply HQ; auto using same_payload_refl; fail).
    apply IH. cbn [svc shm]. intros s' l Hsvc Hpay Hpoll Hfree.
    apply HQ; auto.
    eapply same_payload_trans; [apply same_payload_consumer | exact Hpay].
Qed.

End Loops.

(** Symbolic execution through the code of [Process]. *)
Ltac wp_go :=
  repeat first
    [ wp_step
    | apply wp_wait_session; intros ?w
    | apply wp_wait_can_initialize; intros ?w
    | apply wp_wait_frame; intros ?s ?l ?Hsvc ?Hpay ?Hpoll ?Hrel ];
  cbn beta iota delta [app with_svc with_shm with_world svc shm world
                       ok cursorOnly repeat negb].

(** ** The retry budget *)

Section Budget.

Context {W : Type} {P : Platform W}.
Variable K : Headers.

Lemma budget_cons (e : Event) (l : list Event) :
  budget_consumed (e :: l)
  = ((if consumes_budget (action e) then 1 else 0) + budget_consumed l)%nat.
Proof.
  unfold budget_consumed, actions. cbn.
  destruct (consumes_budget (action e)); reflexivity.
Qed.

Lemma budget_app (l1 l2 : list Event) :
  budget_consumed (l1 ++ l2) = (budget_consumed l1 + budget_consumed l2)%nat.
Proof.
  unfold budget_consumed, actions.
  rewrite map_app, filter_app, length_app. reflexivity.
Qed.

Lemma budget_polls (l : list Event) :
  forallb is_poll l = true -> budget_consumed l = 0%nat.
Proof.
  induction l as [| e l IH]; [reflexivity |]. cbn [forallb]. intros H.
  apply andb_prop in H. destruct H as [He Hl]. rewrite budget_cons, (IH Hl).
  unfold is_poll in He. destruct (action e); try discriminate He; reflexivity.
Qed.

Ltac budget :=
  cbn beta; intros;
  repeat (rewrite ?budget_cons, ?budget_app; cbn [action consumes_budget]);
  repeat match goal with
         | H : forallb is_poll ?l = true |- _ => rewrite (budget_polls l H)
         end;
  change (budget_consumed []) with 0%nat; lia.

(** Whatever the counter and however long the loop runs, at most one attempt
    of a run of the loop is of a kind that uses up budget: such an attempt
    ends the loop. *)
Lemma capture_loop_budget (fuel n : nat) (i : Z) (v : Locals) (s : Sys W) :
  wp (capture_loop K fuel n i v) s (fun _ _ l => (budget_consumed l <= 1)%nat).
Proof.
  revert i v s. induction fuel as [| fuel IH]; intros i v s; cbn [capture_loop].
  - wp_go. cbn. lia.
  - wp_step; [| wp_go; cbn; lia].
    wp_step. wp_step. wp_step. wp_step. wp_step.
    destruct (fst (capture_Capture (world s)));
      unfold capture_switch, reinitialize_capture.
    all: wp_go.
    all: try (cbn; lia).
    all: try (eapply wp_mono; [apply IH | budget]).
Qed.

Lemma Process_budget (fuel : nat) (s : Sys W) :
  wp (Process K fuel) s (fun _ _ l => (budget_consumed l <= 2)%nat).
Proof.
  unfold Process, service_restart, reinitialize_capture.
  wp_go; try budget.
  all: eapply wp_mono; [apply capture_loop_budget |].
  all: intros e s1 l1 Hl1; cbn beta.
  all: unfold after_capture, stage_cursor, publish_frame.
  all: destruct e as [v | b]; wp_go; try budget.
Qed.

Lemma cons_app_eq {A} (a : A) (l l1 l2 : list A) :
  l = l1 ++ l2 -> a :: l = (a :: l1) ++ l2.
Proof. intros ->. reflexivity. Qed.

(** [l = ?l1 ++ l2] for a list [l] that is some elements consed on [l2]. *)
Ltac split_prefix :=
  repeat apply cons_app_eq; symmetry; apply app_nil_l.

(** An attempt that is given back: the rest of the run is a run of the loop
    at the same counter, unless the reinitialization failed the cycle. *)
Lemma capture_loop_refund (fuel n : nat) (i : Z) (v : Locals) (s : Sys W) :
  i < 2 ->
  refunded (m_haveFrame (svc s)) (fst (capture_Capture (world s))) = true ->
  wp (capture_loop K (S fuel) n i v) s
     (fun e s' l =>
        e = LoopReturn false \/
        exists s1 l1 l2,
          capture_loop K fuel n i v s1 = Some (e, s', l2) /\ l = l1 ++ l2 /\
          budget_consumed l1 = 0%nat).
Proof.
  intros Hi Href. apply Z.ltb_lt in Hi. cbn [capture_loop]. rewrite Hi.
  wp_step. wp_step. wp_step. wp_step. wp_step.
  destruct (fst (capture_Capture (world s))); try discriminate Href;
    unfold capture_switch, reinitialize_capture.
  - cbn [refunded] in Href. apply negb_true_iff in Href.
    wp_step. wp_step. rewrite Href. wp_step.
    replace (i - 1 + 1) with i by lia.
    apply wp_intro. intros e s' l2 Hrun. right.
    eexists; eexists; exists l2. split; [exact Hrun |].
    split; [split_prefix | reflexivity].
  - wp_go; try (left; reflexivity).
    all: replace (i - 1 + 1) with i by lia.
    all: apply wp_intro; intros e s' l2 Hrun; right.
    all: eexists; eexists; exists l2; (split; [exact Hrun |]).
    all: split; [split_prefix | reflexivity].
Qed.

(** With the budget used up the loop ends at once, and a cycle that leaves
    the loop without [ok] returns [false]. *)
Lemma budget_exhausted (fuel n : nat) (v : Locals) (s : Sys W) :
  ok v = false ->
  capture_loop K fuel n 2 v s = Some (LoopDone v, s, []) /\
  exists l, after_capture K fuel (LoopDone v) s = Some (false, s, l).
Proof.
  intros Hok. split.
  - destruct fuel; reflexivity.
  - unfold after_capture. rewrite Hok. cbn. eexists. reflexivity.
Qed.

End Budget.

(** ** The ring index *)

Section Index.

Context {W : Type} {P : Platform W}.
Variable K : Headers.

Lemma stores_to_cons l (e : Event) (log : list Event) :
  stores_to l (e :: log)
  = (match action e with AStore l' _ => Loc_eqb l l' | _ => false end) || stores_to l log.
Proof. reflexivity. Qed.

Lemma stores_to_app l (l1 l2 : list Event) :
  stores_to l (l1 ++ l2) = stores_to l l1 || stores_to l l2.
Proof. unfold stores_to. apply existsb_app. Qed.

Lemma stores_to_polls l (log : list Event) :
  forallb is_poll log = true -> stores_to l log = false.
Proof.
  induction log as [| e log IH]; [reflexivity |]. cbn [forallb]. intros H.
  apply andb_prop in H. destruct H as [He Hl]. rewrite stores_to_cons, (IH Hl).
  unfold is_poll in He. destruct (action e); try discriminate He; reflexivity.
Qed.

Lemma rewind_mod (i : Z) :
  0 < MAX_FRAMES K -> 0 <= i < MAX_FRAMES K ->
  (if i - 1 <? 0 then MAX_FRAMES K - 1 else i - 1) = (i - 1) mod MAX_FRAMES K.
Proof.
  intros Hn Hi. destruct (Z.ltb_spec (i - 1) 0).
  - replace (i - 1) with (MAX_FRAMES K - 1 + (-1) * MAX_FRAMES K) by lia.
    rewrite Z.mod_add by lia. symmetry. apply Z.mod_small. lia.
  - symmetry. apply Z.mod_small. lia.
Qed.

Lemma advance_mod (i : Z) :
  0 < MAX_FRAMES K -> 0 <= i < MAX_FRAMES K ->
  (if i + 1 =? MAX_FRAMES K then 0 else i + 1) = (i + 1) mod MAX_FRAMES K.
Proof.
  intros Hn Hi. destruct (Z.eqb_spec (i + 1) (MAX_FRAMES K)) as [E | E].
  - rewrite E. symmetry. apply Z.mod_same. lia.
  - symmetry. apply Z.mod_small. lia.
Qed.

Ltac stores :=
  repeat (rewrite ?stores_to_cons, ?stores_to_app; cbn [action Loc_eqb orb]);
  change (stores_to FrameDataPos []) with false;
  change (stores_to FrameFlags []) with false;
  repeat match goal with
         | H : forallb is_poll ?l = true |- _ => rewrite (stores_to_polls _ l H)
         | H : stores_to _ _ = _ |- _ => rewrite H
         end;
  cbn [orb]; try reflexivity.

Ltac payload_writes :=
  repeat first
    [ apply same_payload_refl
    | eapply same_payload_trans; [| apply same_payload_write; reflexivity] ].

Ltac payload :=
  first
    [ assumption
    | solve [payload_writes]
    | eapply same_payload_trans; [| eassumption]; solve [payload_writes] ].

Lemma capture_loop_frame (fuel n : nat) (i : Z) (v : Locals) (s : Sys W) :
  wp (capture_loop K fuel n i v) s (loop_frame K v s).
Proof.
  revert i v s. induction fuel as [| fuel IH]; intros i v s; cbn [capture_loop].
  - wp_go. unfold loop_frame. repeat split; auto using same_payload_refl.
  - wp_step; [| wp_go; unfold loop_frame; repeat split; auto using same_payload_refl].
    wp_step. wp_step. wp_step. wp_step. wp_step.
    destruct (fst (capture_Capture (world s)));
      unfold capture_switch, reinitialize_capture.
    all: wp_go.
    all: try (unfold loop_frame; cbn [svc shm];
              repeat split; auto using same_payload_refl; fail).
    all: try (unfold loop_frame; cbn [svc shm]; split; [stores | split; [stores | split; [payload |]]];
              cbn [repeat cursorOnly ok]; auto 10; fail).
    all: try (eapply wp_mono; [apply IH |];
              intros e s1 l1 (H1 & H2 & H3 & H4); unfold loop_frame; cbn [svc shm] in *;
              split; [stores | split; [stores | split; [payload | exact H4]]]).
Qed.

Lemma Process_index (fuel : nat) (s : Sys W) :
  0 < MAX_FRAMES K -> 0 <= m_frameIndex (svc s) < MAX_FRAMES K ->
  wp (Process K fuel) s (fun _ s' l => index_step K s s' l).
Proof.
  intros Hn Hi.
  unfold Process, service_restart, reinitialize_capture.
  wp_go.
  all: try (unfold index_step; cbn [svc shm]; stores; fail).
  all: eapply wp_mono; [apply capture_loop_frame |].
  all: intros e s1 l1 (H1 & H2 & H3 & H4); cbn [svc shm] in *.
  all: unfold after_capture, stage_cursor, publish_frame.
  all: destruct e as [v | b]; wp_go.
  all: cbn [svc shm with_svc with_shm with_world] in *.
  all: unfold index_step; cbn [svc shm with_svc with_shm with_world]; stores; cbn iota.
  all: cbn [repeat cursorOnly ok no_locals] in H4.
  all: try (destruct H4 as [(R1 & R2 & R3 & R4 & R5) | (R1 & R2)]).
  all: repeat match goal with
              | H : negb _ = true |- _ => apply negb_true_iff in H
              | H : negb _ = false |- _ => apply negb_false_iff in H
              end.
  all: try congruence.
  all: try rewrite Hsvc.
  all: cbn [m_frameIndex m_haveFrame m_dataOffset set_cursorEvent set_cursorInfo
            set_haveFrame advance_frameIndex rewind_frameIndex set_frameIndex
            read_loc write_loc header frame set_frame frame_dataPos].
  all: rewrite ?R2.
  all: cbn [m_frameIndex m_haveFrame m_dataOffset set_cursorEvent set_cursorInfo
            set_haveFrame advance_frameIndex rewind_frameIndex set_frameIndex].
  all: try (destruct Hpay as [Hpay _]; destruct H3 as [H3 _];
            rewrite <- (H3 FrameDataPos eq_refl), <- (Hpay FrameDataPos eq_refl)).
  all: rewrite ?advance_mod, ?rewind_mod by assumption.
  all: unfold slot_offset.
  all: try (repeat split; try reflexivity; try assumption;
            intros E0; rewrite E0; cbn; lia).
  all: pose proof (proj1 Hpay FrameDataPos eq_refl) as Hp;
       pose proof (proj1 H3 FrameDataPos eq_refl) as Hq; cbn in Hp, Hq.
  all: repeat split;
       [ intros E0; rewrite E0; rewrite <- (rewind_mod 0) by lia; reflexivity
       | congruence | assumption ].
Qed.
End Index.

(** ** Revalidation after a reinitialization *)

Section Revalidation.

Context {W : Type} {P : Platform W}.
Variable K : Headers.

Lemma closed_nil : closed [].
Proof. intros rest. reflexivity. Qed.

Lemma closed_cons (a : Action) (l : list Action) :
  is_reinitialized a = false -> closed l -> closed (a :: l).
Proof.
  intros Ha Hl rest. cbn [app revalidated].
  destruct a as [| | | | | | | | [|] | | |]; try discriminate Ha; apply Hl.
Qed.

Lemma closed_reinitialized (mx : Z) (l : list Action) :
  closed l -> closed (AReInitialize true :: AMaxFrameSize mx :: l).
Proof. intros Hl rest. cbn [app revalidated]. apply Hl. Qed.

Lemma closed_app (l1 l2 : list Action) :
  closed l1 -> closed l2 -> closed (l1 ++ l2).
Proof. intros H1 H2 rest. rewrite <- app_assoc, H1. apply H2. Qed.

Lemma closed_polls (l : list Event) :
  forallb is_poll l = true -> closed (actions l).
Proof.
  induction l as [| e l IH]; [intros _; apply closed_nil |].
  cbn [forallb]. intros H. apply andb_prop in H. destruct H as [He Hl].
  cbn [actions map]. apply closed_cons; [| apply IH, Hl].
  unfold is_poll in He. destruct (action e); try discriminate He; reflexivity.
Qed.

Lemma closed_revalidated (l : list Action) : closed l -> revalidated l = true.
Proof. intros H. specialize (H []). rewrite app_nil_r in H. exact H. Qed.

Lemma polls_no_max (l : list Event) (mx : Z) :
  forallb is_poll l = true -> ~ In (AMaxFrameSize mx) (actions l).
Proof.
  induction l as [| e l IH]; [intros _ []|].
  cbn [forallb]. intros H. apply andb_prop in H. destruct H as [He Hl].
  cbn [actions map In]. intros [E | E]; [| exact (IH Hl E)].
  unfold is_poll in He. rewrite E in He. discriminate He.
Qed.

Ltac closed_log :=
  unfold actions; repeat (progress (cbn [map action]; rewrite ?map_app));
  repeat first
    [ apply closed_nil
    | assumption
    | apply closed_polls; assumption
    | apply closed_reinitialized
    | apply closed_cons; [reflexivity |]
    | apply closed_app ].

Ltac max_cases H :=
  unfold actions in H;
  repeat (progress (cbn [map action] in H; rewrite ?map_app in H));
  repeat (progress (cbn [In] in H; rewrite ?in_app_iff in H));
  repeat match type of H with
         | _ \/ _ => destruct H as [H | H]
         end;
  try discriminate H; try contradiction; try reflexivity;
  try (injection H as H; subst;
       match goal with
       | Hb : (_ >? _) = false |- _ =>
           rewrite Z.gtb_ltb in Hb; apply Z.ltb_ge in Hb; cbn [svc] in *; lia
       end);
  try match goal with
      | Hp : forallb is_poll ?l = true |- _ =>
          exfalso; exact (polls_no_max l _ Hp H)
      end.

Lemma capture_loop_checked (fuel n : nat) (i : Z) (v : Locals) (s : Sys W) :
  wp (capture_loop K fuel n i v) s (loop_checked s).
Proof.
  revert i v s. induction fuel as [| fuel IH]; intros i v s; cbn [capture_loop].
  - wp_go. split; [reflexivity | split; [apply closed_nil | intros mx []]].
  - wp_step; [| wp_go; split; [reflexivity | split; [apply closed_nil | intros mx []]]].
    wp_step. wp_step. wp_step. wp_step. wp_step.
    destruct (fst (capture_Capture (world s)));
      unfold capture_switch, reinitialize_capture.
    all: wp_go.
    all: try (split; [reflexivity | split; [closed_log | intros mx HIn Hgt; max_cases HIn]]; fail).
    all: try (eapply wp_mono; [apply IH |];
              intros e s1 l1 (H1 & H2 & H3); cbn [svc shm] in *;
              split; [exact H1 | split; [closed_log | intros mx HIn Hgt; max_cases HIn]];
              try (apply (H3 mx HIn Hgt)); fail).
Qed.

Lemma Process_checked (fuel : nat) (s : Sys W) :
  wp (Process K fuel) s (fun r _ l => cycle_checked s r l).
Proof.
  unfold Process, service_restart, reinitialize_capture.
  wp_go.
  all: try (split; [closed_log | intros mx HIn Hgt; max_cases HIn]; fail).
  all: eapply wp_mono; [apply capture_loop_checked |].
  all: intros e s1 l1 (H1 & H2 & H3); cbn [svc shm] in *.
  all: unfold after_capture, stage_cursor, publish_frame.
  all: destruct e as [v | b]; wp_go.
  all: cbn [svc shm with_svc with_shm with_world] in *.
  all: try (split; [closed_log | intros mx HIn Hgt; max_cases HIn]; fail).
  all: try (split; [closed_log | intros mx HIn Hgt; max_cases HIn];
            try (rewrite H1 in *); try (discriminate (H3 mx HIn Hgt));
            try (injection (H3 mx HIn Hgt) as ->; reflexivity); fail).
Qed.
End Revalidation.

(** ** Initialize *)

Section Initialization.

Context {W : Type} {P : Platform W}.
Variable K : Headers.

(** A region smaller than the header: [Initialize] returns [false] and has
    not touched the region. *)
Lemma Initialize_small_region (s : Sys W) :
  m_initialized (svc s) = false -> m_cursorThread (svc s) = false ->
  ivshmem_GetSize (snd (ivshmem_Initialize (world s))) < sizeof_KVMFRHeader K ->
  exists s' log,
    Initialize K s = Some (false, s', log) /\
    forallb (fun e => negb (dereferences (action e))) log = true /\
    shm s' = shm s /\ m_shmHeader (svc s') = 0 /\ m_initialized (svc s') = false.
Proof.
  intros Hini Hthr Hsize. apply Z.ltb_lt in Hsize.
  destruct s as [sv sh w]. cbn [svc shm world] in Hini, Hthr, Hsize.
  unfold Initialize, DeInitialize.
  cbv beta iota delta [bind gets modify call ask act emit DEBUG_ERROR ret svc shm world].
  rewrite Hini. cbn -[Z.ltb].
  destruct (fst (ivshmem_Initialize w)); cbn -[Z.ltb].
  - rewrite Hsize. cbn. rewrite Hthr. cbn. eexists; eexists; repeat split.
  - rewrite Hthr. cbn. eexists; eexists; repeat split.
Qed.

(** A backend whose frames may exceed the slot size: [Initialize] returns
    [false]. *)
Lemma Initialize_frames_too_large (s : Sys W) :
  m_initialized (svc s) = false -> m_cursorThread (svc s) = false ->
  capture_GetMaxFrameSize (snd (ivshmem_Initialize (world s)))
  > init_frameSize K (ivshmem_GetMemory (snd (ivshmem_Initialize (world s))))
                     (ivshmem_GetSize (snd (ivshmem_Initialize (world s)))) ->
  exists s' log,
    Initialize K s = Some (false, s', log) /\ m_initialized (svc s') = false.
Proof.
  intros Hini Hthr Hmax. apply Z.gt_lt, Z.ltb_lt in Hmax. rewrite <- Z.gtb_ltb in Hmax.
  destruct s as [sv sh w]. cbn [svc shm world] in Hini, Hthr, Hmax.
  unfold Initialize, DeInitialize, InitPointers.
  cbv beta iota delta [bind gets modify call ask act emit DEBUG_ERROR ret svc shm world].
  rewrite Hini. cbn -[Z.ltb Z.gtb Z.eqb init_frameSize].
  destruct (fst (ivshmem_Initialize w)); cbn -[Z.ltb Z.gtb Z.eqb init_frameSize].
  - destruct (_ <? _); cbn -[Z.ltb Z.gtb Z.eqb init_frameSize].
    + rewrite Hthr. cbn. eexists; eexists; repeat split.
    + destruct (_ =? 0); cbn -[Z.ltb Z.gtb Z.eqb init_frameSize].
      * rewrite Hthr. cbn. eexists; eexists; repeat split.
      * rewrite Hmax. cbn -[init_frameSize]. rewrite Hthr. cbn. eexists; eexists; repeat split.
  - rewrite Hthr. cbn. eexists; eexists; repeat split.
Qed.
End Initialization.

(** ** The cursor channel *)

Section CursorChannel.

Context {W : Type} {P : Platform W}.
Variable K : Headers.
Hypothesis K_ok : Headers_ok K = true.

Ltac bits :=
  destruct (Headers_ok_bits K K_ok) as ((? & ? & ? & ?) & (? & ? & ? & ? & ? & ?) & ?);
  unfold flag_bit; shm_simpl;
  unfold KVMFR_CURSOR_FLAG_POS, KVMFR_CURSOR_FLAG_SHAPE, KVMFR_CURSOR_FLAG_VISIBLE,
         KVMFR_CURSOR_FLAG_UPDATE;
  repeat first [rewrite testbit_raise by lia | rewrite testbit_lower by lia];
  rewrite ?Z.eqb_refl;
  repeat match goal with
         | |- context [?a =? ?b] =>
             replace (a =? b) with false by (symmetry; apply Z.eqb_neq; congruence)
         end;
  cbn [negb andb orb]; rewrite ?orb_false_r, ?orb_true_r, ?andb_true_r; try reflexivity.

Lemma publish_cursor_shape (s : Sys W) :
  hasShape (m_cursorInfo (svc s)) = true ->
  twp (publish_cursor K) s (fun _ s' log => shape_drained K s s' log).
Proof.
  intros Hshape. unfold publish_cursor. twp_run.
  all: cbn [m_cursorInfo set_cursorInfo hasShape clear_hasPos clear_hasShape
            dataSize m_cursorDataSize type w h pitch shape m_cursorOffset x y] in *.
  all: try congruence.
  all: unfold shape_drained;
       cbn [svc shm with_svc with_shm m_cursorInfo set_cursorInfo hasShape hasPos
            clear_hasShape clear_hasPos m_cursorOffset].
  all: split; [reflexivity |].
  all: match goal with
       | H : (dataSize _ >? _) = _ |- _ => rewrite H
       end.
  all: repeat match goal with
              | |- _ /\ _ => split
              | |- forall l, In l shape_fields -> _ =>
                  intros l Hl; cbn [shape_fields In] in Hl;
                  repeat destruct Hl as [<- | Hl]; try contradiction;
                  split; reflexivity
              | |- _ = true -> _ => intros Hpos; try congruence
              | |- _ -> _ -> _ => intros Hlo Hhi; shm_simpl; apply Z.mod_small; lia
              end.
  all: shm_simpl.
  all: try reflexivity.
  all: try (cbn [actions map action In]; tauto).
  all: try (bits; fail).
Qed.

Lemma wait_cursor_free (fuel : nat) (s : Sys W) (Q : bool -> Sys W -> list Event -> Prop) :
  read_loc CursorFlags (shm s) = 0 ->
  Q true s [Build_Event (shm s) (ALoad CursorFlags)] ->
  twp (wait_cursor fuel) s Q.
Proof.
  intros Hfree HQ. destruct fuel; cbn [wait_cursor].
  all: apply twp_bind, twp_load; rewrite Hfree; cbn [Z.eqb].
  all: apply twp_ret; exact HQ.
Qed.

Lemma turn_publishes_both (fuel : nat) (s : Sys W) :
  m_cursorEvent (svc s) = true ->
  read_loc CursorFlags (shm s) = 0 ->
  hasPos (m_cursorInfo (svc s)) = true ->
  hasShape (m_cursorInfo (svc s)) = true ->
  dataSize (m_cursorInfo (svc s)) <= m_cursorDataSize (svc s) ->
  twp (CursorThread_turn K fuel) s (fun r s' log => both_published K s s' r log).
Proof.
  intros Hev Hfree Hpos Hshape Hfit.
  assert (Hfit' : (dataSize (m_cursorInfo (svc s)) >? m_cursorDataSize (svc s)) = false).
  { rewrite Z.gtb_ltb. apply Z.ltb_ge. exact Hfit. }
  unfold CursorThread_turn.
  apply twp_bind, twp_gets. rewrite Hev. cbn [negb].
  apply twp_bind, twp_modify. apply twp_bind.
  apply wait_cursor_free; [exact Hfree |]. cbn [negb].
  apply twp_bind. unfold publish_cursor.
  cbn [with_svc svc shm world].
  twp_run.
  all: cbn [m_cursorInfo set_cursorInfo set_cursorEvent hasShape hasPos clear_hasPos clear_hasShape
            dataSize m_cursorDataSize type w h pitch shape m_cursorOffset x y] in *.
  all: try congruence.
  all: unfold both_published, update_is_last.
  all: cbn [svc shm with_svc with_shm m_cursorInfo set_cursorInfo set_cursorEvent
            hasShape hasPos clear_hasPos clear_hasShape m_cursorEvent app].
  all: repeat match goal with |- _ /\ _ => split end.
  all: try reflexivity.
  all: shm_simpl; try reflexivity.
  all: try (bits; fail).
  all: try (repeat constructor; cbn [before]; bits; rewrite Hfree; apply Z.testbit_0_l).
  all: try (eexists; split; [reflexivity | bits]).
Qed.

(** With the event not signalled the turn is the time-out of the wait: it
    touches nothing. *)
Lemma turn_idle (fuel : nat) (s : Sys W) :
  m_cursorEvent (svc s) = false ->
  CursorThread_turn K fuel s = Some (true, s, []).
Proof.
  intros Hev. unfold CursorThread_turn, bind, gets. rewrite Hev. reflexivity.
Qed.

Lemma stage_both_state (c1 c2 : CursorInfo) (s : Sys W) :
  updated c1 = true -> hasPos c1 = true ->
  updated c2 = true -> hasShape c2 = true ->
  let s1 := stage_both c1 c2 s in
  shm s1 = shm s /\
  m_cursorEvent (svc s1) = true /\
  hasPos (m_cursorInfo (svc s1)) = true /\
  hasShape (m_cursorInfo (svc s1)) = true /\
  dataSize (m_cursorInfo (svc s1)) = dataSize c2 /\
  m_cursorDataSize (svc s1) = m_cursorDataSize (svc s).
Proof.
  intros Hu1 Hp1 Hu2 Hs2. unfold stage_both, stage_cursor, bind, modify, stage.
  rewrite Hu1, Hu2, Hp1, Hs2. cbn.
  destruct (hasShape c1), (hasPos c2); cbn; repeat split; reflexivity.
Qed.

End CursorChannel.

(** ** The frame hand-shake *)

Lemma is_set_bit0 (v : Z) : is_set 1 v = Z.testbit v 0.
Proof.
  unfold is_set. change 1 with (Z.ones 1) at 1. rewrite Z.land_ones by lia.
  change (2 ^ 1) with 2. rewrite <- Z.bit0_mod.
  destruct (Z.testbit v 0); reflexivity.
Qed.

Lemma is_set_raised (v : Z) : is_set 1 (to_uint8 (Z.lor v 1)) = true.
Proof.
  rewrite is_set_bit0. change 1 with (Z.shiftl 1 0).
  rewrite testbit_raise by lia. apply orb_true_r.
Qed.

Section Handshake.

Context {W : Type} {P : Platform W}.
Variable K : Headers.

Lemma wait_frame_restart (fuel : nat) (s : Sys W) (Q : unit -> Sys W -> list Event -> Prop) :
  blocked (shm s) -> fst (consumer (world s)) = CRestart ->
  (forall l,
     stores_to FrameFlags l = false ->
     (forall f, In f payload_fields -> stores_to f l = false) ->
     Q tt (Build_Sys (svc s) (consumer_apply CRestart (shm s)) (snd (consumer (world s)))) l) ->
  twp (wait_frame (S fuel)) s Q.
Proof.
  intros [Hup Hre] Hact HQ. unfold is_set in Hup, Hre.
  apply negb_true_iff in Hup. apply negb_false_iff in Hre.
  cbn [wait_frame].
  apply twp_bind, twp_load. rewrite Hup.
  apply twp_bind, twp_load. rewrite Hre. cbn [negb].
  apply twp_bind, twp_consumer_turn. rewrite Hact.
  destruct fuel; cbn [wait_frame].
  all: apply twp_bind, twp_load; cbn [shm consumer_apply]; shm_simpl; rewrite Hup.
  all: apply twp_bind, twp_load; cbn [shm consumer_apply]; shm_simpl.
  all: pose proof (is_set_raised (read_loc HeaderFlags (shm s))) as Hraised;
       unfold is_set in Hraised; apply negb_true_iff in Hraised;
       unfold KVMFR_HEADER_FLAG_RESTART at 1 2; rewrite Hraised; cbn [negb].
  all: apply twp_ret; apply HQ; [reflexivity |].
  all: intros f Hf; cbn [payload_fields In] in Hf;
       repeat destruct Hf as [<- | Hf]; try contradiction; reflexivity.
Qed.

Ltac stores_payload :=
  repeat (rewrite ?stores_to_cons, ?stores_to_app; cbn [action Loc_eqb orb]);
  repeat match goal with
         | H : stores_to _ _ = _ |- _ => rewrite H
         | H : forall f, In f payload_fields -> stores_to f ?l = false |- context [stores_to ?g ?l] =>
             rewrite (H g) by (cbn [payload_fields In]; tauto)
         end;
  cbn [orb]; rewrite ?orb_true_r; try reflexivity.

Lemma publish_despite_restart (fuel : nat) (rep : bool) (s : Sys W) :
  blocked (shm s) ->
  (rep = false -> fst (frame_got s) = GRAB_STATUS_OK) ->
  fst (consumer (world_at_wait rep s)) = CRestart ->
  twp (publish_frame K (S fuel) rep) s
      (fun r s' log => r = None /\ published_despite_restart rep s s' log).
Proof.
  intros Hblocked Hgot Hact. pose proof Hblocked as [Hup Hre].
  unfold publish_frame, world_at_wait, frame_got, next_buffer in *.
  destruct rep; cbn [negb].
  - apply twp_bind, twp_bind. apply wait_frame_restart; [assumption | assumption |].
    intros l Hl1 Hl2. twp_run. cbn [consumer_apply]. shm_simpl.
    split; [reflexivity |]. unfold published_despite_restart. cbn [svc shm consumer_apply]. shm_simpl.
    split; [apply is_set_raised |].
    split; [apply is_set_raised |].
    split; [stores_payload | intros E; discriminate E].
  - specialize (Hgot eq_refl).
    destruct (fst (capture_GetFrame
                     (nth (Z.to_nat (m_frameIndex (svc s))) (m_frame (svc s)) 0)
                     (m_frameSize (svc s)) (world s))) as [result got] eqn:Egot.
    cbn [fst] in Hgot. subst result.
    apply twp_bind. twp_step. twp_step. twp_step. twp_step. twp_step. twp_step.
    twp_step. twp_step. twp_step. rewrite Egot. cbn [GrabStatus_eqb negb].
    apply twp_bind. apply wait_frame_restart; [assumption | assumption |].
    intros l Hl1 Hl2. twp_run. cbn [consumer_apply]. shm_simpl.
    split; [reflexivity |]. unfold published_despite_restart, frame_got, next_buffer.
    cbn [svc shm world consumer_apply]. shm_simpl. rewrite Egot. cbn [fst snd].
    split; [apply is_set_raised |].
    split; [apply is_set_raised |].
    split; [stores_payload |]. intros _.
    split; [| repeat split; reflexivity].
    intros f Hf; cbn [payload_fields In] in Hf;
      repeat destruct Hf as [<- | Hf]; try contradiction; stores_payload.
Qed.
End Handshake.

(** ** The end of a cycle, and the stores to the frame descriptor *)

Lemma released_at_polls (log : list Event) :
  forallb is_poll log = true -> forallb store_released log = true.
Proof.
  induction log as [| e log IH]; [reflexivity |]. cbn [forallb]. intros H.
  apply andb_prop in H. destruct H as [He Hl].
  rewrite (IH Hl). unfold store_released.
  unfold is_poll in He. destruct (action e); try discriminate He; reflexivity.
Qed.

Ltac released :=
  unfold released_at_stores in *;
  repeat (rewrite ?forallb_app; cbn [forallb]);
  repeat match goal with
         | H : forallb is_poll ?l = true |- _ =>
             rewrite (released_at_polls l H)
         | H : forallb store_released _ = true |- _ => rewrite H
         end;
  unfold store_released, frame_released in *;
  cbn [action before frame_field negb orb andb]; shm_simpl;
  repeat match goal with
         | H : _ || _ = true |- _ => rewrite H
         end;
  try reflexivity.

Lemma last_event_app (l1 l2 : list Event) :
  last_event (l1 ++ l2)
  = match last_event l2 with Some e => Some e | None => last_event l1 end.
Proof.
  induction l1 as [| e l1 IH]; cbn [app last_event].
  - destruct (last_event l2); reflexivity.
  - rewrite IH. destruct (last_event l2), (last_event l1); reflexivity.
Qed.

Ltac last_action :=
  repeat (cbn [last_event]; rewrite ?last_event_app).

Lemma land_bit0 (x : Z) : to_uint8 (Z.land x 1) = Z.land x 1.
Proof.
  unfold to_uint8. apply Z.mod_small.
  change 1 with (Z.ones 1). rewrite Z.land_ones by lia.
  pose proof (Z.mod_pos_bound x (2 ^ 1) ltac:(lia)). lia.
Qed.

Section Cycle.

Context {W : Type} {P : Platform W}.
Variable K : Headers.

Lemma capture_loop_released (fuel n : nat) (i : Z) (v : Locals) (s : Sys W) :
  wp (capture_loop K fuel n i v) s (fun _ _ log => released_at_stores log = true).
Proof.
  revert i v s. induction fuel as [| fuel IH]; intros i v s; cbn [capture_loop].
  - wp_go. reflexivity.
  - wp_step; [| wp_go; reflexivity].
    wp_step. wp_step. wp_step. wp_step. wp_step.
    destruct (fst (capture_Capture (world s)));
      unfold capture_switch, reinitialize_capture.
    all: wp_go.
    all: try (released; fail).
    all: try (eapply wp_mono; [apply IH |]; cbn beta; intros ? ? ? Hl; released).
Qed.

Lemma Process_released (fuel : nat) (s : Sys W) :
  wp (Process K fuel) s (fun _ _ log => released_at_stores log = true).
Proof.
  unfold Process, service_restart, reinitialize_capture.
  wp_go.
  all: try (released; fail).
  all: eapply wp_mono; [apply capture_loop_released |].
  all: intros e s1 l1 He; cbn [svc shm] in *.
  all: unfold after_capture, stage_cursor, publish_frame.
  all: destruct e as [v | b]; wp_go.
  all: released.
Qed.

(** The loop is left by [return] with [false] only. *)
Lemma capture_loop_exit (fuel n : nat) (i : Z) (v : Locals) (s : Sys W) :
  wp (capture_loop K fuel n i v) s (fun e _ _ => forall b, e = LoopReturn b -> b = false).
Proof.
  revert i v s. induction fuel as [| fuel IH]; intros i v s; cbn [capture_loop].
  - wp_go. congruence.
  - wp_step; [| wp_go; congruence].
    wp_step. wp_step. wp_step. wp_step. wp_step.
    destruct (fst (capture_Capture (world s)));
      unfold capture_switch, reinitialize_capture.
    all: wp_go.
    all: try congruence.
    all: try (eapply wp_mono; [apply IH |]; cbn beta; intros; eauto).
Qed.

Lemma Process_success_end (fuel : nat) (s : Sys W) :
  wp (Process K fuel) s success_end.
Proof.
  unfold Process, service_restart, reinitialize_capture.
  wp_go.
  all: try (intros E; discriminate E).
  all: eapply wp_mono; [apply capture_loop_exit |].
  all: intros e s1 l1 He; cbn [svc shm] in *.
  all: unfold after_capture, stage_cursor, publish_frame.
  all: destruct e as [v | b]; wp_go.
  all: try (intros E; discriminate E).
  all: try (intros E; specialize (He _ eq_refl); congruence).
  all: intros _.
  all: try (left; eexists; split; [last_action; reflexivity |];
            cbn [shm with_shm with_svc]; shm_simpl; apply land_bit0).
  all: right; do 3 eexists; last_action; reflexivity.
Qed.

Lemma distinct_values_neq (a b : GrabStatus) :
  distinct_values K = true -> a <> b -> GrabStatus_value K a <> GrabStatus_value K b.
Proof.
  intros Hd Hab E. unfold distinct_values in Hd.
  rewrite forallb_forall in Hd.
  assert (Hall : forall st, In st all_statuses) by (intros []; cbn; tauto).
  specialize (Hd a (Hall a)). rewrite forallb_forall in Hd.
  specialize (Hd b (Hall b)). rewrite E, Z.eqb_refl, orb_false_r in Hd.
  destruct a, b; try discriminate Hd; apply Hab; reflexivity.
Qed.

Lemma failed_status_true :
  Headers_ok K = true ->
  exists st, st <> GRAB_STATUS_OK /\ GrabStatus_to_bool K st = true.
Proof.
  intros Hok. unfold Headers_ok in Hok.
  apply andb_prop in Hok. destruct Hok as [_ Hd].
  pose proof (distinct_values_neq GRAB_STATUS_ERROR GRAB_STATUS_TIMEOUT Hd
                ltac:(discriminate)) as Hne.
  unfold GrabStatus_to_bool.
  destruct (Z.eqb_spec (GrabStatus_value K GRAB_STATUS_ERROR) 0) as [E1 | E1].
  - exists GRAB_STATUS_TIMEOUT. split; [discriminate |].
    apply negb_true_iff, Z.eqb_neq. congruence.
  - exists GRAB_STATUS_ERROR. split; [discriminate |].
    apply negb_true_iff, Z.eqb_neq. exact E1.
Qed.
End Cycle.

(** ** Initialize and DeInitialize *)

Section Initialized.

Context {W : Type} {P : Platform W}.
Variable K : Headers.

Lemma Initialize_outcome (s : Sys W) :
  m_initialized (svc s) = false -> m_cursorThread (svc s) = false ->
  twp (Initialize K) s
    (fun r s' log =>
       r = Initialize_accepts K (world s) /\
       if r then Initialize_done K s s' else Initialize_failed K s s' log).
Proof.
  intros Hini Hthr. unfold Initialize, DeInitialize, InitPointers, Initialize_accepts.
  twp_run.
  all: cbn [m_cursorThread m_capture m_initialized begin_initialize set_memory
            m_frameSize m_memory andb] in *.
  all: try congruence.
  all: try (rewrite Hthr in *; discriminate).
  all: repeat match goal with H : _ = _ |- _ => rewrite H end.
  all: cbn [negb andb].
  all: (split; [reflexivity |]).
  all: unfold Initialize_failed, Initialize_done, holds_nothing; cbn; auto 30.
Qed.

End Initialized.

(** ** Bulk data and the members of the service *)

Lemma no_data_polls (log : list Event) :
  forallb is_poll log = true -> forallb no_data log = true.
Proof.
  induction log as [| e log IH]; [reflexivity |]. cbn [forallb]. intros H.
  apply andb_prop in H. destruct H as [He Hl].
  rewrite (IH Hl). unfold no_data.
  unfold is_poll in He. destruct (action e); try discriminate He; reflexivity.
Qed.

Lemma no_data_slot (sv : Service) (log : list Event) :
  forallb no_data log = true -> forallb (slot_handed sv) log = true.
Proof.
  induction log as [| e log IH]; [reflexivity |]. cbn [forallb]. intros H.
  apply andb_prop in H. destruct H as [He Hl].
  rewrite (IH Hl). unfold no_data in He. unfold slot_handed.
  destruct (action e); try discriminate He; reflexivity.
Qed.

Lemma slot_polls (sv : Service) (log : list Event) :
  forallb is_poll log = true -> forallb (slot_handed sv) log = true.
Proof. intros H. apply no_data_slot, no_data_polls, H. Qed.

Lemma bounded_polls (sv : Service) (log : list Event) :
  forallb is_poll log = true -> forallb (cursor_bounded sv) log = true.
Proof.
  induction log as [| e log IH]; [reflexivity |]. cbn [forallb]. intros H.
  apply andb_prop in H. destruct H as [He Hl].
  rewrite (IH Hl). unfold cursor_bounded.
  unfold is_poll in He. destruct (action e); try discriminate He; reflexivity.
Qed.

Ltac quiet :=
  repeat (rewrite ?forallb_app; cbn [forallb]);
  repeat match goal with
         | H : forallb is_poll ?l = true |- _ =>
             rewrite (no_data_polls l H)
         | H : forallb no_data _ = true |- _ => rewrite H
         end;
  cbn [no_data action andb]; try reflexivity.

Ltac slots :=
  repeat (rewrite ?forallb_app; cbn [forallb]);
  repeat match goal with
         | H : forallb is_poll ?l = true |- context [forallb (slot_handed ?sv) ?l] =>
             rewrite (slot_polls sv l H)
         | H : forallb (slot_handed _) _ = true |- _ => rewrite H
         end;
  unfold slot_handed, next_buffer;
  cbn [action andb m_frameIndex m_frame m_frameSize set_cursorEvent set_cursorInfo];
  rewrite ?Z.eqb_refl; cbn [andb]; try reflexivity.

Section Members.

Context {W : Type} {P : Platform W}.
Variable K : Headers.

Lemma capture_loop_quiet (fuel n : nat) (i : Z) (v : Locals) (s : Sys W) :
  wp (capture_loop K fuel n i v) s (loop_quiet K v s).
Proof.
  revert i v s. induction fuel as [| fuel IH]; intros i v s; cbn [capture_loop].
  - wp_go. split; [reflexivity |]. left. split; [reflexivity |]. congruence.
  - wp_step; [| wp_go; split; [reflexivity |]; left; split; [reflexivity |]; congruence].
    wp_step. wp_step. wp_step. wp_step. wp_step.
    destruct (fst (capture_Capture (world s)));
      unfold capture_switch, reinitialize_capture.
    all: wp_go.
    all: try (split; [quiet |]; left; split; [reflexivity |];
              intros v' E; inversion E; reflexivity).
    all: try (split; [quiet |]; right; split; [reflexivity |];
              eexists; split; reflexivity).
    all: try (eapply wp_mono; [apply IH |];
              intros e s1 l1 (H1 & H2); cbn [svc shm] in *;
              split; [quiet | exact H2]).
Qed.

Lemma Process_slot (fuel : nat) (s : Sys W) :
  0 < MAX_FRAMES K ->
  wp (Process K fuel) s
     (fun _ s' log =>
        fixed_members (svc s') = fixed_members (svc s) /\
        forallb (slot_handed (svc s)) log = true /\
        (0 <= m_frameIndex (svc s) < MAX_FRAMES K ->
         0 <= m_frameIndex (svc s') < MAX_FRAMES K)).
Proof.
  intros Hn.
  unfold Process, service_restart, reinitialize_capture.
  wp_go.
  all: try (split; [reflexivity | split; [reflexivity | auto]]; fail).
  all: eapply wp_mono; [apply capture_loop_quiet |].
  all: intros e s1 l1 (Hq & Hs); cbn [svc shm] in *.
  all: pose proof (no_data_slot (svc s) l1 Hq) as Hq1.
  all: unfold after_capture, stage_cursor, publish_frame.
  all: destruct e as [v | b]; wp_go.
  all: destruct Hs as [[Hs Hrep] | [Hs (v' & Ev & Hrep)]];
       [ try (specialize (Hrep _ eq_refl); cbn [repeat no_locals] in Hrep)
       | try (inversion Ev; subst v') ].
  all: try congruence.
  all: cbn [svc shm world with_svc with_shm with_world] in *.
  all: try rewrite Hsvc.
  all: rewrite Hs.
  all: (split; [reflexivity |]).
  all: (split; [slots |]).
  all: cbn [m_frameIndex set_cursorEvent set_cursorInfo set_haveFrame
            advance_frameIndex rewind_frameIndex set_frameIndex]; auto.
  all: intros Hi.
  all: try (destruct (Z.eqb_spec (m_frameIndex (svc s) + 1) (MAX_FRAMES K)); lia).
  all: try (destruct (Z.ltb_spec (m_frameIndex (svc s) - 1) 0); lia).
Qed.

Lemma wp_wait_cursor (fuel : nat) (s : Sys W) (Q : bool -> Sys W -> list Event -> Prop) :
  (forall r s' l, svc s' = svc s -> forallb is_poll l = true ->
                  (r = true -> read_loc CursorFlags (shm s') = 0) ->
                  (r = false -> m_capture (svc s) = false) ->
                  Q r s' l) ->
  wp (wait_cursor fuel) s Q.
Proof.
  revert s Q. induction fuel as [| fuel IH]; intros s Q HQ; cbn [wait_cursor].
  - wp_run. apply HQ; auto; try discriminate. intros _. apply Z.eqb_eq. assumption.
  - wp_run.
    all: try (apply HQ; auto; try discriminate; intros _; apply Z.eqb_eq; assumption).
    apply IH. cbn [svc shm]. intros r s' l Hsvc Hpoll Hfree Hcap.
    apply HQ; auto.
    intros E. specialize (Hcap E). congruence.
Qed.

Lemma CursorThread_turn_bounded (fuel : nat) (s : Sys W) :
  wp (CursorThread_turn K fuel) s
     (fun _ s' log =>
        fixed_members (svc s') = fixed_members (svc s) /\
        m_frameIndex (svc s') = m_frameIndex (svc s) /\
        m_haveFrame (svc s') = m_haveFrame (svc s) /\
        forallb (cursor_bounded (svc s)) log = true).
Proof.
  unfold CursorThread_turn.
  wp_step. wp_step. wp_step; [| wp_run; auto].
  wp_step. wp_step. wp_step.
  apply wp_wait_cursor. cbn [svc shm with_svc].
  intros r s' l Hsvc Hpoll Hfree Hcap.
  unfold publish_cursor. wp_run.
  all: cbn [svc shm world with_svc with_shm with_world] in *.
  all: rewrite Hsvc.
  all: (split; [reflexivity |]); (split; [reflexivity |]); (split; [reflexivity |]).
  all: repeat (rewrite ?forallb_app; cbn [forallb]).
  all: rewrite (bounded_polls _ l Hpoll).
  all: unfold cursor_bounded; cbn [action andb]; try reflexivity.
  all: cbn [m_cursorInfo set_cursorInfo set_cursorEvent clear_hasPos clear_hasShape
            dataSize m_cursorDataSize] in *.
  all: rewrite ?andb_true_r; apply Z.leb_le.
  all: match goal with
       | H : (_ >? _) = false |- _ => rewrite Z.gtb_ltb in H; apply Z.ltb_ge in H
       end.
  all: rewrite Hsvc in *.
  all: cbn [m_cursorInfo set_cursorInfo set_cursorEvent clear_hasPos clear_hasShape
            dataSize m_cursorDataSize] in *; assumption.
Qed.

Lemma fixed_inv (a b : Service) :
  fixed_members b = fixed_members a ->
  (0 <= m_frameIndex a < MAX_FRAMES K -> 0 <= m_frameIndex b < MAX_FRAMES K) ->
  Service_inv K a -> Service_inv K b.
Proof.
  unfold fixed_members, Service_inv. destruct a, b. cbn. intros E Hi [Ha Hb].
  injection E as -> -> -> -> -> -> -> -> -> -> -> -> ->.
  split; [auto | exact Hb].
Qed.

Lemma perform_inv (Hn : 0 < MAX_FRAMES K) (fuel : nat) (c : Call) (s : Sys W) :
  Service_inv K (svc s) ->
  wp (perform K fuel c) s (fun _ s' _ => Service_inv K (svc s')).
Proof.
  intros Hinv. destruct c; cbn [perform].
  - destruct (m_initialized (svc s)) eqn:Eini.
    + destruct Hinv as [_ Hinv]. rewrite Eini in Hinv.
      destruct Hinv as (Hcap & Hthr & _).
      unfold wp, bind, Initialize at 1, bind, gets, DeInitialize at 1, bind, gets.
      rewrite Eini, Hthr, Hcap. exact I.
    + pose proof Hinv as [Hi Hu]. rewrite Eini in Hu.
      destruct Hu as (Hcap & Hthr & _).
      apply wp_bind.
      pose proof (Initialize_outcome K s Eini Hthr) as Ht.
      unfold twp in Ht. unfold wp.
      destruct (Initialize K s) as [[[r s'] log] |]; [| exact I].
      destruct Ht as [Hacc Ht]. apply wp_ret.
      destruct r.
      * unfold Initialize_done in Ht. cbn zeta in Ht.
        destruct Ht as (_ & _ & _ & _ & _ & _ & _ & H1 & H2 & H3 & _ & _ & H4 & H5 & H6
                        & H7 & H8 & H9 & H10 & H11 & H12).
        unfold Service_inv. rewrite H1, H4. split; [exact Hi |].
        rewrite H5 in *. repeat split; try assumption.
        -- symmetry in Hacc. unfold Initialize_accepts in Hacc.
           repeat (apply andb_prop in Hacc; destruct Hacc as [Hacc ?]).
           match goal with
           | H : negb (_ =? 0) = true |- _ => apply negb_true_iff, Z.eqb_neq in H; exact H
           end.
        -- eexists. repeat split; eassumption.
      * destruct Ht as (_ & _ & Hr & Hidx & Hthr').
        unfold holds_nothing in Hr. unfold Service_inv.
        destruct Hr as (-> & ? & ? & ? & ? & ? & ? & ? & ? & ? & ?).
        rewrite Hidx. repeat split; try assumption; apply Hi.
  - destruct Hinv as [Hi Hinv]. unfold wp, DeInitialize, bind, gets.
    destruct (m_initialized (svc s)).
    + destruct Hinv as (Hcap & Hthr & _). rewrite Hthr, Hcap. exact I.
    + destruct Hinv as (Hcap & Hthr & _). rewrite Hthr, Hcap.
      cbn. unfold Service_inv. cbn. repeat split; try reflexivity; apply Hi.
  - apply wp_bind. eapply wp_mono; [apply (Process_slot fuel s Hn) |].
    intros r s' log (Hf & _ & Hi). apply wp_ret. eapply fixed_inv; eauto.
  - wp_run; [| exact Hinv].
    eapply wp_mono; [apply CursorThread_turn_bounded |].
    intros r s' log (Hf & Hi & _). apply wp_ret.
    eapply fixed_inv; eauto. rewrite Hi. auto.
Qed.

Lemma perform_all_inv (Hn : 0 < MAX_FRAMES K) (fuel : nat) (cs : list Call) (s : Sys W) :
  Service_inv K (svc s) ->
  wp (perform_all K fuel cs) s (fun _ s' _ => Service_inv K (svc s')).
Proof.
  revert s. induction cs as [| c cs IH]; intros s Hinv; cbn [perform_all].
  - apply wp_ret. exact Hinv.
  - apply wp_bind. eapply wp_mono; [apply (perform_inv Hn), Hinv |].
    cbn beta. intros _ s1 l1 H1. eapply wp_mono; [apply IH, H1 |].
    cbn beta. auto.
Qed.

Lemma constructed_inv (Hn : 0 < MAX_FRAMES K) (fuel : nat) (cs : list Call) (s : Sys W) :
  wp (Service_Service ;; perform_all K fuel cs) s (fun _ s' _ => Service_inv K (svc s')).
Proof.
  unfold Service_Service. wp_run.
  eapply wp_mono; [apply (perform_all_inv Hn) |].
  - unfold Service_inv. cbn. repeat split; try reflexivity; lia.
  - cbn beta. auto.
Qed.

End Members.

Section Safety.

Context {W : Type} {P : Platform W}.
Variable K : Headers.
Variables base size : Z.
Hypothesis K_ok : Headers_ok K = true.
Hypothesis base_nonneg : 0 <= base.
Hypothesis base_aligned : base mod 128 = 0.
Hypothesis region_addressable : base + size < 2 ^ 64.
Hypothesis room_for_ring : ring_offset K <= size.

Lemma layout_frame (i : Z) :
  0 <= i < MAX_FRAMES K ->
  init_frame K base size i = base + ring_offset K + i * slot_size K size.
Proof.
  intros Hi.
  destruct (layout_slot_room K size K_ok room_for_ring i Hi) as [R1 R2].
  destruct (rounded_header_bounds K K_ok) as (H1 & H2 & H3).
  destruct (slot_size_bounds K size K_ok room_for_ring) as (F1 & _).
  unfold init_frame.
  rewrite (layout_frames K base size), (layout_frameSize K base size) by assumption.
  assert (0 <= ring_offset K) by (unfold ring_offset; lia).
  unfold to_uintptr. rewrite (Z.mod_small (i * slot_size K size)) by lia.
  apply Z.mod_small. lia.
Qed.

Lemma mapped_fixed (a b : Service) :
  fixed_members b = fixed_members a ->
  (0 <= m_frameIndex a < MAX_FRAMES K -> 0 <= m_frameIndex b < MAX_FRAMES K) ->
  mapped K base size a -> mapped K base size b.
Proof.
  unfold fixed_members, mapped. destruct a, b. cbn. intros E Hi Ha.
  injection E as -> -> -> -> -> -> -> -> -> -> -> -> ->.
  intuition auto.
Qed.

Lemma slot_within (sv : Service) (log : list Event) :
  mapped K base size sv ->
  forallb (slot_handed sv) log = true ->
  Forall (fun e => data_within K base size (action e)) log.
Proof.
  intros (_ & _ & _ & _ & _ & Hfs & Hfr & Hi) Hlog.
  rewrite forallb_forall in Hlog. apply Forall_forall. intros e He.
  specialize (Hlog e He). unfold slot_handed in Hlog. unfold data_within.
  destruct (action e); try exact I; try discriminate Hlog.
  apply andb_prop in Hlog. destruct Hlog as [Hb Hsz].
  apply Z.eqb_eq in Hb, Hsz. unfold next_buffer in Hb. rewrite Hfr in Hb by exact Hi.
  subst. split; [exact Hfs |]. exists (m_frameIndex sv).
  split; [exact Hi |]. split; [reflexivity |].
  destruct (layout_slot_room K size K_ok room_for_ring _ Hi). lia.
Qed.

Lemma bounded_within (sv : Service) (log : list Event) :
  mapped K base size sv ->
  forallb (cursor_bounded sv) log = true ->
  Forall (fun e => data_within K base size (action e)) log.
Proof.
  intros (_ & _ & _ & Hcap & _) Hlog.
  rewrite forallb_forall in Hlog. apply Forall_forall. intros e He.
  specialize (Hlog e He). unfold cursor_bounded in Hlog. unfold data_within.
  destruct (action e); try exact I; try discriminate Hlog.
  apply Z.leb_le in Hlog. lia.
Qed.

Lemma perform_within (fuel : nat) (c : Call) (s : Sys W) :
  mapped K base size (svc s) ->
  wp (perform K fuel c) s
     (fun _ s' log =>
        mapped K base size (svc s') /\
        Forall (fun e => data_within K base size (action e)) log).
Proof.
  intros Hm. pose proof Hm as (Hini & Hcap & Hthr & _).
  destruct (Headers_ok_frames K K_ok) as [Hn _].
  destruct c; cbn [perform].
  - unfold wp, bind, Initialize at 1, bind, gets, DeInitialize at 1, bind, gets.
    rewrite Hini, Hthr, Hcap. exact I.
  - unfold wp, DeInitialize, bind, gets. rewrite Hthr, Hcap. exact I.
  - apply wp_bind. eapply wp_mono; [apply (Process_slot K fuel s Hn) |].
    intros r s' log (Hf & Hl & Hi). apply wp_ret. rewrite app_nil_r.
    split; [eapply mapped_fixed; eauto | eapply slot_within; eauto].
  - wp_run; [| split; [exact Hm | constructor]].
    eapply wp_mono; [apply CursorThread_turn_bounded |].
    intros r s' log (Hf & Hi & _ & Hl). apply wp_ret. rewrite app_nil_r.
    split; [eapply mapped_fixed; eauto; rewrite Hi; auto
           | eapply bounded_within; eauto].
Qed.

Lemma perform_all_within (fuel : nat) (cs : list Call) (s : Sys W) :
  mapped K base size (svc s) ->
  wp (perform_all K fuel cs) s
     (fun _ s' log =>
        mapped K base size (svc s') /\
        Forall (fun e => data_within K base size (action e)) log).
Proof.
  revert s. induction cs as [| c cs IH]; intros s Hm; cbn [perform_all].
  - apply wp_ret. split; [exact Hm | constructor].
  - apply wp_bind. eapply wp_mono; [apply perform_within, Hm |].
    cbn beta. intros _ s1 l1 [H1 F1]. eapply wp_mono; [apply IH, H1 |].
    cbn beta. intros _ s2 l2 [H2 F2]. split; [exact H2 |].
    apply Forall_app. split; assumption.
Qed.

Lemma Initialize_mapped (s s' : Sys W) (log : list Event) :
  m_initialized (svc s) = false -> m_cursorThread (svc s) = false ->
  ivshmem_GetMemory (snd (ivshmem_Initialize (world s))) = base ->
  ivshmem_GetSize (snd (ivshmem_Initialize (world s))) = size ->
  0 <= m_frameIndex (svc s) < MAX_FRAMES K ->
  Initialize K s = Some (true, s', log) ->
  mapped K base size (svc s').
Proof.
  intros Hini Hthr Hmem Hsize Hi Hrun.
  destruct (twp_elim _ _ _ (Initialize_outcome K s Hini Hthr))
    as (r & s1 & l1 & Hrun1 & _ & Hpost).
  rewrite Hrun in Hrun1. inversion Hrun1; subst r s1 l1. clear Hrun1.
  unfold Initialize_done in Hpost. cbn zeta in Hpost. rewrite Hmem, Hsize in Hpost.
  destruct Hpost as (_ & _ & _ & _ & _ & _ & _ & H1 & H2 & H3 & _ & _ & H4 & H5 & H6
                     & H7 & H8 & H9 & H10 & H11 & H12).
  unfold mapped. rewrite H4, H7, H8, H10, H11.
  repeat split; try assumption; try apply Hi.
  - apply (layout_cursorData K base size); assumption.
  - apply layout_frameSize; assumption.
  - intros i Hi'. rewrite nth_frame_indices by exact Hi'. apply layout_frame, Hi'.
Qed.

End Safety.

Section SmallRegion.

Context {W : Type} {P : Platform W}.
Variable K : Headers.
Variables base size : Z.
Hypothesis K_ok : Headers_ok K = true.
Hypothesis base_pos : 0 < base.
Hypothesis base_aligned : base mod 128 = 0.
Hypothesis ring_addressable : base + ring_offset K < 2 ^ 64.

Lemma ring_start : init_dataOffset K base size 0 = ring_offset K.
Proof.
  destruct (rounded_header_bounds K K_ok) as (H1 & H2 & H3).
  assert (Hf : 0 <= ring_offset K) by (unfold ring_offset; lia).
  unfold init_dataOffset, init_frame.
  rewrite (layout_frames K base (ring_offset K)) by (assumption || lia).
  rewrite Z.mul_0_l. unfold to_uintptr.
  rewrite (Z.mod_small 0) by lia. rewrite Z.add_0_r.
  rewrite (Z.mod_small (base + ring_offset K)) by lia.
  replace (base + ring_offset K - base) with (ring_offset K) by lia.
  apply Z.mod_small. lia.
Qed.

Lemma Initialize_without_ring (s : Sys W) :
  m_initialized (svc s) = false -> m_cursorThread (svc s) = false ->
  fst (ivshmem_Initialize (world s)) = true ->
  ivshmem_GetMemory (snd (ivshmem_Initialize (world s))) = base ->
  ivshmem_GetSize (snd (ivshmem_Initialize (world s))) = size ->
  sizeof_KVMFRHeader K <= size < ring_offset K ->
  capture_GetMaxFrameSize (snd (ivshmem_Initialize (world s)))
  <= init_frameSize K base size ->
  exists s' log,
    Initialize K s = Some (true, s', log) /\
    m_initialized (svc s') = true /\
    slot_offset (svc s') 0 = ring_offset K /\
    size < slot_offset (svc s') 0.
Proof.
  intros Hini Hthr Hopen Hmem Hsize Hrange Hmax.
  destruct (Headers_ok_frames K K_ok) as [Hn _].
  destruct (twp_elim _ _ _ (Initialize_outcome K s Hini Hthr))
    as (r & s' & log & Hrun & Hacc & Hpost).
  assert (Hr : Initialize_accepts K (world s) = true).
  { unfold Initialize_accepts. rewrite Hopen, Hmem, Hsize. cbn [andb].
    replace (size <? sizeof_KVMFRHeader K) with false by (symmetry; apply Z.ltb_ge; lia).
    replace (base =? 0) with false by (symmetry; apply Z.eqb_neq; lia).
    rewrite Z.gtb_ltb.
    replace (_ <? _) with false by (symmetry; apply Z.ltb_ge; lia).
    reflexivity. }
  rewrite Hr in Hacc. subst r. exists s', log. split; [exact Hrun |].
  unfold Initialize_done in Hpost. cbn zeta in Hpost. rewrite Hmem, Hsize in Hpost.
  destruct Hpost as (_ & _ & _ & _ & _ & _ & _ & H1 & _ & _ & _ & _ & _ & _ & _
                     & _ & _ & _ & _ & _ & H12).
  split; [exact H1 |].
  assert (Hoff : slot_offset (svc s') 0 = ring_offset K).
  { unfold slot_offset. rewrite H12.
    rewrite (nth_frame_indices K (init_dataOffset K base size) 0) by lia.
    apply ring_start. }
  rewrite Hoff. split; [reflexivity | lia].
Qed.

End SmallRegion.

(** ** The cycles of Process *)

Lemma cursor_write_other (l : Loc) (v : Z) (m : Shm) :
  cursor_field l = false -> cursor (header (write_loc l v m)) = cursor (header m).
Proof.
  destruct m as [[mg ve fl fr c] d]. destruct c.
  destruct l; intros E; try discriminate E; reflexivity.
Qed.

Lemma only_flags_refl (m : Shm) : only_flags_changed m m.
Proof. split; auto. Qed.

Lemma only_flags_trans (a b c : Shm) :
  only_flags_changed b c -> only_flags_changed a b -> only_flags_changed a c.
Proof.
  intros [H1 H2] [H3 H4]. split; [| congruence].
  intros l Hl. rewrite H1, H3 by exact Hl. reflexivity.
Qed.

Lemma only_flags_write (v : Z) (m m' : Shm) :
  only_flags_changed m m' -> only_flags_changed m (write_loc HeaderFlags v m').
Proof.
  intros [H1 H2]. split; [| exact H2].
  intros l Hl. rewrite read_write_other; [apply H1, Hl |].
  destruct l; try discriminate Hl; reflexivity.
Qed.

Lemma last_capture_app (l1 l2 : list Event) :
  last_capture (l1 ++ l2)
  = match last_capture l2 with Some st => Some st | None => last_capture l1 end.
Proof.
  induction l1 as [| e l1 IH]; cbn [app last_capture].
  - destruct (last_capture l2); reflexivity.
  - rewrite IH. destruct (last_capture l2), (last_capture l1); reflexivity.
Qed.

Lemma is_set_bit1 (v : Z) : is_set 2 v = Z.testbit v 1.
Proof.
  unfold is_set. change 2 with (Z.shiftl 1 1).
  destruct (Z.testbit v 1) eqn:E.
  - apply negb_true_iff, Z.eqb_neq. intros H.
    assert (Hb : Z.testbit (Z.land v (Z.shiftl 1 1)) 1 = false) by (rewrite H; apply Z.testbit_0_l).
    rewrite Z.land_spec, E in Hb. discriminate Hb.
  - apply negb_false_iff, Z.eqb_eq. apply Z.bits_inj'. intros n Hn.
    rewrite Z.land_spec, Z.testbit_0_l, testbit_flag by lia.
    destruct (Z.eqb_spec 1 n) as [<- | Hne]; [rewrite E; reflexivity | apply andb_false_r].
Qed.

Lemma paused_raised (v : Z) (m : Shm) :
  paused (write_loc HeaderFlags (to_uint8 (Z.lor v KVMFR_HEADER_FLAG_PAUSED)) m) = true.
Proof.
  unfold paused. rewrite read_write_same. unfold KVMFR_HEADER_FLAG_PAUSED.
  rewrite is_set_bit1. change 2 with (Z.shiftl 1 1).
  rewrite testbit_raise by lia. apply orb_true_r.
Qed.

Ltac by_cases :=
  cbn [svc shm world with_svc with_shm with_world] in *;
  try congruence;
  try (exfalso;
       repeat match goal with
              | H : (_ >? _) = true |- _ => rewrite Z.gtb_ltb in H; apply Z.ltb_lt in H
              | H : (_ >? _) = false |- _ => rewrite Z.gtb_ltb in H; apply Z.ltb_ge in H
              | H : _ \/ _ |- _ => destruct H
              end;
       first [congruence | lia]).

Section Cycles.

Context {W : Type} {P : Platform W}.
Variable K : Headers.

Lemma wait_frame_free (fuel : nat) (s : Sys W) (Q : unit -> Sys W -> list Event -> Prop) :
  is_set KVMFR_FRAME_FLAG_UPDATE (read_loc FrameFlags (shm s)) = false ->
  Q tt s [Build_Event (shm s) (ALoad FrameFlags)] ->
  twp (wait_frame fuel) s Q.
Proof.
  intros Hfree HQ. unfold is_set in Hfree. apply negb_false_iff in Hfree.
  destruct fuel; cbn [wait_frame].
  all: apply twp_bind, twp_load; rewrite Hfree.
  all: apply twp_ret; exact HQ.
Qed.

(** A cycle whose capture and whose [GetFrame] succeed, the consumer having
    acknowledged the previous frame. *)
Lemma Process_new_frame (fuel : nat) (s : Sys W) :
  0 < MAX_FRAMES K -> 0 <= m_frameIndex (svc s) < MAX_FRAMES K ->
  m_initialized (svc s) = true ->
  is_set KVMFR_HEADER_FLAG_RESTART (read_loc HeaderFlags (shm s)) = false ->
  is_set KVMFR_FRAME_FLAG_UPDATE (read_loc FrameFlags (shm s)) = false ->
  fst (capture_Capture (world s)) = GRAB_STATUS_OK ->
  fst (frame_got (after_Capture s)) = GRAB_STATUS_OK ->
  twp (Process K (S fuel)) s
      (fun r s' log =>
         r = true /\
         world s' = world_at_wait false (after_Capture s) /\
         frame_published K s s' (snd (frame_got (after_Capture s)))
           (capture_GetFrameType (world s')) /\
         cursor_staged (capture_GetCursor (world (after_Capture s))) s s').
Proof.
  intros Hn Hi Hini Hre Hup Hcap Hget.
  unfold frame_got, world_at_wait, after_Capture in *.
  cbn [svc shm world with_world] in *.
  set (w1 := snd (capture_Capture (world s))) in *.
  destruct (capture_GetFrame (next_buffer (svc s)) (m_frameSize (svc s)) w1)
    as [[st f] w2] eqn:Eget.
  cbn [fst snd] in *. subst st.
  pose proof Hre as Hre'. unfold is_set in Hre'. apply negb_false_iff in Hre'.
  unfold Process, service_restart.
  twp_step. twp_step. rewrite Hini. cbn [negb].
  twp_step. twp_step. twp_step. rewrite Hre'. twp_step. cbn [negb].
  twp_step. cbn [capture_loop]. change (0 <? 2) with true. cbn iota.
  twp_step. twp_step. rewrite Hcap.
  twp_step. twp_step. twp_step. cbn [capture_switch]. twp_step. twp_step.
  unfold after_capture. cbn [ok cursorOnly repeat no_locals negb app].
  twp_step. twp_step. twp_step. unfold stage_cursor.
  assert (Hpub : forall (s0 : Sys W),
            m_frameIndex (svc s0) = m_frameIndex (svc s) ->
            m_frame (svc s0) = m_frame (svc s) ->
            m_frameSize (svc s0) = m_frameSize (svc s) ->
            m_dataOffset (svc s0) = m_dataOffset (svc s) ->
            shm s0 = shm s -> world s0 = w1 ->
            twp (publish_frame K (S fuel) false) s0
              (fun a s1 _ =>
                 twp match a with
                     | Some b => ret b
                     | None => INTERLOCKED_AND8 HeaderFlags KVMFR_HEADER_FLAG_RESTART ;; ret true
                     end s1
              (fun b s2 _ =>
                 b = true /\ world s2 = w2 /\
                 read_loc FrameType (shm s2) = capture_GetFrameType w2 /\
                 read_loc FrameWidth (shm s2) = width f /\
                 read_loc FrameHeight (shm s2) = height f /\
                 read_loc FrameStride (shm s2) = stride f /\
                 read_loc FramePitch (shm s2) = fpitch f /\
                 read_loc FrameDataPos (shm s2) = slot_offset (svc s) (m_frameIndex (svc s)) /\
                 read_loc FrameFlags (shm s2)
                 = to_uint8 (Z.lor (read_loc FrameFlags (shm s)) KVMFR_FRAME_FLAG_UPDATE) /\
                 read_loc HeaderFlags (shm s2) = 0 /\
                 cursor (header (shm s2)) = cursor (header (shm s)) /\
                 cursorData (shm s2) = cursorData (shm s) /\
                 svc s2 = set_haveFrame true (advance_frameIndex K (svc s0))))).
  { intros [sv sh w] E1 E2 E3 E4 E5 E6. cbn [svc shm world] in *. subst sh w.
    unfold publish_frame. cbn [negb].
    twp_step. twp_step. twp_step. twp_step. twp_step. twp_step. twp_step. twp_step.
    twp_step. twp_step. cbn [svc]. rewrite E1, E2, E3. fold (next_buffer (svc s)).
    rewrite Eget. cbn [fst snd GrabStatus_eqb negb].
    twp_step. twp_step.
    apply wait_frame_free; [exact Hup |].
    twp_run. cbn [svc shm world with_svc with_shm with_world snd].
    rewrite !cursor_write_other by reflexivity. shm_simpl.
    repeat split; rewrite ?Eget; try reflexivity.
    all: try (unfold slot_offset; rewrite ?E1, ?E4; reflexivity).
    all: try (apply Z.eqb_eq in Hre'; rewrite Hre'; reflexivity). }
  cbn [with_world with_svc svc shm world]. fold w1.
  destruct (updated (capture_GetCursor w1)) eqn:Eupd.
  all: twp_run.
  all: (eapply twp_mono;
        [apply Hpub; cbn [with_world with_svc svc shm world]; reflexivity |]).
  all: cbn beta; intros a s1 _ Ha; (eapply twp_mono; [exact Ha |]); cbn beta.
  all: intros b s2 _ (-> & Hw & H1 & H2 & H3 & H4 & H5 & H6 & H7 & H8 & H9 & H10 & H11).
  all: (split; [reflexivity |]); (split; [exact Hw |]).
  all: unfold frame_published, cursor_staged; rewrite Eupd, H11, Hw; cbn.
  all: rewrite (advance_mod K) by assumption.
  all: repeat split; assumption.
Qed.

Lemma wp_conj {A} (m : M W A) (s : Sys W) (Q1 Q2 : A -> Sys W -> list Event -> Prop) :
  wp m s Q1 -> wp m s Q2 -> wp m s (fun a s' l => Q1 a s' l /\ Q2 a s' l).
Proof. unfold wp. destruct (m s) as [[[a s'] l] |]; auto. Qed.

Lemma capture_loop_flags_only (fuel n : nat) (i : Z) (v : Locals) (s : Sys W) :
  wp (capture_loop K fuel n i v) s (fun _ s1 _ => only_flags_changed (shm s) (shm s1)).
Proof.
  revert i v s. induction fuel as [| fuel IH]; intros i v s; cbn [capture_loop].
  - wp_go. apply only_flags_refl.
  - wp_step; [| wp_go; apply only_flags_refl].
    wp_step. wp_step. wp_step. wp_step. wp_step.
    destruct (fst (capture_Capture (world s)));
      unfold capture_switch, reinitialize_capture.
    all: wp_go.
    all: try (apply only_flags_refl).
    all: try (repeat apply only_flags_write; apply only_flags_refl).
    all: try (eapply wp_mono; [apply IH |]; cbn beta; intros ? ? ? Hl;
              cbn [shm] in Hl;
              eapply only_flags_trans; [exact Hl |];
              repeat apply only_flags_write; apply only_flags_refl).
Qed.

Lemma Process_failure (fuel : nat) (s : Sys W) :
  wp (Process K fuel) s
     (fun r s' _ =>
        r = false ->
        only_flags_changed (shm s) (shm s') /\
        m_frameIndex (svc s') = m_frameIndex (svc s) /\
        m_haveFrame (svc s') = m_haveFrame (svc s)).
Proof.
  unfold Process, service_restart, reinitialize_capture.
  wp_go.
  all: try (intros _; split; [apply only_flags_refl | split; reflexivity]).
  all: (eapply wp_mono;
        [apply wp_conj; [apply capture_loop_flags_only | apply capture_loop_frame] |]).
  all: intros e s1 l1 (Hf & _ & _ & _ & Hs); cbn [svc shm] in *.
  all: unfold after_capture, stage_cursor, publish_frame.
  all: destruct e as [v | b]; wp_go.
  all: try (intros E; discriminate E).
  all: cbn [svc shm world with_svc with_shm with_world] in *.
  all: cbn [repeat no_locals] in Hs.
  all: try (destruct Hs as [(R1 & R2 & R3 & R4 & R5) | (R1 & R2)]; try congruence).
  all: intros _.
  all: try rewrite R2; try rewrite Hs.
  all: (split; [| split; reflexivity]).
  all: try exact Hf.
  all: try (eapply only_flags_trans; [exact Hf |];
            repeat apply only_flags_write; apply only_flags_refl).
Qed.

(** The polls of the frame hand-shake read the frame flags and the global
    flags. *)
Lemma wait_frame_channel (fuel : nat) (s : Sys W) :
  wp (wait_frame fuel) s (fun _ _ l => forallb frame_channel l = true).
Proof.
  revert s. induction fuel as [| fuel IH]; intros s; cbn [wait_frame].
  - wp_run; reflexivity.
  - wp_run; try reflexivity.
    eapply wp_mono; [apply IH |]. cbn beta. intros _ s' l Hl.
    cbn [forallb frame_channel action andb Loc_eqb frame_field orb]. exact Hl.
Qed.

Ltac channel :=
  repeat (rewrite ?forallb_app; cbn [forallb]);
  repeat match goal with
         | H : forallb frame_channel _ = true |- _ => rewrite H
         end;
  cbn [frame_channel action andb Loc_eqb frame_field orb]; try reflexivity.

Lemma capture_loop_channel (fuel n : nat) (i : Z) (v : Locals) (s : Sys W) :
  wp (capture_loop K fuel n i v) s (fun _ _ l => forallb frame_channel l = true).
Proof.
  revert i v s. induction fuel as [| fuel IH]; intros i v s; cbn [capture_loop].
  - wp_go. reflexivity.
  - wp_step; [| wp_go; reflexivity].
    wp_step. wp_step. wp_step. wp_step. wp_step.
    destruct (fst (capture_Capture (world s)));
      unfold capture_switch, reinitialize_capture.
    all: wp_go.
    all: try (channel; fail).
    all: try (eapply wp_mono; [apply IH |]; cbn beta; intros ? ? ? Hl; channel).
Qed.

Ltac wp_frame :=
  repeat first
    [ wp_step
    | apply wp_wait_session; intros ?w
    | apply wp_wait_can_initialize; intros ?w
    | (eapply wp_mono; [apply wait_frame_channel |]; cbn beta; intros [] ?s ?l ?Hl) ];
  cbn beta iota delta [app with_svc with_shm with_world svc shm world
                       ok cursorOnly repeat negb].

Lemma Process_channel (fuel : nat) (s : Sys W) :
  wp (Process K fuel) s (fun _ _ l => forallb frame_channel l = true).
Proof.
  unfold Process, service_restart, reinitialize_capture.
  wp_frame.
  all: try (channel; fail).
  all: eapply wp_mono; [apply capture_loop_channel |].
  all: intros e s1 l1 Hl1; cbn beta.
  all: unfold after_capture, stage_cursor, publish_frame.
  all: destruct e as [v | b]; wp_frame.
  all: channel.
Qed.

Lemma wait_cursor_channel (fuel : nat) (s : Sys W) :
  wp (wait_cursor fuel) s (fun _ _ l => forallb cursor_channel l = true).
Proof.
  revert s. induction fuel as [| fuel IH]; intros s; cbn [wait_cursor].
  - wp_run; reflexivity.
  - wp_run; try reflexivity.
    eapply wp_mono; [apply IH |]. cbn beta. intros _ s' l Hl.
    cbn [forallb cursor_channel action andb cursor_field]. exact Hl.
Qed.

Lemma CursorThread_turn_channel (fuel : nat) (s : Sys W) :
  wp (CursorThread_turn K fuel) s (fun _ _ l => forallb cursor_channel l = true).
Proof.
  unfold CursorThread_turn.
  wp_step. wp_step. wp_step; [| wp_run; reflexivity].
  wp_step. wp_step. wp_step.
  eapply wp_mono; [apply wait_cursor_channel |]. cbn beta. intros r s' l Hl.
  unfold publish_cursor. wp_run.
  all: repeat (rewrite ?forallb_app; cbn [forallb]); rewrite Hl.
  all: reflexivity.
Qed.

Lemma capture_loop_paused (fuel n : nat) (i : Z) (v : Locals) (s : Sys W) :
  wp (capture_loop K fuel n i v) s loop_paused.
Proof.
  revert i v s. induction fuel as [| fuel IH]; intros i v s; cbn [capture_loop].
  - wp_go. split; [reflexivity | discriminate].
  - wp_step; [| wp_go; split; [reflexivity | discriminate]].
    wp_step. wp_step. wp_step. wp_step. wp_step.
    destruct (fst (capture_Capture (world s)));
      unfold capture_switch, reinitialize_capture.
    all: wp_go.
    all: try (split; [reflexivity | discriminate]).
    all: try (split; [reflexivity | intros b _; exact I]).
    all: try (split;
              [ cbn [forallb reinit_paused action before andb];
                rewrite ?paused_raised; reflexivity
              | intros b _; cbn [last_capture action]; apply paused_raised ]).
    all: try (eapply wp_mono; [apply IH |];
              intros e s1 l1 [H1 H2]; split;
              [ repeat (rewrite ?forallb_app; cbn [forallb]);
                cbn [reinit_paused action before andb];
                rewrite ?paused_raised, H1; reflexivity
              | intros b Eb; specialize (H2 b Eb);
                repeat (cbn [last_capture action app]; rewrite ?last_capture_app);
                destruct (last_capture l1) as [[] |]; try exact H2; try exact I;
                contradiction ]).
Qed.

Lemma Process_restart_failed (fuel : nat) (s : Sys W) :
  m_initialized (svc s) = true ->
  is_set KVMFR_HEADER_FLAG_RESTART (read_loc HeaderFlags (shm s)) = true ->
  fst (capture_ReInitialize (world s)) = false \/
  capture_GetMaxFrameSize (snd (capture_ReInitialize (world s))) > m_frameSize (svc s) ->
  twp (Process K fuel) s
      (fun r s' log =>
         r = false /\ svc s' = svc s /\ shm s' = shm s /\
         forallb no_capture log = true).
Proof.
  intros Hini Hre Hfail. unfold is_set in Hre. apply negb_true_iff in Hre.
  unfold Process, service_restart, reinitialize_capture.
  twp_run.
  all: by_cases.
  all: repeat split; reflexivity.
Qed.

Lemma service_restart_done (s : Sys W) :
  is_set KVMFR_HEADER_FLAG_RESTART (read_loc HeaderFlags (shm s)) = true ->
  fst (capture_ReInitialize (world s)) = true ->
  capture_GetMaxFrameSize (snd (capture_ReInitialize (world s))) <= m_frameSize (svc s) ->
  twp service_restart s
      (fun r s' log =>
         r = true /\ svc s' = svc s /\
         only_flags_changed (shm s) (shm s') /\
         is_set KVMFR_HEADER_FLAG_RESTART (read_loc HeaderFlags (shm s')) = false /\
         (forall b, 1 <= b < 8 ->
            Z.testbit (read_loc HeaderFlags (shm s')) b
            = Z.testbit (read_loc HeaderFlags (shm s)) b) /\
         forallb no_capture log = true).
Proof.
  intros Hre Hr Hfit. unfold is_set in Hre. apply negb_true_iff in Hre.
  unfold service_restart, reinitialize_capture.
  twp_run.
  all: by_cases.
  split; [reflexivity |]. split; [reflexivity |].
  split; [apply only_flags_write, only_flags_refl |].
  shm_simpl. change (Z.lnot KVMFR_HEADER_FLAG_RESTART) with (Z.lnot (Z.shiftl 1 0)).
  split; [| split; [| reflexivity]].
  - unfold KVMFR_HEADER_FLAG_RESTART. rewrite is_set_bit0.
    rewrite testbit_lower by lia. apply andb_false_r.
  - intros b Hb. rewrite testbit_lower by lia.
    replace (0 =? b) with false by (symmetry; apply Z.eqb_neq; lia).
    apply andb_true_r.
Qed.

Lemma stage_pending (c info : CursorInfo) :
  hasPos (stage c info) = hasPos c || hasPos info /\
  hasShape (stage c info) = hasShape c || hasShape info /\
  visible (stage c info) = visible c /\
  x (stage c info) = (if hasPos c then x c else x info) /\
  y (stage c info) = (if hasPos c then y c else y info) /\
  shape (stage c info) = (if hasShape c then shape c else shape info) /\
  dataSize (stage c info) = (if hasShape c then dataSize c else dataSize info).
Proof.
  unfold stage. destruct (hasPos c), (hasShape c); cbn; repeat split; reflexivity.
Qed.

Lemma Process_staged (fuel : nat) (s : Sys W) :
  wp (Process K fuel) s (fun _ s' _ => staged (svc s) (svc s')).
Proof.
  unfold Process, service_restart, reinitialize_capture.
  wp_go.
  all: try (left; split; reflexivity).
  all: eapply wp_mono; [apply capture_loop_frame |].
  all: intros e s1 l1 (_ & _ & _ & Hs); cbn [svc shm] in *.
  all: unfold after_capture, stage_cursor, publish_frame.
  all: destruct e as [v | b]; wp_go.
  all: cbn [svc shm world with_svc with_shm with_world] in *.
  all: try (destruct Hs as [(R1 & R2 & R3 & R4 & R5) | (R1 & R2)]).
  all: try rewrite Hsvc.
  all: try rewrite R2; try rewrite Hs.
  all: cbn [m_cursorInfo m_cursorEvent set_haveFrame advance_frameIndex rewind_frameIndex
            set_frameIndex set_cursorEvent set_cursorInfo].
  all: try (left; split; reflexivity).
  all: right; eexists; split; [eassumption | split; reflexivity].
Qed.

(** A cycle whose capture reports a cursor change only: the frame channel
    is left alone, but for the global flags. *)
Lemma Process_cursor_only (fuel : nat) (s : Sys W) :
  m_initialized (svc s) = true ->
  is_set KVMFR_HEADER_FLAG_RESTART (read_loc HeaderFlags (shm s)) = false ->
  fst (capture_Capture (world s)) = GRAB_STATUS_CURSOR ->
  twp (Process K (S fuel)) s
      (fun r s' log =>
         r = true /\ world s' = world (after_Capture s) /\
         only_flags_changed (shm s) (shm s') /\
         read_loc HeaderFlags (shm s') = 0 /\
         m_frameIndex (svc s') = m_frameIndex (svc s) /\
         m_haveFrame (svc s') = m_haveFrame (svc s) /\
         cursor_staged (capture_GetCursor (world (after_Capture s))) s s' /\
         forallb no_data log = true).
Proof.
  intros Hini Hre Hcap. unfold after_Capture, cursor_staged.
  cbn [svc shm world with_world].
  set (w1 := snd (capture_Capture (world s))) in *.
  pose proof Hre as Hre'. unfold is_set in Hre'. apply negb_false_iff in Hre'.
  unfold Process, service_restart.
  twp_step. twp_step. rewrite Hini. cbn [negb].
  twp_step. twp_step. twp_step. rewrite Hre'. twp_step. cbn [negb].
  twp_step. cbn [capture_loop]. change (0 <? 2) with true. cbn iota.
  twp_step. twp_step. rewrite Hcap.
  twp_step. twp_step. twp_step. cbn [capture_switch]. twp_step. twp_step.
  unfold after_capture. cbn [ok cursorOnly repeat no_locals negb app].
  twp_step. twp_step. twp_step. unfold stage_cursor.
  cbn [with_world with_svc svc shm world]. fold w1.
  apply Z.eqb_eq in Hre'.
  destruct (updated (capture_GetCursor w1)) eqn:Eupd.
  all: twp_run.
  all: cbn [with_world with_svc with_shm svc shm world]; fold w1.
  all: shm_simpl; rewrite Hre'.
  all: repeat split; try reflexivity.
  all: intros l Hl; apply read_write_other; destruct l; try discriminate Hl; reflexivity.
Qed.

(** A cycle whose capture times out after a frame has been published, the
    consumer having acknowledged that frame: the frame is signalled again. *)
Lemma Process_repeat (fuel : nat) (s : Sys W) :
  0 < MAX_FRAMES K -> 0 <= m_frameIndex (svc s) < MAX_FRAMES K ->
  m_initialized (svc s) = true ->
  is_set KVMFR_HEADER_FLAG_RESTART (read_loc HeaderFlags (shm s)) = false ->
  is_set KVMFR_FRAME_FLAG_UPDATE (read_loc FrameFlags (shm s)) = false ->
  m_haveFrame (svc s) = true ->
  fst (capture_Capture (world s)) = GRAB_STATUS_TIMEOUT ->
  twp (Process K (S fuel)) s
      (fun r s' log =>
         r = true /\ world s' = world (after_Capture s) /\
         (forall l, In l payload_fields -> read_loc l (shm s') = read_loc l (shm s)) /\
         is_set KVMFR_FRAME_FLAG_UPDATE (read_loc FrameFlags (shm s')) = true /\
         read_loc HeaderFlags (shm s') = 0 /\
         m_frameIndex (svc s') = (m_frameIndex (svc s) - 1) mod MAX_FRAMES K /\
         m_haveFrame (svc s') = true /\
         forallb no_data log = true).
Proof.
  intros Hn Hi Hini Hre Hup Hhave Hcap. unfold after_Capture.
  cbn [svc shm world with_world].
  set (w1 := snd (capture_Capture (world s))) in *.
  pose proof Hre as Hre'. unfold is_set in Hre'. apply negb_false_iff in Hre'.
  unfold Process, service_restart.
  twp_step. twp_step. rewrite Hini. cbn [negb].
  twp_step. twp_step. twp_step. rewrite Hre'. twp_step. cbn [negb].
  twp_step. cbn [capture_loop]. change (0 <? 2) with true. cbn iota.
  twp_step. twp_step. rewrite Hcap.
  twp_step. twp_step. twp_step. cbn [capture_switch].
  twp_step. twp_step. cbn [svc with_world]. rewrite Hhave.
  twp_step. twp_step. twp_step. twp_step.
  unfold after_capture. cbn [ok cursorOnly repeat no_locals negb app].
  twp_step. twp_step. twp_step. unfold stage_cursor, publish_frame.
  cbn [with_world with_svc svc shm world negb]. fold w1.
  apply Z.eqb_eq in Hre'.
  destruct (updated (capture_GetCursor w1)) eqn:Eupd.
  all: twp_run.
  all: (apply wait_frame_free; [cbn [shm with_svc with_world]; exact Hup |]).
  all: twp_run.
  all: cbn [with_world with_svc with_shm svc shm world]; fold w1.
  all: shm_simpl; rewrite ?Hre'.
  all: cbn [m_frameIndex m_haveFrame set_cursorEvent set_cursorInfo rewind_frameIndex
            set_frameIndex].
  all: rewrite (rewind_mod K) by assumption.
  all: repeat split; try reflexivity.
  all: try apply is_set_raised.
  all: try exact Hhave.
  all: intros l Hl; cbn [payload_fields In] in Hl;
       repeat destruct Hl as [<- | Hl]; try contradiction; shm_simpl; reflexivity.
Qed.

End Cycles.

(** ** The turns of the cursor thread *)

Lemma testbit_to_uint8_high (v b : Z) : 8 <= b -> Z.testbit (to_uint8 v) b = false.
Proof.
  intros Hb. unfold to_uint8. change 256 with (2 ^ 8).
  apply Z.mod_pow2_bits_high. lia.
Qed.

Section Turns.

Context {W : Type} {P : Platform W}.
Variable K : Headers.

(** The hand-shake of the cursor thread gives up only when [m_capture] is
    found [NULL]; the service object is as before. *)
Lemma wait_cursor_capture (fuel : nat) (s : Sys W) :
  wp (wait_cursor fuel) s
     (fun r s' _ => svc s' = svc s /\ (r = false -> m_capture (svc s) = false)).
Proof.
  revert s. induction fuel as [| fuel IH]; intros s; cbn [wait_cursor].
  - wp_run. split; [reflexivity | discriminate].
  - wp_run.
    all: try (split; [reflexivity | first [discriminate | auto]]; fail).
    eapply wp_mono; [apply IH |]. cbn beta. cbn [svc].
    intros r s' l [H1 H2]. split; [exact H1 |].
    intros E. specialize (H2 E). congruence.
Qed.

Lemma CursorThread_turn_capture (fuel : nat) (s : Sys W) :
  wp (CursorThread_turn K fuel) s
     (fun r s' _ => m_capture (svc s') = m_capture (svc s) /\
                    (r = false -> m_capture (svc s) = false)).
Proof.
  unfold CursorThread_turn.
  wp_step. wp_step. wp_step; [| wp_run; split; [reflexivity | discriminate]].
  wp_step. wp_step. wp_step.
  eapply wp_mono; [apply wait_cursor_capture |]. cbn beta. cbn [svc with_svc].
  intros r s' l [Hsvc Hr].
  unfold publish_cursor. wp_run.
  all: cbn [svc shm world with_svc with_shm with_world].
  all: rewrite ?Hsvc; cbn [m_capture set_cursorInfo set_cursorEvent].
  all: split; [reflexivity | try discriminate; auto].
Qed.

(** The cursor thread ends only when it finds [m_capture] equal to [NULL],
    which it does not change. *)
Lemma CursorThread_runs (fuel : nat) (s : Sys W) :
  m_capture (svc s) = true -> CursorThread K fuel s = None.
Proof.
  revert s. induction fuel as [| fuel IH]; intros s Hcap.
  - unfold CursorThread, bind, gets. rewrite Hcap. reflexivity.
  - cbn [CursorThread]. unfold bind at 1, gets. rewrite Hcap. cbn [negb].
    pose proof (CursorThread_turn_capture (S fuel) s) as Ht.
    unfold wp in Ht. unfold bind.
    destruct (CursorThread_turn K (S fuel) s) as [[[go s1] l1] |]; [| reflexivity].
    destruct Ht as [Hc Hgo]. destruct go.
    + rewrite IH; [reflexivity | congruence].
    + specialize (Hgo eq_refl). congruence.
Qed.

Lemma CursorThread_ends (fuel : nat) (s : Sys W) :
  m_capture (svc s) = false -> CursorThread K fuel s = Some (0, s, []).
Proof.
  intros Hcap. destruct fuel; cbn [CursorThread]; unfold bind, gets, ret;
    rewrite Hcap; reflexivity.
Qed.

Hypothesis K_ok : Headers_ok K = true.

Ltac flag_bits :=
  destruct (Headers_ok_bits K K_ok) as ((? & ? & ? & ?) & (? & ? & ? & ? & ? & ?) & ?);
  unfold flag_bit; shm_simpl;
  unfold KVMFR_CURSOR_FLAG_POS, KVMFR_CURSOR_FLAG_SHAPE, KVMFR_CURSOR_FLAG_VISIBLE,
         KVMFR_CURSOR_FLAG_UPDATE;
  repeat first [rewrite testbit_raise by lia | rewrite testbit_lower by lia];
  rewrite ?Z.eqb_refl;
  repeat match goal with
         | |- context [?a =? ?b] =>
             replace (a =? b) with false by (symmetry; apply Z.eqb_neq; congruence)
         end;
  cbn [negb andb orb]; rewrite ?orb_false_r, ?orb_true_r, ?andb_true_r; try reflexivity.

Lemma CursorThread_turn_published (fuel : nat) (s : Sys W) :
  m_cursorEvent (svc s) = true ->
  read_loc CursorFlags (shm s) = 0 ->
  twp (CursorThread_turn K fuel) s
      (fun r s' _ => r = true /\ turn_published K s s').
Proof.
  intros Hev Hfree.
  unfold CursorThread_turn.
  apply twp_bind, twp_gets. rewrite Hev. cbn [negb].
  apply twp_bind, twp_modify. apply twp_bind.
  apply wait_cursor_free; [exact Hfree |]. cbn [negb].
  apply twp_bind. unfold publish_cursor.
  cbn [with_svc svc shm world].
  twp_run.
  all: cbn [m_cursorInfo set_cursorInfo set_cursorEvent hasShape hasPos clear_hasPos clear_hasShape
            dataSize m_cursorDataSize type w h pitch shape m_cursorOffset x y visible] in *.
  all: try congruence.
  all: (split; [reflexivity |]).
  all: unfold turn_published, shape_fits.
  all: cbn [svc shm with_svc with_shm m_cursorInfo set_cursorInfo set_cursorEvent
            hasShape hasPos clear_hasPos clear_hasShape m_cursorEvent m_cursorDataSize
            dataSize visible app].
  all: repeat match goal with
              | H : _ = _ |- _ => rewrite H
              end.
  all: cbn [negb andb].
  all: repeat match goal with |- _ /\ _ => split end.
  all: try reflexivity.
  all: shm_simpl; try reflexivity.
  all: try (flag_bits; rewrite ?Z.testbit_0_l; reflexivity).
  all: try (intros E;
            first [ discriminate E
                  | split; [| reflexivity];
                    intros l Hl; cbn [shape_fields In] in Hl;
                    repeat destruct Hl as [<- | Hl]; try contradiction;
                    shm_simpl; reflexivity ]).
  all: intros b Hb0 Hb1 Hb2 Hb3 Hb4.
  all: destruct (Z.lt_ge_cases b 8) as [Hb | Hb];
       [ flag_bits; rewrite ?Z.testbit_0_l; reflexivity
       | unfold flag_bit; shm_simpl; apply testbit_to_uint8_high; exact Hb ].
Qed.

End Turns.

(** ** Further edges *)

Lemma ALIGN_DN_any (x : Z) : ALIGN_DN x = 128 * (to_uintptr x / 128).
Proof.
  assert (Hx : 0 <= to_uintptr x < 2 ^ 64) by (apply Z.mod_pos_bound; lia).
  rewrite <- (ALIGN_DN_spec (to_uintptr x) Hx).
  unfold ALIGN_DN, to_uintptr. rewrite Z.mod_mod by lia. reflexivity.
Qed.

Lemma ALIGN_DN_mod (x : Z) : ALIGN_DN x mod 128 = 0.
Proof. rewrite ALIGN_DN_any. apply mul128_mod. Qed.

Lemma to_uintptr_mod (x : Z) : x mod 128 = 0 -> to_uintptr x mod 128 = 0.
Proof.
  intros Hx. unfold to_uintptr. change (2 ^ 64) with (128 * 2 ^ 57).
  rewrite Z.rem_mul_r by lia. rewrite Hx.
  rewrite Z.add_0_l, Z.mul_comm. apply Z.mod_mul. lia.
Qed.

Section Edges.

Context {W : Type} {P : Platform W}.
Variable K : Headers.

Lemma InitPointers_aligned (s : Sys W) :
  exists s' log,
    InitPointers K s = Some (true, s', log) /\ addresses_aligned K (svc s').
Proof.
  eexists; eexists. split; [reflexivity |].
  unfold addresses_aligned. cbn [svc m_cursorData m_frameSize m_frame].
  split; [apply ALIGN_DN_mod |]. split; [apply ALIGN_DN_mod |].
  intros i Hi. rewrite nth_frame_indices by exact Hi.
  unfold init_frame. apply to_uintptr_mod.
  rewrite Z.add_mod by lia.
  unfold init_frames at 1. unfold ALIGN_UP. rewrite ALIGN_DN_mod.
  rewrite (to_uintptr_mod (i * init_frameSize K (m_memory (svc s)) (ivshmem_GetSize (world s)))).
  - reflexivity.
  - unfold init_frameSize. rewrite Z.mul_mod, ALIGN_DN_mod by lia.
    rewrite Z.mul_0_r. reflexivity.
Qed.

Lemma capture_loop_spins (fuel n : nat) (i : Z) (v : Locals) (s : Sys W) :
  i < 2 -> m_haveFrame (svc s) = false -> always_times_out (world s) ->
  capture_loop K fuel n i v s = None.
Proof.
  revert s. induction fuel as [| fuel IH]; intros s Hi Hhave Hto.
  - cbn [capture_loop]. apply Z.ltb_lt in Hi. rewrite Hi. reflexivity.
  - pose proof Hi as Hi'. apply Z.ltb_lt in Hi'.
    pose proof (Hto 0%nat) as H0. simpl in H0.
    assert (Hnext : capture_loop K fuel n i v
                      (Build_Sys (svc s) (shm s) (snd (capture_Capture (world s)))) = None).
    { apply IH; [exact Hi | exact Hhave |].
      intros k. specialize (Hto (S k)). rewrite Nat.iter_succ_r in Hto. exact Hto. }
    cbn [capture_loop]. rewrite Hi'.
    unfold bind, call, emit, gets, ret. cbn [svc shm world].
    rewrite H0. cbn [capture_switch]. unfold bind, gets, ret. cbn [svc shm world].
    rewrite Hhave. replace (i - 1 + 1) with i by lia.
    rewrite Hnext. reflexivity.
Qed.

Lemma Process_spins (fuel : nat) (s : Sys W) :
  m_initialized (svc s) = true ->
  is_set KVMFR_HEADER_FLAG_RESTART (read_loc HeaderFlags (shm s)) = false ->
  m_haveFrame (svc s) = false -> always_times_out (world s) ->
  Process K fuel s = None.
Proof.
  intros Hini Hre Hhave Hto. unfold is_set in Hre. apply negb_false_iff in Hre.
  assert (Hloop : capture_loop K fuel fuel 0 no_locals s = None)
    by (apply capture_loop_spins; [lia | exact Hhave | exact Hto]).
  unfold Process, service_restart.
  unfold bind, gets, load, ret. rewrite Hini. cbn [negb svc shm world].
  rewrite Hre. cbn [negb].
  destruct s as [sv sh w]. cbn [svc shm world] in *. rewrite Hloop. reflexivity.
Qed.

End Edges.

(** The example backend, left without captures, times out for ever. *)
Lemma idle_backend_times_out : always_times_out (world example_state).
Proof.
  intros k.
  assert (Hk : Nat.iter k (fun w => snd (capture_Capture w)) (world example_state)
               = world example_state).
  { induction k as [| k IH]; [reflexivity |]. cbn [Nat.iter nat_rect].
    change (Nat.iter k (fun w => snd (capture_Capture w)) (world example_state))
      with (nat_rect (fun _ => Script) (world example_state)
              (fun _ w => snd (capture_Capture w)) k) in IH.
    rewrite IH. reflexivity. }
  rewrite Hk. reflexivity.
Qed.

(** ** The kinds of cycle *)

Section Kinds.

Context {W : Type} {P : Platform W}.
Variable K : Headers.

(** The hand-shake reads the region and the platform only. *)
Lemma wait_frame_svc (fuel : nat) (sv sv0 : Service) (sh : Shm) (w : W) :
  wait_frame fuel (Build_Sys sv0 sh w)
  = match wait_frame fuel (Build_Sys sv sh w) with
    | Some (a, s', l) => Some (a, Build_Sys sv0 (shm s') (world s'), l)
    | None => None
    end.
Proof.
  revert sh w. induction fuel as [| fuel IH]; intros sh w; cbn [wait_frame].
  - unfold bind, load, ret, stuck. cbn [shm svc world].
    repeat (match goal with
            | |- context [if ?c then _ else _] => destruct c
            end; cbn beta iota delta [negb app shm svc world]).
    all: reflexivity.
  - unfold bind, load, ret, stuck, consumer_turn, call, update_shm.
    cbn [shm svc world fst snd].
    repeat (match goal with
            | |- context [if ?c then _ else _] => destruct c
            end; cbn beta iota delta [negb app shm svc world]).
    all: try reflexivity.
    unfold bind. cbn beta iota delta [shm svc world fst snd app]. rewrite IH.
    match goal with
    | |- context [wait_frame fuel ?s] =>
        destruct (wait_frame fuel s) as [[[u s2] l2] |]
    end; reflexivity.
Qed.

Lemma wait_frame_ends (fuel : nat) (s0 s : Sys W)
  (Q : unit -> Sys W -> list Event -> Prop) :
  shm s0 = shm s -> world s0 = world s ->
  wait_frame fuel s <> None ->
  (forall s' l, svc s' = svc s0 -> same_payload (shm s0) (shm s') ->
                forallb is_poll l = true -> Q tt s' l) ->
  twp (wait_frame fuel) s0 Q.
Proof.
  intros Hs Hw Hend HQ.
  assert (Hret : wait_frame fuel s0 <> None).
  { destruct s0 as [sv0 sh0 w0], s as [sv sh w]. cbn [shm world] in *.
    subst sh0 w0. rewrite (wait_frame_svc fuel sv sv0).
    destruct (wait_frame fuel {| svc := sv; shm := sh; world := w |})
      as [[[u s2] l2] |]; [discriminate | exact Hend]. }
  pose proof (wp_wait_frame fuel s0
                (fun _ s' l => svc s' = svc s0 /\ same_payload (shm s0) (shm s') /\
                               forallb is_poll l = true)) as Hwp.
  unfold wp in Hwp. unfold twp.
  destruct (wait_frame fuel s0) as [[[[] s'] l] |]; [| contradiction].
  destruct Hwp as (H1 & H2 & H3); [auto |]. apply HQ; assumption.
Qed.



(** The restart check leaves the service object and [dataPos] alone. *)
Lemma cycle_starts_keeps (s s1 : Sys W) :
  cycle_starts s s1 ->
  exists l1,
    service_restart s = Some (true, s1, l1) /\
    svc s1 = svc s /\
    read_loc FrameDataPos (shm s1) = read_loc FrameDataPos (shm s) /\
    stores_to FrameDataPos l1 = false /\ forallb no_data l1 = true.
Proof.
  intros [Hini [l1 Hsr]]. exists l1. split; [exact Hsr |].
  assert (Hwp : wp service_restart s
                  (fun _ s1 l1 =>
                     svc s1 = svc s /\
                     read_loc FrameDataPos (shm s1) = read_loc FrameDataPos (shm s) /\
                     stores_to FrameDataPos l1 = false /\ forallb no_data l1 = true)).
  { unfold service_restart, reinitialize_capture. wp_run.
    all: repeat split; reflexivity. }
  exact (wp_elim _ _ _ _ _ _ Hwp Hsr).
Qed.

Lemma Process_from_capture (fuel : nat) (s s1 : Sys W) (l1 : list Event) :
  m_initialized (svc s) = true ->
  service_restart s = Some (true, s1, l1) ->
  Process K fuel s
  = match (exit <- capture_loop K fuel fuel 0 no_locals ;; after_capture K fuel exit) s1 with
    | Some (r, s', l) => Some (r, s', l1 ++ l)
    | None => None
    end.
Proof.
  intros Hini Hsr. unfold Process, bind, gets. rewrite Hini. cbn [negb].
  rewrite Hsr. cbn [negb].
  destruct (capture_loop K fuel fuel 0 no_locals s1) as [[[e s2] l2] |]; [| reflexivity].
  destruct (after_capture K fuel e s2) as [[[r s3] l3] |]; reflexivity.
Qed.

(** From the capture loop on, when [Capture()] times out and a frame was
    published before. *)
Lemma repeat_from_capture (fuel : nat) (s : Sys W) :
  0 < MAX_FRAMES K -> 0 <= m_frameIndex (svc s) < MAX_FRAMES K ->
  fst (capture_Capture (world s)) = GRAB_STATUS_TIMEOUT ->
  m_haveFrame (svc s) = true ->
  wp ((exit <- capture_loop K fuel fuel 0 no_locals ;; after_capture K fuel exit)) s
     (fun r s' log =>
        r = true /\
        m_frameIndex (svc s') = (m_frameIndex (svc s) - 1) mod MAX_FRAMES K /\
        read_loc FrameDataPos (shm s') = read_loc FrameDataPos (shm s) /\
        stores_to FrameDataPos log = false /\
        forallb no_data log = true /\
        m_haveFrame (svc s') = true).
Proof.
  intros Hn Hi Hcap Hhave.
  destruct fuel as [| fuel]; cbn [capture_loop]; change (0 <? 2) with true; cbn iota.
  - wp_step. wp_step.
  - wp_step. wp_step. wp_step. rewrite Hcap.
    wp_step. wp_step. wp_step. cbn [capture_switch].
    wp_step. wp_step. cbn [svc with_world]. rewrite Hhave.
    wp_step. wp_step. wp_step. wp_step.
    unfold after_capture. cbn [ok cursorOnly repeat no_locals negb app].
    wp_step. wp_step. wp_step. unfold stage_cursor, publish_frame.
    cbn [with_world with_svc svc shm world negb].
    destruct (updated (capture_GetCursor (snd (capture_Capture (world s))))) eqn:Eupd.
    all: wp_go.
    all: cbn [with_world with_svc with_shm svc shm world].
    all: rewrite ?Hsvc.
    all: cbn [with_world with_svc with_shm svc shm world] in *.
    all: cbn [m_frameIndex m_haveFrame set_cursorEvent set_cursorInfo rewind_frameIndex
              set_frameIndex svc].
    all: rewrite (rewind_mod K) by assumption.
    all: shm_simpl.
    all: rewrite ?stores_to_cons, ?stores_to_app, ?(stores_to_polls _ _ Hpoll).
    all: destruct Hpay as [Hpay _]; rewrite (Hpay FrameDataPos eq_refl).
    all: repeat split; try reflexivity; try exact Hhave.
    all: cbn [forallb]; rewrite ?forallb_app, ?(no_data_polls _ Hpoll); reflexivity.
Qed.

Lemma repeat_from_capture_returns (fuel : nat) (s : Sys W) :
  fst (capture_Capture (world s)) = GRAB_STATUS_TIMEOUT ->
  m_haveFrame (svc s) = true ->
  wait_frame (S fuel) (after_Capture s) <> None ->
  twp (exit <- capture_loop K (S fuel) (S fuel) 0 no_locals ;;
       after_capture K (S fuel) exit) s
      (fun r _ _ => r = true).
Proof.
  intros Hcap Hhave Hend.
  cbn [capture_loop]; change (0 <? 2) with true; cbn iota.
  twp_step. twp_step. twp_step. rewrite Hcap.
  twp_step. twp_step. twp_step. cbn [capture_switch].
  twp_step. twp_step. cbn [svc with_world]. rewrite Hhave.
  twp_step. twp_step. twp_step. twp_step.
  unfold after_capture. cbn [ok cursorOnly repeat no_locals negb app].
  twp_step. twp_step. twp_step. unfold stage_cursor, publish_frame.
  cbn [with_world with_svc svc shm world negb].
  destruct (updated (capture_GetCursor (snd (capture_Capture (world s))))) eqn:Eupd.
  all: twp_run.
  all: (apply (wait_frame_ends (S fuel) _ (after_Capture s));
        [reflexivity | reflexivity | exact Hend |]).
  all: intros s' l _ _ _.
  all: twp_run.
  all: reflexivity.
Qed.

(** The publication of a new frame whose [GetFrame()] succeeds. *)
Lemma publish_new_frame (fuel : nat) (s : Sys W) :
  0 < MAX_FRAMES K -> 0 <= m_frameIndex (svc s) < MAX_FRAMES K ->
  fst (frame_got s) = GRAB_STATUS_OK ->
  wp (publish_frame K fuel false) s
     (fun a s' log =>
        a = None /\
        svc s' = set_haveFrame true (advance_frameIndex K (svc s)) /\
        read_loc FrameDataPos (shm s') = slot_offset (svc s) (m_frameIndex (svc s)) /\
        stores_to FrameDataPos log = true).
Proof.
  intros Hn Hi Hget. unfold frame_got, next_buffer in Hget.
  unfold publish_frame. cbn [negb].
  wp_step. wp_step. wp_step. wp_step. wp_step. wp_step. wp_step. wp_step.
  wp_step. wp_step.
  destruct (capture_GetFrame (nth (Z.to_nat (m_frameIndex (svc s))) (m_frame (svc s)) 0)
              (m_frameSize (svc s)) (world s)) as [[st f] w2] eqn:Eget.
  cbn [fst snd] in *. subst st. cbn [GrabStatus_eqb negb].
  wp_go.
  all: cbn [with_world with_svc with_shm svc shm world].
  all: rewrite ?Hsvc.
  all: shm_simpl.
  all: rewrite ?stores_to_cons, ?stores_to_app, ?(stores_to_polls _ _ Hpoll).
  all: cbn [action Loc_eqb orb].
  all: rewrite ?orb_true_r.
  all: repeat split; reflexivity.
Qed.

Lemma publish_new_frame_returns (fuel : nat) (s sw : Sys W) :
  fst (frame_got s) = GRAB_STATUS_OK ->
  shm s = shm sw -> world_at_wait false s = world sw ->
  wait_frame fuel sw <> None ->
  twp (publish_frame K fuel false) s (fun a _ _ => a = None).
Proof.
  intros Hget Hshm Hw Hend. unfold frame_got, world_at_wait, next_buffer in *.
  unfold publish_frame. cbn [negb].
  twp_step. twp_step. twp_step. twp_step. twp_step. twp_step. twp_step. twp_step.
  twp_step. twp_step.
  destruct (capture_GetFrame (nth (Z.to_nat (m_frameIndex (svc s))) (m_frame (svc s)) 0)
              (m_frameSize (svc s)) (world s)) as [[st f] w2] eqn:Eget.
  cbn [fst snd] in *. subst st. cbn [GrabStatus_eqb negb].
  twp_step. twp_step.
  apply (wait_frame_ends fuel _ sw);
    [exact Hshm | cbn [world with_world]; rewrite Eget; exact Hw | exact Hend |].
  intros s' l _ _ _.
  twp_run. reflexivity.
Qed.

(** From the capture loop on, when [Capture()] and [GetFrame()] succeed. *)
Lemma new_frame_from_capture (fuel : nat) (s : Sys W) :
  0 < MAX_FRAMES K -> 0 <= m_frameIndex (svc s) < MAX_FRAMES K ->
  fst (capture_Capture (world s)) = GRAB_STATUS_OK ->
  fst (frame_got (after_Capture s)) = GRAB_STATUS_OK ->
  wp (exit <- capture_loop K fuel fuel 0 no_locals ;; after_capture K fuel exit) s
     (fun r s' log =>
        r = true /\
        m_frameIndex (svc s') = (m_frameIndex (svc s) + 1) mod MAX_FRAMES K /\
        read_loc FrameDataPos (shm s') = slot_offset (svc s) (m_frameIndex (svc s)) /\
        stores_to FrameDataPos log = true /\
        m_haveFrame (svc s') = true).
Proof.
  intros Hn Hi Hcap Hget.
  destruct fuel as [| fuel]; cbn [capture_loop]; change (0 <? 2) with true; cbn iota.
  - wp_step. wp_step.
  - wp_step. wp_step. wp_step. rewrite Hcap.
    wp_step. wp_step. wp_step. cbn [capture_switch]. wp_step. wp_step.
    unfold after_capture. cbn [ok cursorOnly repeat no_locals negb app].
    wp_step. wp_step. wp_step. unfold stage_cursor.
    cbn [with_world with_svc svc shm world negb].
    destruct (updated (capture_GetCursor (snd (capture_Capture (world s))))) eqn:Eupd.
    all: wp_run.
    all: (eapply wp_mono; [apply publish_new_frame; [exact Hn | exact Hi | exact Hget] |]).
    all: cbn beta; intros a s1 l1 (-> & Hsvc & Hpos & Hst).
    all: wp_run.
    all: cbn [with_world with_svc with_shm svc shm world] in *.
    all: rewrite Hsvc.
    all: cbn [m_frameIndex m_haveFrame set_cursorEvent set_cursorInfo set_haveFrame
              advance_frameIndex set_frameIndex].
    all: rewrite (advance_mod K) by assumption.
    all: shm_simpl.
    all: rewrite ?stores_to_cons, ?stores_to_app, Hst.
    all: cbn [action Loc_eqb orb].
    all: rewrite ?orb_true_r.
    all: repeat split; try reflexivity; try exact Hpos.
Qed.

Lemma new_frame_from_capture_returns (fuel : nat) (s : Sys W) :
  fst (capture_Capture (world s)) = GRAB_STATUS_OK ->
  fst (frame_got (after_Capture s)) = GRAB_STATUS_OK ->
  wait_frame (S fuel) (after_GetFrame (after_Capture s)) <> None ->
  twp (exit <- capture_loop K (S fuel) (S fuel) 0 no_locals ;;
       after_capture K (S fuel) exit) s
      (fun r _ _ => r = true).
Proof.
  intros Hcap Hget Hend.
  cbn [capture_loop]; change (0 <? 2) with true; cbn iota.
  twp_step. twp_step. twp_step. rewrite Hcap.
  twp_step. twp_step. twp_step. cbn [capture_switch]. twp_step. twp_step.
  unfold after_capture. cbn [ok cursorOnly repeat no_locals negb app].
  twp_step. twp_step. twp_step. unfold stage_cursor.
  cbn [with_world with_svc svc shm world negb].
  destruct (updated (capture_GetCursor (snd (capture_Capture (world s))))) eqn:Eupd.
  all: twp_run.
  all: (eapply twp_mono;
        [apply (publish_new_frame_returns (S fuel) _ (after_GetFrame (after_Capture s)));
         [exact Hget | reflexivity | reflexivity | exact Hend] |]).
  all: cbn beta; intros a s1 l1 ->.
  all: twp_run.
  all: reflexivity.
Qed.

End Kinds.

(** ** The wait of DeInitialize *)

Section Joining.

Context {W : Type} {P : Platform W}.
Variable K : Headers.

(** Running the wait on the cursor thread gives what [DeInitialize] gives,
    whatever the number of turns allowed to the thread. *)
Lemma DeInitialize_joining_agrees (fuel : nat) (s : Sys W) :
  DeInitialize_joining K fuel s = DeInitialize K s.
Proof.
  unfold DeInitialize_joining, join_cursorThread, DeInitialize.
  unfold bind, gets, ret, act, modify, stuck. cbn [svc shm world].
  destruct (m_cursorThread (svc s)) eqn:Hthr; destruct (m_capture (svc s)) eqn:Hcap;
    cbn [andb svc shm world];
    rewrite ?(CursorThread_runs K fuel s Hcap), ?(CursorThread_ends K fuel s Hcap);
    cbn [svc shm world]; rewrite ?Hcap; reflexivity.
Qed.

End Joining.

(** * The claims *)

(** C1 (the code departs from it): the producer is to leave the slot that
    the frame descriptor advertises alone while UPDATE is set.  On the run
    new frame, repeated frame, new frame, the three cycles return [true], the
    consumer never raises RESTART, and in the third cycle [GetFrame] is
    handed the very slot at [dataPos] while the UPDATE of the repeated frame
    is still set: the rewound index was never advanced again. *)
Theorem C1_new_frame_after_repeat_overwrites_advertised_slot :
  exists s' log,
    three_cycles example_headers 5 repeat_then_new
    = Some ((true, true, true), s', log) /\
    existsb (overwrites_advertised (m_memory (svc repeat_then_new))) log = true /\
    forallb (fun e => negb (is_set KVMFR_HEADER_FLAG_RESTART
                              (read_loc HeaderFlags (before e)))) log = true.
Proof.
  eexists; eexists. split; [vm_compute; reflexivity |].
  split; vm_compute; reflexivity.
Qed.

(** C2 as stated fails: with the previous frame unacknowledged and the
    consumer raising RESTART, the publication is not abandoned. *)
Lemma C2_restart_does_not_abort_publication :
  ~ (forall (W : Type) (P : Platform W) (K : Headers) (fuel : nat) (rep : bool)
            (s : Sys W),
        blocked (shm s) ->
        (rep = false -> fst (frame_got s) = GRAB_STATUS_OK) ->
        fst (consumer (world_at_wait rep s)) = CRestart ->
        forall r s' log,
          publish_frame K (S fuel) rep s = Some (r, s', log) ->
          publication_aborted log).
Proof.
  intros Hclaim.
  destruct (Hclaim Script Script_Platform example_headers 4%nat false
              restart_while_blocked) with
    (r := @None bool)
    (s' := match publish_frame example_headers 5 false restart_while_blocked with
           | Some (_, s', _) => s'
           | None => restart_while_blocked
           end)
    (log := log_of (publish_frame example_headers 5 false restart_while_blocked))
    as [Hflags _].
  - split; reflexivity.
  - reflexivity.
  - reflexivity.
  - vm_compute. reflexivity.
  - vm_compute in Hflags. discriminate Hflags.
Qed.

(** C2, amended: when the producer is blocked in the busy-wait of a
    publication because UPDATE is set, and the consumer raises RESTART, the
    wait ends and the publication goes through as usual: the descriptor
    fields of a new frame are written and UPDATE is set (again). *)
Theorem C2_restart_unblocks_and_publication_proceeds
  {W : Type} {P : Platform W} (K : Headers) (fuel : nat) (rep : bool) (s : Sys W) :
  blocked (shm s) ->
  (rep = false -> fst (frame_got s) = GRAB_STATUS_OK) ->
  fst (consumer (world_at_wait rep s)) = CRestart ->
  exists s' log,
    publish_frame K (S fuel) rep s = Some (None, s', log) /\
    published_despite_restart rep s s' log.
Proof.
  intros Hblocked Hgot Hact.
  destruct (twp_elim _ _ _ (publish_despite_restart K fuel rep s Hblocked Hgot Hact))
    as (r & s' & log & Hrun & -> & Hpub).
  exists s', log. split; assumption.
Qed.

Lemma C2_restart_unblocks_witness :
  exists s' log,
    publish_frame example_headers 5 false restart_while_blocked = Some (None, s', log) /\
    published_despite_restart false restart_while_blocked s' log.
Proof.
  apply (C2_restart_unblocks_and_publication_proceeds example_headers 4 false
           restart_while_blocked).
  - split; reflexivity.
  - reflexivity.
  - reflexivity.
Defined.

(** C3 as stated fails twice over: a region that holds the header but not
    the cursor area gets a cursor area outside of it, and a base address that
    is not a multiple of 128 gets offsets that are not. *)
Lemma C3_layout_fails_outside_preconditions :
  ~ (forall (K : Headers) (base size : Z),
        Headers_ok K = true -> 0 <= base -> base + size < 2 ^ 64 ->
        sizeof_KVMFRHeader K <= size ->
        exists sv, pointers_of K base size = Some sv /\ layout_ok K size sv)
  /\
  ~ (forall (K : Headers) (base size : Z),
        Headers_ok K = true -> 0 <= base -> base + size < 2 ^ 64 ->
        sizeof_KVMFRHeader K + 2097152 <= size ->
        exists sv, pointers_of K base size = Some sv /\ layout_ok K size sv).
Proof.
  split; intros Hclaim.
  - destruct (Hclaim example_headers 65536 96) as (sv & Hsv & Hlayout);
      try (vm_compute; congruence).
    vm_compute in Hsv. injection Hsv as <-.
    destruct Hlayout as (_ & _ & _ & _ & _ & _ & _ & [_ Hin] & _).
    vm_compute in Hin. apply Hin. reflexivity.
  - destruct (Hclaim example_headers 1 67108864) as (sv & Hsv & Hlayout);
      try (vm_compute; congruence).
    vm_compute in Hsv. injection Hsv as <-.
    destruct Hlayout as (Hcursor & _).
    vm_compute in Hcursor. discriminate Hcursor.
Qed.

(** C3, amended: for every base address that is a multiple of 128 and every
    total size that reaches the start of the frame ring (the header rounded
    up to 128 bytes, plus the 1 MiB cursor area), the region being
    addressable in 64 bits, [InitPointers] places the cursor area and each of
    the MAX_FRAMES slots at offsets that are multiples of 128, with the slot
    size align_down((size - offset of the ring) / MAX_FRAMES, 128), and the
    header, the cursor area and the slots are pairwise disjoint and lie
    within the region. *)
Theorem C3_layout_of_aligned_region
  {W : Type} {P : Platform W} (K : Headers) (s : Sys W) :
  Headers_ok K = true ->
  0 <= m_memory (svc s) ->
  m_memory (svc s) mod 128 = 0 ->
  m_memory (svc s) + ivshmem_GetSize (world s) < 2 ^ 64 ->
  ring_offset K <= ivshmem_GetSize (world s) ->
  exists s' log,
    InitPointers K s = Some (true, s', log) /\
    layout_ok K (ivshmem_GetSize (world s)) (svc s').
Proof.
  intros Hok Hbase Haligned Haddr Hroom.
  eapply layout_of_aligned_region; eauto.
Qed.

Lemma C3_layout_witness :
  exists s' log,
    InitPointers example_headers
      (with_svc (set_memory 65536)
         (Build_Sys new_Service zero_Shm example_script))
    = Some (true, s', log) /\
    layout_ok example_headers 67108864 (svc s').
Proof.
  refine (C3_layout_of_aligned_region example_headers
            (with_svc (set_memory 65536)
               (Build_Sys new_Service zero_Shm example_script)) _ _ _ _ _);
    vm_compute; congruence.
Defined.

(** C4: in every cycle at most 2 capture attempts use up the retry budget,
    counting the results Ok, CursorOnly and Error; after an attempt that
    ended in ReinitRequested, or in Timeout with no frame published before,
    the loop goes on at the counter it had (unless the reinitialization
    failed the cycle); and a loop whose counter has reached 2 ends, the cycle
    returning [false] when it ends without [ok]. *)
Theorem C4_capture_retry_budget
  {W : Type} {P : Platform W} (K : Headers) (fuel : nat) (s : Sys W)
  (r : bool) (s' : Sys W) (log : list Event) :
  Process K fuel s = Some (r, s', log) ->
  (budget_consumed log <= 2)%nat /\
  (forall fuel' n i v s0 e s1 l,
      i < 2 ->
      refunded (m_haveFrame (svc s0)) (fst (capture_Capture (world s0))) = true ->
      capture_loop K (S fuel') n i v s0 = Some (e, s1, l) ->
      e = LoopReturn false \/
      exists s2 l1 l2,
        capture_loop K fuel' n i v s2 = Some (e, s1, l2) /\ l = l1 ++ l2 /\
        budget_consumed l1 = 0%nat) /\
  (forall fuel' n v s0,
      ok v = false ->
      capture_loop K fuel' n 2 v s0 = Some (LoopDone v, s0, []) /\
      exists l, after_capture K fuel' (LoopDone v) s0 = Some (false, s0, l)).
Proof.
  intros Hrun. split; [| split].
  - exact (wp_elim _ _ _ _ _ _ (Process_budget K fuel s) Hrun).
  - intros fuel' n i v s0 e s1 l Hi Href Hloop.
    exact (wp_elim _ _ _ _ _ _ (capture_loop_refund K fuel' n i v s0 Hi Href) Hloop).
  - intros fuel' n v s0 Hok. apply budget_exhausted, Hok.
Qed.

Lemma C4_capture_retry_budget_witness :
  exists s' log,
    Process example_headers 5 slow_start = Some (true, s', log) /\
    (budget_consumed log <= 2)%nat.
Proof.
  eexists; eexists. split; [vm_compute; reflexivity |].
  refine (proj1 (C4_capture_retry_budget example_headers 5 slow_start true _ _ _)).
  vm_compute; reflexivity.
Defined.

(** C5: how a cycle moves the ring index.  In every cycle that returns, the
    index advances by one modulo MAX_FRAMES only if a new [dataPos] is
    stored, and stays within the ring.  In a repeated cycle, where
    [Capture()] reports a timeout while [m_haveFrame] is set, a cycle that
    returns has rewound the index by exactly one modulo MAX_FRAMES, index 0
    going to MAX_FRAMES - 1 and the index after slot [j] going back to [j];
    [dataPos] is as it was, on the slot published last, and no frame is
    fetched or described; and the cycle does return, with [true], once the
    hand-shake with the consumer ends.  In a cycle whose [Capture()] and
    [GetFrame()] succeed, the index advances by one modulo MAX_FRAMES past
    the slot that [dataPos] is set to, and the cycle returns likewise. *)
Theorem C5_frame_index_steps
  {W : Type} {P : Platform W} (K : Headers) (fuel : nat) (s : Sys W) :
  Headers_ok K = true ->
  0 <= m_frameIndex (svc s) < MAX_FRAMES K ->
  (forall r s' log,
     Process K fuel s = Some (r, s', log) ->
     index_step K s s' log /\ 0 <= m_frameIndex (svc s') < MAX_FRAMES K) /\
  (forall s1,
     repeated_cycle s s1 ->
     (forall r s' log,
        Process K fuel s = Some (r, s', log) ->
        r = true /\ index_rewound K s s' log) /\
     (handshake_ends fuel (after_Capture s1) ->
      exists s' log, Process K fuel s = Some (true, s', log))) /\
  (forall s1,
     new_frame_cycle s s1 ->
     (forall r s' log,
        Process K fuel s = Some (r, s', log) ->
        r = true /\ index_advanced K s s' log) /\
     (handshake_ends fuel (after_GetFrame (after_Capture s1)) ->
      exists s' log, Process K fuel s = Some (true, s', log))).
Proof.
  intros Hok Hi. destruct (Headers_ok_frames K Hok) as [Hn _].
  split; [| split].
  - intros r s' log Hrun.
    pose proof (wp_elim _ _ _ _ _ _ (Process_index K fuel s Hn Hi) Hrun) as Hstep.
    split; [exact Hstep |].
    unfold index_step in Hstep.
    destruct (stores_to FrameDataPos log); [| destruct (stores_to FrameFlags log)].
    + destruct Hstep as (-> & _). apply Z.mod_pos_bound, Hn.
    + destruct Hstep as (-> & _). apply Z.mod_pos_bound, Hn.
    + rewrite Hstep. exact Hi.
  - intros s1 (Hstart & Hcap & Hhave).
    destruct (cycle_starts_keeps s s1 Hstart) as (l1 & Hsr & Hsvc & Hpos & Hst & Hnd).
    pose proof (Process_from_capture K fuel s s1 l1 (proj1 Hstart) Hsr) as Hfrom.
    split.
    + intros r s' log Hrun. rewrite Hfrom in Hrun.
      assert (Hi1 : 0 <= m_frameIndex (svc s1) < MAX_FRAMES K) by (rewrite Hsvc; exact Hi).
      pose proof (repeat_from_capture K fuel s1 Hn Hi1 Hcap Hhave) as Hwp.
      unfold wp in Hwp.
      destruct ((exit <- capture_loop K fuel fuel 0 no_locals ;;
                 after_capture K fuel exit) s1) as [[[r0 s0] l0] |];
        [| discriminate Hrun].
      injection Hrun as <- <- <-.
      destruct Hwp as (-> & Hidx & Hdp & Hst0 & Hnd0 & Hhf).
      rewrite Hsvc in Hidx. split; [reflexivity |].
      unfold index_rewound. rewrite Hidx.
      split; [reflexivity |].
      split; [intros E; rewrite E; rewrite <- (rewind_mod K 0) by lia; reflexivity |].
      split.
      { intros j Hj E. rewrite E, Zminus_mod_idemp_l.
        replace (j + 1 - 1) with j by lia. apply Z.mod_small, Hj. }
      split; [congruence |].
      split; [rewrite stores_to_app, Hst, Hst0; reflexivity |].
      split; [rewrite forallb_app, Hnd, Hnd0; reflexivity | exact Hhf].
    + intros [Hfuel Hend]. destruct fuel as [| fuel]; [inversion Hfuel |].
      pose proof (repeat_from_capture_returns K fuel s1 Hcap Hhave Hend) as Ht.
      apply twp_elim in Ht. destruct Ht as (r & s' & l & Hrun & ->).
      exists s', (l1 ++ l). rewrite Hfrom, Hrun. reflexivity.
  - intros s1 (Hstart & Hcap & Hget).
    destruct (cycle_starts_keeps s s1 Hstart) as (l1 & Hsr & Hsvc & Hpos & Hst & Hnd).
    pose proof (Process_from_capture K fuel s s1 l1 (proj1 Hstart) Hsr) as Hfrom.
    split.
    + intros r s' log Hrun. rewrite Hfrom in Hrun.
      assert (Hi1 : 0 <= m_frameIndex (svc s1) < MAX_FRAMES K) by (rewrite Hsvc; exact Hi).
      pose proof (new_frame_from_capture K fuel s1 Hn Hi1 Hcap Hget) as Hwp.
      unfold wp in Hwp.
      destruct ((exit <- capture_loop K fuel fuel 0 no_locals ;;
                 after_capture K fuel exit) s1) as [[[r0 s0] l0] |];
        [| discriminate Hrun].
      injection Hrun as <- <- <-.
      destruct Hwp as (-> & Hidx & Hdp & Hst0 & Hhf).
      rewrite Hsvc in Hidx, Hdp. split; [reflexivity |].
      unfold index_advanced. rewrite Hidx.
      split; [reflexivity |].
      split; [intros E; rewrite E; replace (MAX_FRAMES K - 1 + 1) with (MAX_FRAMES K) by lia;
              apply Z.mod_same; lia |].
      split; [exact Hdp |].
      split; [rewrite stores_to_app, Hst0; apply orb_true_r | exact Hhf].
    + intros [Hfuel Hend]. destruct fuel as [| fuel]; [inversion Hfuel |].
      pose proof (new_frame_from_capture_returns K fuel s1 Hcap Hget Hend) as Ht.
      apply twp_elim in Ht. destruct Ht as (r & s' & l & Hrun & ->).
      exists s', (l1 ++ l). rewrite Hfrom, Hrun. reflexivity.
Qed.

Lemma C5_frame_index_steps_witness :
  repeated_cycle (after_cycles 1 repeat_then_new) (after_cycles 1 repeat_then_new) /\
  is_set KVMFR_FRAME_FLAG_UPDATE
    (read_loc FrameFlags (shm (after_cycles 1 repeat_then_new))) = true /\
  m_frameIndex (svc (after_cycles 1 repeat_then_new)) = 1 /\
  exists s' log,
    Process example_headers 5 (after_cycles 1 repeat_then_new) = Some (true, s', log) /\
    index_rewound example_headers (after_cycles 1 repeat_then_new) s' log /\
    m_frameIndex (svc s') = 0.
Proof.
  assert (Hrep : repeated_cycle (after_cycles 1 repeat_then_new)
                   (after_cycles 1 repeat_then_new)).
  { split; [split; [vm_compute; reflexivity | eexists; vm_compute; reflexivity] |].
    split; vm_compute; reflexivity. }
  assert (Hend : handshake_ends 5 (after_Capture (after_cycles 1 repeat_then_new))).
  { split; [vm_compute; lia | vm_compute; discriminate]. }
  split; [exact Hrep |]. split; [vm_compute; reflexivity |].
  split; [vm_compute; reflexivity |].
  assert (Hok : Headers_ok example_headers = true) by (vm_compute; reflexivity).
  assert (Hi : 0 <= m_frameIndex (svc (after_cycles 1 repeat_then_new))
               < MAX_FRAMES example_headers) by (vm_compute; split; congruence).
  destruct (proj1 (proj2 (C5_frame_index_steps example_headers 5
                            (after_cycles 1 repeat_then_new) Hok Hi)) _ Hrep)
    as [Hpart Htot].
  destruct (Htot Hend) as (s' & log & Hrun).
  exists s', log. split; [exact Hrun |].
  destruct (Hpart _ _ _ Hrun) as [_ Hrew].
  split; [exact Hrew |].
  destruct Hrew as (Hidx & _). rewrite Hidx. vm_compute. reflexivity.
Defined.




(** C7: when the backend's maximum frame size exceeds the slot size that
    [InitPointers] computed, [Initialize] returns [false]; and in every
    cycle, each successful [ReInitialize] (for the consumer's RESTART and for
    the backend's ReinitRequested alike) is directly followed by the reading
    of the maximum frame size, and the cycle returns [false] whenever a value
    read exceeds the slot size. *)
Theorem C7_frame_size_validated
  {W : Type} {P : Platform W} (K : Headers) (fuel : nat) (s : Sys W) :
  (m_initialized (svc s) = false ->
   m_cursorThread (svc s) = false ->
   capture_GetMaxFrameSize (snd (ivshmem_Initialize (world s)))
   > init_frameSize K (ivshmem_GetMemory (snd (ivshmem_Initialize (world s))))
                      (ivshmem_GetSize (snd (ivshmem_Initialize (world s)))) ->
   exists s' log,
     Initialize K s = Some (false, s', log) /\ m_initialized (svc s') = false)
  /\
  (forall r s' log,
     Process K fuel s = Some (r, s', log) ->
     revalidated (actions log) = true /\
     forall mx, In (AMaxFrameSize mx) (actions log) ->
                mx > m_frameSize (svc s) -> r = false).
Proof.
  split.
  - apply Initialize_frames_too_large.
  - intros r s' log Hrun.
    destruct (wp_elim _ _ _ _ _ _ (Process_checked K fuel s) Hrun) as [Hclosed Hmax].
    split; [apply closed_revalidated, Hclosed | exact Hmax].
Qed.

Lemma C7_frame_size_validated_witness :
  (exists s' log,
     Initialize example_headers large_frames = Some (false, s', log) /\
     m_initialized (svc s') = false)
  /\
  (exists s' log,
     Process example_headers 5 mode_change = Some (false, s', log) /\
     revalidated (actions log) = true /\
     In (AMaxFrameSize 41943040) (actions log)).
Proof.
  split.
  - refine (proj1 (C7_frame_size_validated example_headers 5 large_frames) _ _ _);
      vm_compute; reflexivity.
  - eexists; eexists. split; [vm_compute; reflexivity |]. split.
    + refine (proj1 (proj2 (C7_frame_size_validated example_headers 5 mode_change)
                       false _ _ _)).
      vm_compute; reflexivity.
    + vm_compute. tauto.
Defined.

(** C8: for every shape update that the cursor publisher drains: if its data
    size is within the capacity of the cursor area, the version counter of
    the shared cursor descriptor goes up by exactly 1 (modulo its width); if
    the data size exceeds the capacity, the update is dropped with a
    diagnostic only, the version counter, the shape fields, the SHAPE bit and
    the cursor bytes are as they were, and a position update pending in the
    same drain is published all the same. *)
Theorem C8_shape_version
  {W : Type} {P : Platform W} (K : Headers) (s : Sys W) :
  Headers_ok K = true ->
  hasShape (m_cursorInfo (svc s)) = true ->
  exists s' log,
    publish_cursor K s = Some (tt, s', log) /\ shape_drained K s s' log.
Proof.
  intros Hok Hshape.
  destruct (twp_elim _ _ _ (publish_cursor_shape K Hok s Hshape))
    as ([] & s' & log & Hrun & Hdrained).
  exists s', log. split; assumption.
Qed.

Lemma C8_shape_version_witness :
  exists s' log,
    publish_cursor example_headers (stage_both moved_cursor huge_shape example_state)
    = Some (tt, s', log) /\
    shape_drained example_headers
      (stage_both moved_cursor huge_shape example_state) s' log.
Proof.
  refine (C8_shape_version example_headers
            (stage_both moved_cursor huge_shape example_state) _ _);
    vm_compute; reflexivity.
Defined.

(** C9 as stated fails: a position update and a shape update staged
    together are published in one turn, but when the shape exceeds the
    capacity of the cursor area that turn carries no SHAPE bit and does not
    touch the version counter. *)
Lemma C9_oversized_shape_is_not_published :
  ~ (forall (W : Type) (P : Platform W) (K : Headers) (fuel : nat) (s : Sys W)
            (c1 c2 : CursorInfo),
        Headers_ok K = true ->
        read_loc CursorFlags (shm s) = 0 ->
        updated c1 = true -> hasPos c1 = true ->
        updated c2 = true -> hasShape c2 = true ->
        exists s' log,
          CursorThread_turn K fuel (stage_both c1 c2 s) = Some (true, s', log) /\
          both_published K s s' true log).
Proof.
  intros Hclaim.
  destruct (Hclaim Script Script_Platform example_headers 1%nat example_state
              moved_cursor huge_shape) as (s' & log & Hrun & Hpub);
    try (vm_compute; reflexivity).
  vm_compute in Hrun. injection Hrun as <- <-.
  destruct Hpub as (_ & _ & Hshape & _).
  vm_compute in Hshape. discriminate Hshape.
Qed.

(** C9, amended: if a position update and a shape update whose data size is
    within the capacity of the cursor area are both staged before the cursor
    publisher drains either, then one turn of the publisher writes them to
    the region: it sets the POS and the SHAPE bit, stores the version counter
    once, one higher, and sets the UPDATE bit with its last store, the bit
    being clear before every action of the turn; nothing stays staged, and
    the following turns write nothing. *)
Theorem C9_double_update_published_once
  {W : Type} {P : Platform W} (K : Headers) (fuel : nat) (s : Sys W)
  (c1 c2 : CursorInfo) :
  Headers_ok K = true ->
  read_loc CursorFlags (shm s) = 0 ->
  updated c1 = true -> hasPos c1 = true ->
  updated c2 = true -> hasShape c2 = true ->
  dataSize c2 <= m_cursorDataSize (svc s) ->
  exists s' log,
    CursorThread_turn K fuel (stage_both c1 c2 s) = Some (true, s', log) /\
    both_published K s s' true log /\
    forall fuel', CursorThread_turn K fuel' s' = Some (true, s', []).
Proof.
  intros Hok Hfree Hu1 Hp1 Hu2 Hs2 Hfit.
  destruct (stage_both_state c1 c2 s Hu1 Hp1 Hu2 Hs2)
    as (Hshm & Hev & Hpos & Hshape & Hsize & Hcap).
  assert (Hturn := turn_publishes_both K Hok fuel (stage_both c1 c2 s) Hev).
  rewrite Hshm, Hsize, Hcap in Hturn.
  specialize (Hturn Hfree Hpos Hshape Hfit).
  destruct (twp_elim _ _ _ Hturn) as (r & s' & log & Hrun & Hpub).
  pose proof Hpub as (-> & _).
  exists s', log. split; [exact Hrun |]. split.
  - unfold both_published in *. rewrite Hshm in Hpub. exact Hpub.
  - intros fuel'. apply turn_idle.
    destruct Hpub as (_ & _ & _ & _ & _ & _ & _ & _ & _ & Hev'). exact Hev'.
Qed.

Lemma C9_double_update_witness :
  exists s' log,
    CursorThread_turn example_headers 1
      (stage_both moved_cursor small_shape example_state) = Some (true, s', log) /\
    both_published example_headers example_state s' true log /\
    forall fuel', CursorThread_turn example_headers fuel' s' = Some (true, s', []).
Proof.
  refine (C9_double_update_published_once example_headers 1 example_state
            moved_cursor small_shape _ _ _ _ _ _ _);
    vm_compute; congruence.
Defined.

(** C10 (the code departs from it): a cycle that returns [true] is to end
    with the update that clears every global flag but RESTART.  With a
    capture that succeeds and a [GetFrame] that reports an error, [Process]
    returns the status as its [bool], which is [true]; the update of the
    flags is not reached and PAUSED stays set. *)
Theorem C10_failed_GetFrame_returns_true_with_flags_untouched :
  exists s' log,
    Process example_headers 5 failed_frame = Some (true, s', log) /\
    read_loc HeaderFlags (shm s') = KVMFR_HEADER_FLAG_PAUSED /\
    existsb (fun e => match action e with
                      | AAtomicAnd HeaderFlags _ => true
                      | _ => false
                      end) log = false.
Proof.
  eexists; eexists. split; [vm_compute; reflexivity |].
  split; vm_compute; reflexivity.
Qed.

(** * Further properties of the cycle *)

(** In every cycle, each store to a field of the frame descriptor (the
    payload fields and the flags alike) is made in a state in which the
    descriptor's UPDATE bit is clear or the global RESTART bit is raised: the
    descriptor is written only after the hand-shake ended. *)
Theorem Process_writes_descriptor_after_release
  {W : Type} {P : Platform W} (K : Headers) (fuel : nat) (s : Sys W)
  (r : bool) (s' : Sys W) (log : list Event) :
  Process K fuel s = Some (r, s', log) ->
  released_at_stores log = true.
Proof.
  intros Hrun. exact (wp_elim _ _ _ _ _ _ (Process_released K fuel s) Hrun).
Qed.

Lemma Process_writes_descriptor_after_release_witness :
  exists s' log,
    Process example_headers 5 (after_cycles 1 repeat_then_new) = Some (true, s', log) /\
    stores_to FrameFlags log = true /\
    released_at_stores log = true.
Proof.
  eexists; eexists. split; [vm_compute; reflexivity |].
  split; [vm_compute; reflexivity |].
  refine (Process_writes_descriptor_after_release example_headers 5
            (after_cycles 1 repeat_then_new) true _ _ _).
  vm_compute; reflexivity.
Defined.

(** A cycle that returns [true] ended in one of two ways: with the atomic
    update that leaves of the global flags the RESTART bit only, or with the
    call of [GetFrame] whose status it returned. *)
Theorem Process_true_ends_with_update_or_GetFrame
  {W : Type} {P : Platform W} (K : Headers) (fuel : nat) (s : Sys W)
  (s' : Sys W) (log : list Event) :
  Process K fuel s = Some (true, s', log) ->
  ends_with_flag_update s' log \/ ends_with_GetFrame log.
Proof.
  intros Hrun.
  exact (wp_elim _ _ _ _ _ _ (Process_success_end K fuel s) Hrun eq_refl).
Qed.

Lemma Process_true_ends_witness :
  exists s' log,
    Process example_headers 5 repeat_then_new = Some (true, s', log) /\
    (ends_with_flag_update s' log \/ ends_with_GetFrame log).
Proof.
  eexists; eexists. split; [vm_compute; reflexivity |].
  refine (Process_true_ends_with_update_or_GetFrame example_headers 5
            repeat_then_new _ _ _).
  vm_compute; reflexivity.
Defined.

(** Whatever values the enumerators of [GrabStatus] have, as long as they
    are pairwise different, some status other than GRAB_STATUS_OK converts to
    [true] in [return result;]. *)
Theorem some_failed_status_converts_to_true (K : Headers) :
  Headers_ok K = true ->
  exists st, st <> GRAB_STATUS_OK /\ GrabStatus_to_bool K st = true.
Proof. apply failed_status_true. Qed.

Lemma some_failed_status_witness :
  exists st, st <> GRAB_STATUS_OK /\ GrabStatus_to_bool example_headers st = true.
Proof.
  apply (some_failed_status_converts_to_true example_headers).
  vm_compute; reflexivity.
Defined.

(** * Further properties of the service *)

(** [Initialize] on a service that is not initialized returns, and it
    returns [true] exactly when the device opens, its region is no smaller
    than the header, the mapping is not [NULL] and the largest frame of the
    backend fits the slot size computed; when it returns [false] the region
    was not accessed and is as it was, and the service holds no pointer and
    no backend. *)
Theorem Initialize_returns_what_it_accepts
  {W : Type} {P : Platform W} (K : Headers) (s : Sys W) :
  m_initialized (svc s) = false ->
  m_cursorThread (svc s) = false ->
  exists r s' log,
    Initialize K s = Some (r, s', log) /\
    r = Initialize_accepts K (world s) /\
    (r = false -> Initialize_failed K s s' log).
Proof.
  intros Hini Hthr.
  destruct (twp_elim _ _ _ (Initialize_outcome K s Hini Hthr))
    as (r & s' & log & Hrun & Hacc & Hpost).
  exists r, s', log. split; [exact Hrun |]. split; [exact Hacc |].
  intros ->. exact Hpost.
Qed.

Lemma Initialize_returns_what_it_accepts_witness :
  exists r s' log,
    Initialize example_headers unmapped_device = Some (r, s', log) /\
    r = Initialize_accepts example_headers (world unmapped_device) /\
    (r = false -> Initialize_failed example_headers unmapped_device s' log).
Proof.
  refine (Initialize_returns_what_it_accepts example_headers unmapped_device _ _);
    vm_compute; reflexivity.
Defined.

(** A successful [Initialize] stamps magic and version, zeroes the frame
    and the cursor descriptor, clears RESTART and leaves the other global
    flags, leaves the cursor area alone, and leaves the service initialized
    with a cursor thread, no frame published, the ring index as it was and
    the pointers that [InitPointers] computes from the mapping. *)
Theorem Initialize_success_state
  {W : Type} {P : Platform W} (K : Headers) (s s' : Sys W) (log : list Event) :
  m_initialized (svc s) = false ->
  m_cursorThread (svc s) = false ->
  Initialize K s = Some (true, s', log) ->
  Initialize_done K s s'.
Proof.
  intros Hini Hthr Hrun.
  destruct (twp_elim _ _ _ (Initialize_outcome K s Hini Hthr))
    as (r & s1 & l1 & Hrun1 & _ & Hpost).
  rewrite Hrun in Hrun1. inversion Hrun1; subst r s1 l1. exact Hpost.
Qed.

Lemma Initialize_success_state_witness :
  exists s' log,
    Initialize example_headers stale_region = Some (true, s', log) /\
    Initialize_done example_headers stale_region s' /\
    read_loc HeaderFlags (shm s') = KVMFR_HEADER_FLAG_PAUSED.
Proof.
  eexists; eexists. split; [vm_compute; reflexivity |].
  split; [| vm_compute; reflexivity].
  refine (Initialize_success_state example_headers stale_region _ _ _ _ _);
    vm_compute; reflexivity.
Defined.

(** After a successful [Initialize] on a region mapped at a multiple of 128
    that reaches the frame ring, whatever cycles of [Process] and turns of
    the cursor thread follow (taken one whole cycle or turn at a time): every
    frame is handed to the backend in one of the MAX_FRAMES slots, with the
    slot size as its capacity, and ends within the region; and no cursor
    shape of more than the 1 MiB of the cursor area is copied. *)
Theorem bulk_data_stays_within_region
  {W : Type} {P : Platform W} (K : Headers) (s0 s1 s2 : Sys W)
  (log0 log : list Event) (fuel : nat) (cs : list Call) :
  Headers_ok K = true ->
  m_initialized (svc s0) = false ->
  m_cursorThread (svc s0) = false ->
  0 <= m_frameIndex (svc s0) < MAX_FRAMES K ->
  0 <= ivshmem_GetMemory (snd (ivshmem_Initialize (world s0))) ->
  ivshmem_GetMemory (snd (ivshmem_Initialize (world s0))) mod 128 = 0 ->
  ivshmem_GetMemory (snd (ivshmem_Initialize (world s0)))
  + ivshmem_GetSize (snd (ivshmem_Initialize (world s0))) < 2 ^ 64 ->
  ring_offset K <= ivshmem_GetSize (snd (ivshmem_Initialize (world s0))) ->
  Initialize K s0 = Some (true, s1, log0) ->
  perform_all K fuel cs s1 = Some (tt, s2, log) ->
  Forall (fun e =>
            data_within K (ivshmem_GetMemory (snd (ivshmem_Initialize (world s0))))
              (ivshmem_GetSize (snd (ivshmem_Initialize (world s0)))) (action e)) log.
Proof.
  intros Hok Hini Hthr Hi Hbase Halign Haddr Hroom Hrun0 Hrun.
  assert (Hm : mapped K (ivshmem_GetMemory (snd (ivshmem_Initialize (world s0))))
                 (ivshmem_GetSize (snd (ivshmem_Initialize (world s0)))) (svc s1)).
  { eapply Initialize_mapped; eauto. }
  assert (Hwp : wp (perform_all K fuel cs) s1
                  (fun _ s' l =>
                     mapped K (ivshmem_GetMemory (snd (ivshmem_Initialize (world s0))))
                       (ivshmem_GetSize (snd (ivshmem_Initialize (world s0)))) (svc s') /\
                     Forall (fun e =>
                       data_within K (ivshmem_GetMemory (snd (ivshmem_Initialize (world s0))))
                         (ivshmem_GetSize (snd (ivshmem_Initialize (world s0))))
                         (action e)) l)).
  { eapply perform_all_within; eauto. }
  exact (proj2 (wp_elim _ _ _ _ _ _ Hwp Hrun)).
Qed.

Lemma bulk_data_stays_within_region_witness :
  exists s1 log0 s2 log,
    Initialize example_headers busy_device = Some (true, s1, log0) /\
    perform_all example_headers 5 busy_calls s1 = Some (tt, s2, log) /\
    existsb (fun e => negb (no_data e)) log = true /\
    Forall (fun e => data_within example_headers 65536 67108864 (action e)) log.
Proof.
  eexists; eexists; eexists; eexists.
  split; [vm_compute; reflexivity |].
  split; [vm_compute; reflexivity |].
  split; [vm_compute; reflexivity |].
  refine (bulk_data_stays_within_region example_headers busy_device _ _ _ _ 5 busy_calls
            _ _ _ _ _ _ _ _ _ _).
  all: try (vm_compute; reflexivity).
  all: vm_compute; try split; congruence.
Defined.

(** From the constructor on, whatever calls of [Initialize], [DeInitialize]
    and [Process] and turns of the cursor thread follow: the ring index is
    within the ring; a service that is initialized holds the backend, a
    cursor thread and the pointers that [InitPointers] computes from its
    mapping; one that is not holds no pointer, no backend and no thread. *)
Theorem constructed_service_keeps_invariant
  {W : Type} {P : Platform W} (K : Headers) (fuel : nat) (cs : list Call)
  (s s' : Sys W) (log : list Event) :
  Headers_ok K = true ->
  (Service_Service ;; perform_all K fuel cs) s = Some (tt, s', log) ->
  Service_inv K (svc s').
Proof.
  intros Hok Hrun. destruct (Headers_ok_frames K Hok) as [Hn _].
  exact (wp_elim _ _ _ _ _ _ (constructed_inv K Hn fuel cs s) Hrun).
Qed.

Lemma constructed_service_keeps_invariant_witness :
  exists s' log,
    (Service_Service ;; perform_all example_headers 5 life_calls)
      (Build_Sys raw_storage zero_Shm (world first_frame))
    = Some (tt, s', log) /\
    m_initialized (svc s') = true /\
    Service_inv example_headers (svc s').
Proof.
  eexists; eexists. split; [vm_compute; reflexivity |].
  split; [vm_compute; reflexivity |].
  refine (constructed_service_keeps_invariant example_headers 5 life_calls
            (Build_Sys raw_storage zero_Shm (world first_frame)) _ _ _ _);
    vm_compute; reflexivity.
Defined.

(** A cycle on an initialized service, with RESTART and the frame's UPDATE
    clear, whose [Capture] and [GetFrame] both return GRAB_STATUS_OK: it
    returns [true]; the frame descriptor holds the type, width, height,
    stride and pitch of the captured frame and the offset of the slot it was
    captured into, with UPDATE set; the global flags are zero; the cursor
    channel of the region is untouched; the ring index has advanced by one
    modulo MAX_FRAMES; and the backend's cursor is staged if it is flagged
    updated. *)
Theorem Process_publishes_captured_frame
  {W : Type} {P : Platform W} (K : Headers) (fuel : nat) (s : Sys W) :
  Headers_ok K = true ->
  0 <= m_frameIndex (svc s) < MAX_FRAMES K ->
  m_initialized (svc s) = true ->
  is_set KVMFR_HEADER_FLAG_RESTART (read_loc HeaderFlags (shm s)) = false ->
  is_set KVMFR_FRAME_FLAG_UPDATE (read_loc FrameFlags (shm s)) = false ->
  fst (capture_Capture (world s)) = GRAB_STATUS_OK ->
  fst (frame_got (after_Capture s)) = GRAB_STATUS_OK ->
  exists s' log,
    Process K (S fuel) s = Some (true, s', log) /\
    world s' = world_at_wait false (after_Capture s) /\
    frame_published K s s' (snd (frame_got (after_Capture s)))
      (capture_GetFrameType (world s')) /\
    cursor_staged (capture_GetCursor (world (after_Capture s))) s s'.
Proof.
  intros Hok Hi Hini Hre Hup Hcap Hget. destruct (Headers_ok_frames K Hok) as [Hn _].
  destruct (twp_elim _ _ _ (Process_new_frame K fuel s Hn Hi Hini Hre Hup Hcap Hget))
    as (r & s' & log & Hrun & -> & Hpost).
  exists s', log. split; [exact Hrun | exact Hpost].
Qed.

Lemma Process_publishes_captured_frame_witness :
  exists s' log,
    Process example_headers 5 first_frame = Some (true, s', log) /\
    world s' = world_at_wait false (after_Capture first_frame) /\
    frame_published example_headers first_frame s'
      (snd (frame_got (after_Capture first_frame)))
      (capture_GetFrameType (world s')) /\
    cursor_staged (capture_GetCursor (world (after_Capture first_frame))) first_frame s'.
Proof.
  refine (Process_publishes_captured_frame example_headers 4 first_frame _ _ _ _ _ _ _).
  all: try (vm_compute; reflexivity).
  vm_compute. split; congruence.
Defined.

(** A cycle that returns [false] has changed nothing of the region but,
    at most, the global flags byte, and has left the ring index and the
    memory of a published frame as they were. *)
Theorem failed_Process_leaves_frame_channel
  {W : Type} {P : Platform W} (K : Headers) (fuel : nat) (s s' : Sys W)
  (log : list Event) :
  Process K fuel s = Some (false, s', log) ->
  only_flags_changed (shm s) (shm s') /\
  m_frameIndex (svc s') = m_frameIndex (svc s) /\
  m_haveFrame (svc s') = m_haveFrame (svc s).
Proof.
  intros Hrun.
  exact (wp_elim _ _ _ _ _ _ (Process_failure K fuel s) Hrun eq_refl).
Qed.

Lemma failed_Process_leaves_frame_channel_witness :
  exists s' log,
    Process example_headers 5 mode_change = Some (false, s', log) /\
    only_flags_changed (shm mode_change) (shm s') /\
    m_frameIndex (svc s') = m_frameIndex (svc mode_change) /\
    m_haveFrame (svc s') = m_haveFrame (svc mode_change).
Proof.
  eexists; eexists. split; [vm_compute; reflexivity |].
  refine (failed_Process_leaves_frame_channel example_headers 5 mode_change _ _ _).
  vm_compute; reflexivity.
Defined.

(** The two producers keep to their channels.  A cycle of [Process]
    accesses, of the region, the global flags byte, the fields of the frame
    descriptor and the frame slots only; a turn of the cursor thread the
    fields of the cursor descriptor and the cursor area only.  Neither zeroes
    a descriptor or touches magic and version. *)
Theorem producers_keep_to_their_channels
  {W : Type} {P : Platform W} (K : Headers) (fuel : nat) (s : Sys W) :
  (forall r s' log,
     Process K fuel s = Some (r, s', log) -> forallb frame_channel log = true) /\
  (forall r s' log,
     CursorThread_turn K fuel s = Some (r, s', log) ->
     forallb cursor_channel log = true).
Proof.
  split; intros r s' log Hrun.
  - exact (wp_elim _ _ _ _ _ _ (Process_channel K fuel s) Hrun).
  - exact (wp_elim _ _ _ _ _ _ (CursorThread_turn_channel K fuel s) Hrun).
Qed.

Lemma producers_keep_to_their_channels_witness :
  (exists s' log,
     Process example_headers 5 first_frame = Some (true, s', log) /\
     forallb frame_channel log = true) /\
  (exists s' log,
     CursorThread_turn example_headers 5
       (stage_both moved_cursor small_shape example_state) = Some (true, s', log) /\
     forallb cursor_channel log = true).
Proof.
  split; eexists; eexists; (split; [vm_compute; reflexivity |]).
  - refine (proj1 (producers_keep_to_their_channels example_headers 5 first_frame)
              true _ _ _).
    vm_compute; reflexivity.
  - refine (proj2 (producers_keep_to_their_channels example_headers 5
                     (stage_both moved_cursor small_shape example_state))
              true _ _ _).
    vm_compute; reflexivity.
Defined.

(** A restart that the consumer asked for and that fails, the backend not
    reinitializing or its largest frame no longer fitting a slot: the cycle
    returns [false] without a capture, and the region is as it was, RESTART
    still set. *)
Theorem failed_restart_stays_requested
  {W : Type} {P : Platform W} (K : Headers) (fuel : nat) (s : Sys W) :
  m_initialized (svc s) = true ->
  is_set KVMFR_HEADER_FLAG_RESTART (read_loc HeaderFlags (shm s)) = true ->
  fst (capture_ReInitialize (world s)) = false \/
  capture_GetMaxFrameSize (snd (capture_ReInitialize (world s))) > m_frameSize (svc s) ->
  exists s' log,
    Process K fuel s = Some (false, s', log) /\
    svc s' = svc s /\ shm s' = shm s /\ forallb no_capture log = true.
Proof.
  intros Hini Hre Hfail.
  destruct (twp_elim _ _ _ (Process_restart_failed K fuel s Hini Hre Hfail))
    as (r & s' & log & Hrun & -> & Hpost).
  exists s', log. split; [exact Hrun | exact Hpost].
Qed.

Lemma failed_restart_stays_requested_witness :
  exists s' log,
    Process example_headers 5 restart_fails = Some (false, s', log) /\
    svc s' = svc restart_fails /\ shm s' = shm restart_fails /\
    forallb no_capture log = true.
Proof.
  refine (failed_restart_stays_requested example_headers 5 restart_fails _ _ _).
  - vm_compute; reflexivity.
  - vm_compute; reflexivity.
  - left. vm_compute; reflexivity.
Defined.

(** A restart that the consumer asked for and that goes through: before any
    capture, RESTART is cleared and the other global flags and the rest of
    the region are left as they were. *)
Theorem restart_is_acknowledged
  {W : Type} {P : Platform W} (s : Sys W) :
  is_set KVMFR_HEADER_FLAG_RESTART (read_loc HeaderFlags (shm s)) = true ->
  fst (capture_ReInitialize (world s)) = true ->
  capture_GetMaxFrameSize (snd (capture_ReInitialize (world s))) <= m_frameSize (svc s) ->
  exists s' log,
    service_restart s = Some (true, s', log) /\
    svc s' = svc s /\
    only_flags_changed (shm s) (shm s') /\
    is_set KVMFR_HEADER_FLAG_RESTART (read_loc HeaderFlags (shm s')) = false /\
    (forall b, 1 <= b < 8 ->
       Z.testbit (read_loc HeaderFlags (shm s')) b
       = Z.testbit (read_loc HeaderFlags (shm s)) b) /\
    forallb no_capture log = true.
Proof.
  intros Hre Hr Hfit.
  destruct (twp_elim _ _ _ (service_restart_done s Hre Hr Hfit))
    as (r & s' & log & Hrun & -> & Hpost).
  exists s', log. split; [exact Hrun | exact Hpost].
Qed.

Lemma restart_is_acknowledged_witness :
  exists s' log,
    service_restart restart_works = Some (true, s', log) /\
    svc s' = svc restart_works /\
    only_flags_changed (shm restart_works) (shm s') /\
    is_set KVMFR_HEADER_FLAG_RESTART (read_loc HeaderFlags (shm s')) = false /\
    (forall b, 1 <= b < 8 ->
       Z.testbit (read_loc HeaderFlags (shm s')) b
       = Z.testbit (read_loc HeaderFlags (shm restart_works)) b) /\
    forallb no_capture log = true.
Proof.
  refine (restart_is_acknowledged restart_works _ _ _).
  - vm_compute; reflexivity.
  - vm_compute; reflexivity.
  - vm_compute; congruence.
Defined.

(** In the capture loop every [ReInitialize] of the backend runs with
    PAUSED set in the global flags; and when the loop is left by [return]
    after a capture that asked for a reinitialization, PAUSED is still
    set. *)
Theorem reinitialization_runs_paused
  {W : Type} {P : Platform W} (K : Headers) (fuel n : nat) (i : Z) (v : Locals)
  (s : Sys W) (e : LoopExit) (s1 : Sys W) (l : list Event) :
  capture_loop K fuel n i v s = Some (e, s1, l) ->
  loop_paused e s1 l.
Proof.
  intros Hrun. exact (wp_elim _ _ _ _ _ _ (capture_loop_paused K fuel n i v s) Hrun).
Qed.

Lemma reinitialization_runs_paused_witness :
  exists s1 l,
    capture_loop example_headers 5 5 0 no_locals reinit_fails
    = Some (LoopReturn false, s1, l) /\
    paused (shm s1) = true /\
    loop_paused (LoopReturn false) s1 l.
Proof.
  eexists; eexists. split; [vm_compute; reflexivity |].
  split; [vm_compute; reflexivity |].
  refine (reinitialization_runs_paused example_headers 5 5 0 no_locals reinit_fails
            _ _ _ _).
  vm_compute; reflexivity.
Defined.

(** A turn of the cursor thread that finds the event signalled and the
    cursor flags zero returns [true] and leaves: UPDATE set; POS set exactly
    when a position was staged, and then x and y written; VISIBLE set exactly
    when a position was staged with the cursor visible; SHAPE set exactly
    when a shape was staged that fits the cursor area; every other bit of the
    flags clear; without such a shape the shape fields and the cursor area as
    they were; nothing staged any more and the event reset. *)
Theorem cursor_turn_publishes_what_is_staged
  {W : Type} {P : Platform W} (K : Headers) (fuel : nat) (s : Sys W) :
  Headers_ok K = true ->
  m_cursorEvent (svc s) = true ->
  read_loc CursorFlags (shm s) = 0 ->
  exists s' log,
    CursorThread_turn K fuel s = Some (true, s', log) /\
    turn_published K s s'.
Proof.
  intros Hok Hev Hfree.
  destruct (twp_elim _ _ _ (CursorThread_turn_published K Hok fuel s Hev Hfree))
    as (r & s' & log & Hrun & -> & Hpost).
  exists s', log. split; [exact Hrun | exact Hpost].
Qed.

Lemma cursor_turn_publishes_what_is_staged_witness :
  exists s' log,
    CursorThread_turn example_headers 1
      (stage_both moved_cursor huge_shape example_state) = Some (true, s', log) /\
    turn_published example_headers (stage_both moved_cursor huge_shape example_state) s'.
Proof.
  refine (cursor_turn_publishes_what_is_staged example_headers 1
            (stage_both moved_cursor huge_shape example_state) _ _ _);
    vm_compute; reflexivity.
Defined.

(** The cursor thread returns only when it finds [m_capture] equal to
    [NULL] on entry, and then at once, with 0 and without touching anything:
    while [m_capture] is set no number of turns ends it. *)
Theorem cursor_thread_ends_only_without_capture
  {W : Type} {P : Platform W} (K : Headers) (fuel : nat) (s : Sys W)
  (r : Z) (s' : Sys W) (log : list Event) :
  CursorThread K fuel s = Some (r, s', log) ->
  m_capture (svc s) = false /\ r = 0 /\ s' = s /\ log = [].
Proof.
  intros Hrun. destruct (m_capture (svc s)) eqn:Ecap.
  - rewrite (CursorThread_runs K fuel s Ecap) in Hrun. discriminate Hrun.
  - rewrite (CursorThread_ends K fuel s Ecap) in Hrun.
    inversion Hrun; subst. repeat split.
Qed.

Lemma cursor_thread_ends_only_without_capture_witness :
  exists r s' log,
    CursorThread example_headers 3 tiny_device = Some (r, s', log) /\
    m_capture (svc tiny_device) = false /\ r = 0 /\ s' = tiny_device /\ log = [].
Proof.
  eexists; eexists; eexists. split; [vm_compute; reflexivity |].
  refine (cursor_thread_ends_only_without_capture example_headers 3 tiny_device
            _ _ _ _).
  vm_compute; reflexivity.
Defined.

(** After a successful [Initialize], [DeInitialize] does not return: its wait
    on the cursor thread, run for any number of turns of that thread, does
    not end, since the thread ends only on finding [m_capture] cleared, which
    [DeInitialize] does after the wait.  The same holds of [DeInitialize] as
    [Initialize] calls it, and so of a second [Initialize]. *)
Theorem DeInitialize_after_Initialize_does_not_return
  {W : Type} {P : Platform W} (K : Headers) (s s1 : Sys W) (log : list Event) :
  m_initialized (svc s) = false ->
  m_cursorThread (svc s) = false ->
  Initialize K s = Some (true, s1, log) ->
  forall fuel,
    join_cursorThread K fuel s1 = None /\
    DeInitialize_joining K fuel s1 = None /\
    DeInitialize K s1 = DeInitialize_joining K fuel s1 /\
    Initialize K s1 = None.
Proof.
  intros Hini Hthr Hrun fuel.
  destruct (twp_elim _ _ _ (Initialize_outcome K s Hini Hthr))
    as (r & s' & l1 & Hrun1 & _ & Hpost).
  rewrite Hrun in Hrun1. inversion Hrun1; subst r s' l1. clear Hrun1.
  unfold Initialize_done in Hpost. cbn zeta in Hpost.
  destruct Hpost as (_ & _ & _ & _ & _ & _ & _ & H1 & H2 & H3 & _).
  assert (Hjoin : join_cursorThread K fuel s1 = None).
  { unfold join_cursorThread. unfold bind at 1. unfold gets. rewrite H3.
    unfold bind. rewrite (CursorThread_runs K fuel s1 H2). reflexivity. }
  assert (Hde : DeInitialize_joining K fuel s1 = None).
  { unfold DeInitialize_joining. unfold bind at 1. rewrite Hjoin. reflexivity. }
  split; [exact Hjoin |]. split; [exact Hde |].
  split; [symmetry; apply DeInitialize_joining_agrees |].
  unfold Initialize. unfold bind at 1. unfold gets at 1. rewrite H1.
  unfold bind at 1. rewrite <- (DeInitialize_joining_agrees K fuel), Hde. reflexivity.
Qed.

Lemma DeInitialize_after_Initialize_witness :
  exists s1 log,
    Initialize example_headers stale_region = Some (true, s1, log) /\
    forall fuel,
      join_cursorThread example_headers fuel s1 = None /\
      DeInitialize_joining example_headers fuel s1 = None /\
      DeInitialize example_headers s1 = DeInitialize_joining example_headers fuel s1 /\
      Initialize example_headers s1 = None.
Proof.
  eexists; eexists. split; [vm_compute; reflexivity |].
  refine (DeInitialize_after_Initialize_does_not_return example_headers stale_region
            _ _ _ _ _);
    vm_compute; reflexivity.
Defined.

(** A cycle of [Process] either leaves the staged cursor and its event as
    they were, or stages on top of them a cursor that the backend flagged as
    updated and signals the event; either way an update that was pending is
    still pending after the cycle, and the event once signalled stays
    signalled. *)
Theorem Process_keeps_pending_cursor
  {W : Type} {P : Platform W} (K : Headers) (fuel : nat) (s : Sys W)
  (r : bool) (s' : Sys W) (log : list Event) :
  Process K fuel s = Some (r, s', log) ->
  staged (svc s) (svc s') /\
  (hasPos (m_cursorInfo (svc s)) = true -> hasPos (m_cursorInfo (svc s')) = true) /\
  (hasShape (m_cursorInfo (svc s)) = true -> hasShape (m_cursorInfo (svc s')) = true) /\
  (m_cursorEvent (svc s) = true -> m_cursorEvent (svc s') = true).
Proof.
  intros Hrun.
  pose proof (wp_elim _ _ _ _ _ _ (Process_staged K fuel s) Hrun) as Hst.
  split; [exact Hst |].
  destruct Hst as [[-> ->] | (c & Hc & -> & ->)]; [auto |].
  destruct (stage_pending c (m_cursorInfo (svc s))) as (-> & -> & _).
  repeat split; intros E; rewrite ?E; auto using orb_true_r.
Qed.

Lemma Process_keeps_pending_cursor_witness :
  exists s' log,
    Process example_headers 5
      (with_svc (set_cursorInfo small_shape) first_frame) = Some (true, s', log) /\
    hasShape (m_cursorInfo (svc s')) = true /\
    hasPos (m_cursorInfo (svc s')) = true.
Proof.
  eexists; eexists. split; [vm_compute; reflexivity |].
  split; [| vm_compute; reflexivity].
  refine (proj1 (proj2 (proj2
            (Process_keeps_pending_cursor example_headers 5
               (with_svc (set_cursorInfo small_shape) first_frame) true _ _ _))) _);
    vm_compute; reflexivity.
Defined.

(** A cycle on an initialized service, with RESTART clear, whose [Capture]
    returns GRAB_STATUS_CURSOR: it returns [true] without calling [GetFrame];
    of the region only the global flags change, to zero; ring index and
    memory of a published frame are as they were; and the backend's cursor
    is staged if it is flagged updated. *)
Theorem Process_cursor_only_cycle
  {W : Type} {P : Platform W} (K : Headers) (fuel : nat) (s : Sys W) :
  m_initialized (svc s) = true ->
  is_set KVMFR_HEADER_FLAG_RESTART (read_loc HeaderFlags (shm s)) = false ->
  fst (capture_Capture (world s)) = GRAB_STATUS_CURSOR ->
  exists s' log,
    Process K (S fuel) s = Some (true, s', log) /\
    world s' = world (after_Capture s) /\
    only_flags_changed (shm s) (shm s') /\
    read_loc HeaderFlags (shm s') = 0 /\
    m_frameIndex (svc s') = m_frameIndex (svc s) /\
    m_haveFrame (svc s') = m_haveFrame (svc s) /\
    cursor_staged (capture_GetCursor (world (after_Capture s))) s s' /\
    forallb no_data log = true.
Proof.
  intros Hini Hre Hcap.
  destruct (twp_elim _ _ _ (Process_cursor_only K fuel s Hini Hre Hcap))
    as (r & s' & log & Hrun & -> & Hpost).
  exists s', log. split; [exact Hrun | exact Hpost].
Qed.

Lemma Process_cursor_only_cycle_witness :
  exists s' log,
    Process example_headers 5 cursor_moves = Some (true, s', log) /\
    world s' = world (after_Capture cursor_moves) /\
    only_flags_changed (shm cursor_moves) (shm s') /\
    read_loc HeaderFlags (shm s') = 0 /\
    m_frameIndex (svc s') = m_frameIndex (svc cursor_moves) /\
    m_haveFrame (svc s') = m_haveFrame (svc cursor_moves) /\
    cursor_staged (capture_GetCursor (world (after_Capture cursor_moves)))
      cursor_moves s' /\
    forallb no_data log = true.
Proof.
  refine (Process_cursor_only_cycle example_headers 4 cursor_moves _ _ _);
    vm_compute; reflexivity.
Defined.

(** A cycle on an initialized service that has published a frame, with
    RESTART and the frame's UPDATE clear, whose [Capture] times out: it
    returns [true] without calling [GetFrame]; type, size and offset in the
    frame descriptor are as they were and UPDATE is set again; the global
    flags are zero; and the ring index is one lower modulo MAX_FRAMES. *)
Theorem Process_repeated_frame_cycle
  {W : Type} {P : Platform W} (K : Headers) (fuel : nat) (s : Sys W) :
  Headers_ok K = true ->
  0 <= m_frameIndex (svc s) < MAX_FRAMES K ->
  m_initialized (svc s) = true ->
  is_set KVMFR_HEADER_FLAG_RESTART (read_loc HeaderFlags (shm s)) = false ->
  is_set KVMFR_FRAME_FLAG_UPDATE (read_loc FrameFlags (shm s)) = false ->
  m_haveFrame (svc s) = true ->
  fst (capture_Capture (world s)) = GRAB_STATUS_TIMEOUT ->
  exists s' log,
    Process K (S fuel) s = Some (true, s', log) /\
    world s' = world (after_Capture s) /\
    (forall l, In l payload_fields -> read_loc l (shm s') = read_loc l (shm s)) /\
    is_set KVMFR_FRAME_FLAG_UPDATE (read_loc FrameFlags (shm s')) = true /\
    read_loc HeaderFlags (shm s') = 0 /\
    m_frameIndex (svc s') = (m_frameIndex (svc s) - 1) mod MAX_FRAMES K /\
    m_haveFrame (svc s') = true /\
    forallb no_data log = true.
Proof.
  intros Hok Hi Hini Hre Hup Hhave Hcap. destruct (Headers_ok_frames K Hok) as [Hn _].
  destruct (twp_elim _ _ _ (Process_repeat K fuel s Hn Hi Hini Hre Hup Hhave Hcap))
    as (r & s' & log & Hrun & -> & Hpost).
  exists s', log. split; [exact Hrun | exact Hpost].
Qed.

Lemma Process_repeated_frame_cycle_witness :
  exists s' log,
    Process example_headers 5 frame_acknowledged = Some (true, s', log) /\
    world s' = world (after_Capture frame_acknowledged) /\
    (forall l, In l payload_fields ->
       read_loc l (shm s') = read_loc l (shm frame_acknowledged)) /\
    is_set KVMFR_FRAME_FLAG_UPDATE (read_loc FrameFlags (shm s')) = true /\
    read_loc HeaderFlags (shm s') = 0 /\
    m_frameIndex (svc s') = (m_frameIndex (svc frame_acknowledged) - 1) mod 2 /\
    m_haveFrame (svc s') = true /\
    forallb no_data log = true.
Proof.
  refine (Process_repeated_frame_cycle example_headers 4 frame_acknowledged
            _ _ _ _ _ _ _).
  all: try (vm_compute; reflexivity).
  vm_compute. split; congruence.
Defined.

(** [Initialize] checks the size of the region against the header only.  On
    a region at a multiple of 128 that holds the header but ends before the
    frame ring (the header rounded up to 128 bytes plus the 1 MiB cursor
    area), with a backend whose largest frame is within the slot size that
    the unsigned subtraction yields, it returns [true], and the offset it
    computed for slot 0 lies beyond the end of the region. *)
Theorem Initialize_accepts_region_without_ring
  {W : Type} {P : Platform W} (K : Headers) (s : Sys W) :
  Headers_ok K = true ->
  m_initialized (svc s) = false ->
  m_cursorThread (svc s) = false ->
  fst (ivshmem_Initialize (world s)) = true ->
  0 < ivshmem_GetMemory (snd (ivshmem_Initialize (world s))) ->
  ivshmem_GetMemory (snd (ivshmem_Initialize (world s))) mod 128 = 0 ->
  ivshmem_GetMemory (snd (ivshmem_Initialize (world s))) + ring_offset K < 2 ^ 64 ->
  sizeof_KVMFRHeader K <= ivshmem_GetSize (snd (ivshmem_Initialize (world s)))
  < ring_offset K ->
  capture_GetMaxFrameSize (snd (ivshmem_Initialize (world s)))
  <= init_frameSize K (ivshmem_GetMemory (snd (ivshmem_Initialize (world s))))
                      (ivshmem_GetSize (snd (ivshmem_Initialize (world s)))) ->
  exists s' log,
    Initialize K s = Some (true, s', log) /\
    m_initialized (svc s') = true /\
    slot_offset (svc s') 0 = ring_offset K /\
    ivshmem_GetSize (snd (ivshmem_Initialize (world s))) < slot_offset (svc s') 0.
Proof.
  intros Hok Hini Hthr Hopen Hbase Halign Haddr Hrange Hmax.
  eapply Initialize_without_ring; eauto.
Qed.

Lemma Initialize_accepts_region_without_ring_witness :
  exists s' log,
    Initialize example_headers cramped_device = Some (true, s', log) /\
    m_initialized (svc s') = true /\
    slot_offset (svc s') 0 = ring_offset example_headers /\
    1000 < slot_offset (svc s') 0.
Proof.
  refine (Initialize_accepts_region_without_ring example_headers cramped_device
            _ _ _ _ _ _ _ _ _).
  all: try (vm_compute; reflexivity).
  all: vm_compute; try split; congruence.
Defined.

(** While the backend's [Capture] keeps timing out and no frame has been
    published, a cycle of [Process] on an initialized service with RESTART
    clear does not return, whatever the number of attempts allowed: the
    time-outs are handed back to the loop counter without end. *)
Theorem Process_waits_for_first_frame
  {W : Type} {P : Platform W} (K : Headers) (fuel : nat) (s : Sys W) :
  m_initialized (svc s) = true ->
  is_set KVMFR_HEADER_FLAG_RESTART (read_loc HeaderFlags (shm s)) = false ->
  m_haveFrame (svc s) = false ->
  always_times_out (world s) ->
  Process K fuel s = None.
Proof. apply Process_spins. Qed.

Lemma Process_waits_for_first_frame_witness :
  Process example_headers 7 example_state = None.
Proof.
  refine (Process_waits_for_first_frame example_headers 7 example_state _ _ _ _).
  - vm_compute; reflexivity.
  - vm_compute; reflexivity.
  - vm_compute; reflexivity.
  - exact idle_backend_times_out.
Defined.

(** [InitPointers] always returns [true], and whatever the base address and
    the size of the region, the addresses it computes are multiples of 128:
    the cursor area, every slot of the ring, and the slot size. *)
Theorem InitPointers_aligns_addresses
  {W : Type} {P : Platform W} (K : Headers) (s : Sys W) :
  exists s' log,
    InitPointers K s = Some (true, s', log) /\ addresses_aligned K (svc s').
Proof. apply InitPointers_aligned. Qed.
